(** * Insight-and-Dashboard-Agent: a shallow embedding of the agent pipeline

    The repository is a chain of Python agents (schema parsing, KPI
    identification, data retrieval, insight generation, visualization,
    dashboard assembly) glued together by [main].  This development embeds
    the glue code as Rocq functions and proves the properties the
    specification states about it.

    Conventions.
    - Python [str] values are modelled as [string], a character standing
      for the code point of its number: the texts covered are those whose
      code points are below 256.  On them [str.lower], [str.isspace] and
      the class [\s] of [re] are as defined below.
    - Python floats are IEEE-754 binary64 numbers: the primitive [float].
    - Code that can raise returns a [result]; code that talks to the
      language model, the SQL engine or the console runs in the monad [M],
      whose state is the collaborators' world plus a trace of the requests
      made and the lines printed.  The trace is there for the properties:
      no code reads it. *)

From Stdlib Require Import Bool List ZArith Lia String Ascii Floats DecimalString
  Permutation.
Import ListNotations.
#[local] Set Warnings "-register-all".
Local Open Scope list_scope.
Local Open Scope string_scope.

(** ** Python string operations *)

(** The code points below 256 that [str.lower] changes: [A] to [Z], and
    the accented capitals 192 to 222 without the multiplication sign 215.
    Each goes to the code point 32 above it. *)
Definition is_upper (c : ascii) : bool :=
  let n := nat_of_ascii c in
  ((65 <=? n)%nat && (n <=? 90)%nat) ||
  ((192 <=? n)%nat && (n <=? 222)%nat && negb (n =? 215)%nat).

Definition lower_char (c : ascii) : ascii :=
  if is_upper c then ascii_of_nat (nat_of_ascii c + 32) else c.

(** [str.lower()] *)
Fixpoint lower (s : string) : string :=
  match s with
  | EmptyString => EmptyString
  | String c r => String (lower_char c) (lower r)
  end.

(** [s.startswith(p)] *)
Definition startswith (s p : string) : bool := String.prefix p s.

(** [s.endswith(suf)] *)
Definition endswith (s suf : string) : bool :=
  let n := String.length s in
  let k := String.length suf in
  (k <=? n)%nat && String.eqb (String.substring (n - k) k s) suf.

(** ** More string operations *)

(** Python's [str.isspace], which is also what [str.strip] removes and
    what [\s] matches in a [str] pattern: tab to carriage return, the four
    separators 28 to 31, the space, the next-line control 133 and the
    no-break space 160. *)
Definition is_space (c : ascii) : bool :=
  let n := nat_of_ascii c in
  ((9 <=? n)%nat && (n <=? 13)%nat) || ((28 <=? n)%nat && (n <=? 32)%nat) ||
  (n =? 133)%nat || (n =? 160)%nat.

Fixpoint lstrip (s : string) : string :=
  match s with
  | String c r => if is_space c then lstrip r else s
  | EmptyString => EmptyString
  end.

Fixpoint string_rev_onto (s acc : string) : string :=
  match s with
  | EmptyString => acc
  | String c r => string_rev_onto r (String c acc)
  end.

Definition string_rev (s : string) : string := string_rev_onto s EmptyString.

Definition rstrip (s : string) : string := string_rev (lstrip (string_rev s)).

(** [s.strip()] *)
Definition strip (s : string) : string := rstrip (lstrip s).

(** [s[n:]] *)
Fixpoint drop (n : nat) (s : string) : string :=
  match n, s with
  | O, _ => s
  | S n', String _ r => drop n' r
  | S _, EmptyString => EmptyString
  end.

(** [s[:-k]] for [k <= len(s)] *)
Definition drop_end (k : nat) (s : string) : string :=
  String.substring 0 (String.length s - k) s.

(** [sep.join(parts)] *)
Definition join (sep : string) (parts : list string) : string :=
  String.concat sep parts.

Definition nl : string := String (ascii_of_nat 10) EmptyString.
Definition dq : string := String (ascii_of_nat 34) EmptyString.

(** [s.split('\n')]: the lines of a text; a text with [n] line feeds has
    [n + 1] lines. *)
Fixpoint split_lines (s : string) : list string :=
  match s with
  | EmptyString => [EmptyString]
  | String c r =>
      if Ascii.eqb c (ascii_of_nat 10) then EmptyString :: split_lines r
      else match split_lines r with
           | l :: ls => String c l :: ls
           | [] => [String c EmptyString]
           end
  end.

(** ** Exceptions, results and the effect monad *)

(** The exceptions the pipeline meets, by class.  What the libraries, the
    model and the SQL engine raise derives from [Exception]; the one
    place where an exception of another kind arises is the run of
    generated code (see [exec_outcome]). *)
Inductive exn :=
| JSONDecodeError (msg : string)
| ValueError (msg : string)
| TypeError (msg : string)
| RuntimeError (msg : string)
| OtherException (cls msg : string).

(** [str(e)] *)
Definition exn_str (e : exn) : string :=
  match e with
  | JSONDecodeError m | ValueError m | TypeError m | RuntimeError m => m
  | OtherException _ m => m
  end.

Inductive result (A : Type) :=
| Ok (a : A)
| Raise (e : exn).
Arguments Ok {A} a.
Arguments Raise {A} e.

Definition rbind {A B} (r : result A) (k : A -> result B) : result B :=
  match r with
  | Ok a => k a
  | Raise e => Raise e
  end.

(** What the pipeline does to the outside, in the order it does it. *)
Inductive event :=
| Printed (line : string)
| ModelCall (prompt : string)
| SqlQuery (query : string)
| ExecCode (code : string).

Record state (W : Type) := mk_state {
  world : W;
  trace : list event
}.
Arguments mk_state {W} world trace.
Arguments world {W} s.
Arguments trace {W} s.

Definition M (W A : Type) : Type := state W -> result A * state W.

Definition ret {W A} (a : A) : M W A := fun s => (Ok a, s).

Definition bind {W A B} (m : M W A) (k : A -> M W B) : M W B :=
  fun s => match m s with
           | (Ok a, s') => k a s'
           | (Raise e, s') => (Raise e, s')
           end.

Definition raise {W A} (e : exn) : M W A := fun s => (Raise e, s).

Definition lift {W A} (r : result A) : M W A := fun s => (r, s).

(** [try: body  except Exception as e: handler(e)] *)
Definition try_except {W A} (body : M W A) (handler : exn -> M W A) : M W A :=
  fun s => match body s with
           | (Ok a, s') => (Ok a, s')
           | (Raise e, s') => handler e s'
           end.

Definition log {W} (e : event) : M W unit :=
  fun s => (Ok tt, mk_state (world s) (trace s ++ [e])%list).

(** [print(line)] *)
Definition print {W} (line : string) : M W unit := log (Printed line).

Declare Scope monad_scope.
Delimit Scope monad_scope with monad.
Notation "x <- m ;; k" := (bind m (fun x => k))
  (at level 61, m at next level, right associativity) : monad_scope.
Notation "m ;;; k" := (bind m (fun _ => k))
  (at level 61, right associativity) : monad_scope.
Local Open Scope monad_scope.

(** ** Values *)

(** What [json.loads] returns. *)
Inductive json :=
| JNull
| JBool (b : bool)
| JInt (z : Z)
| JFloat (f : float)
| JStr (s : string)
| JArr (items : list json)
| JObj (members : list (string * json)).

(** Insertion-ordered dicts with string keys. *)
Definition dict (V : Type) : Type := list (string * V).

Fixpoint dict_get {V} (d : dict V) (k : string) : option V :=
  match d with
  | [] => None
  | (k', v) :: r => if String.eqb k' k then Some v else dict_get r k
  end.

(** [d[k] = v]: a key already there keeps its place. *)
Fixpoint dict_set {V} (d : dict V) (k : string) (v : V) : dict V :=
  match d with
  | [] => [(k, v)]
  | (k', v') :: r =>
      if String.eqb k' k then (k', v) :: r else (k', v') :: dict_set r k v
  end.

Definition dict_keys {V} (d : dict V) : list string := map fst d.

(** [d.get(k, default)] *)
Definition get_default {V} (o : option V) (default : V) : V :=
  match o with
  | Some v => v
  | None => default
  end.

(** ** SchemaParsingAgent.py *)

Module Schema.

(** The dtypes a frame read from CSV or from the SQL engine carries. *)
Inductive dtype := int64 | float64 | bool_ | datetime64 | object_ | category.

(** pandas' predicates on dtypes, as documented. *)
Definition is_numeric_dtype (d : dtype) : bool :=
  match d with int64 | float64 | bool_ => true | _ => false end.
Definition is_datetime64_any_dtype (d : dtype) : bool :=
  match d with datetime64 => true | _ => false end.
Definition is_string_dtype (d : dtype) : bool :=
  match d with object_ => true | _ => false end.

Inductive semantic_type := numerical | datetime | categorical | unknown.

Inductive role := identifier | metric | dimension.

Definition infer_field_type (d : dtype) : semantic_type :=
  if is_numeric_dtype d then numerical
  else if is_datetime64_any_dtype d then datetime
  else if is_string_dtype d then categorical
  else unknown.

(** One entry of [self.schema]; the key ['role'] is absent until
    [annotate_schema] has run. *)
Record field := mk_field {
  table_name : string;
  field_name : string;
  field_dtype : dtype;
  field_semantic_type : semantic_type;
  field_role : option role
}.

Definition parse_field (table col : string) (d : dtype) : field :=
  mk_field table col d (infer_field_type d) None.

(** [parse_schema]: one descriptor per column, in column order. *)
Definition parse_schema (table : string) (cols : list (string * dtype)) : list field :=
  map (fun cd => parse_field table (fst cd) (snd cd)) cols.

(** The body of the loop of [annotate_schema]: the role of one field. *)
Definition assign_role (name : string) (st : semantic_type) : role :=
  if String.eqb (lower name) "id" || endswith (lower name) "_id" then identifier
  else match st with
       | numerical => metric
       | _ => dimension
       end.

Definition annotate_field (f : field) : field :=
  mk_field (table_name f) (field_name f) (field_dtype f) (field_semantic_type f)
           (Some (assign_role (field_name f) (field_semantic_type f))).

Definition annotate_schema (schema : list field) : list field :=
  map annotate_field schema.

Definition get_fields_by_role (schema : list field) (r : role) : list string :=
  map field_name
      (filter (fun f => match field_role f with
                        | Some r' => match r, r' with
                                     | identifier, identifier
                                     | metric, metric
                                     | dimension, dimension => true
                                     | _, _ => false
                                     end
                        | None => false
                        end) schema).

(** The dict returned by [schema_api]. *)
Record schema_summary := mk_summary {
  all_fields : list string;
  metrics : list string;
  dimensions : list string;
  identifiers : list string
}.

Definition schema_api (schema : list field) : schema_summary :=
  mk_summary (map field_name schema)
             (get_fields_by_role schema metric)
             (get_fields_by_role schema dimension)
             (get_fields_by_role schema identifier).

(** The reading of the role rule that compares the name as it is written,
    without lower-casing: what "named [id] or ending in [_id]" says
    literally. *)
Definition role_by_literal_name (name : string) (st : semantic_type) : role :=
  if String.eqb name "id" || endswith name "_id" then identifier
  else match st with
       | numerical => metric
       | _ => dimension
       end.

End Schema.

(** ** Tables: the part of pandas the agents use

    A frame is kept row by row: every row carries its index label and one
    cell per column, in column order.  Column labels are taken to be
    pairwise distinct. *)

Module Frame.
Import Schema.

Inductive cell :=
| Num (f : float)
| Str (s : string)
| Missing.

(** [pd.isna]: [None], [NaT] and the float [nan] are missing. *)
Definition isna (c : cell) : bool :=
  match c with
  | Missing => true
  | Num f => is_nan f
  | Str _ => false
  end.

Record DataFrame := mk_frame {
  columns : list (string * dtype);
  rows : list (Z * list cell)
}.

Record Series := mk_series {
  s_dtype : dtype;
  s_items : list (Z * cell)
}.

(** [pd.DataFrame()] *)
Definition empty_frame : DataFrame := mk_frame [] [].

(** [len(df)] *)
Definition len (df : DataFrame) : Z := Z.of_nat (List.length (rows df)).

(** [df.empty]: no row or no column. *)
Definition empty (df : DataFrame) : bool :=
  match rows df, columns df with
  | [], _ => true
  | _, [] => true
  | _, _ => false
  end.

(** [s.empty] *)
Definition s_empty (s : Series) : bool :=
  match s_items s with [] => true | _ => false end.

(** [s.index] and [s.values] *)
Definition s_index (s : Series) : list Z := map fst (s_items s).
Definition s_values (s : Series) : list cell := map snd (s_items s).

(** [name in df.columns] *)
Definition has_column (df : DataFrame) (name : string) : bool :=
  existsb (fun c => String.eqb (fst c) name) (columns df).

Fixpoint position (name : string) (cols : list (string * dtype)) : option (nat * dtype) :=
  match cols with
  | [] => None
  | (n, d) :: r =>
      if String.eqb n name then Some (O, d)
      else match position name r with
           | Some (i, d') => Some (S i, d')
           | None => None
           end
  end.

(** [df[name]]; a label that is not a column raises [KeyError]. *)
Definition get_column (df : DataFrame) (name : string) : result Series :=
  match position name (columns df) with
  | Some (i, d) =>
      Ok (mk_series d (map (fun r => (fst r, nth i (snd r) Missing)) (rows df)))
  | None => Raise (OtherException "KeyError" name)
  end.

(** [df[[a, b]]] *)
Definition get_columns2 (df : DataFrame) (a b : string) : result DataFrame :=
  match position a (columns df), position b (columns df) with
  | Some (i, da), Some (j, db) =>
      Ok (mk_frame [(a, da); (b, db)]
            (map (fun r => (fst r, [nth i (snd r) Missing; nth j (snd r) Missing]))
                 (rows df)))
  | _, _ => Raise (OtherException "KeyError" (a ++ ", " ++ b))
  end.

(** numpy's [np.number]: the integer and floating dtypes, not [bool]. *)
Definition is_np_number (d : dtype) : bool :=
  match d with int64 | float64 => true | _ => false end.

Definition is_object_or_category (d : dtype) : bool :=
  match d with object_ | category => true | _ => false end.

Fixpoint mask_filter {A} (mask : list bool) (l : list A) : list A :=
  match mask, l with
  | b :: m, x :: r => if b then x :: mask_filter m r else mask_filter m r
  | _, _ => []
  end.

(** [df.select_dtypes(include=...)] *)
Definition select_dtypes (keep : dtype -> bool) (df : DataFrame) : DataFrame :=
  let mask := map (fun c => keep (snd c)) (columns df) in
  mk_frame (mask_filter mask (columns df))
           (map (fun r => (fst r, mask_filter mask (snd r))) (rows df)).

(** [df.dropna()]: the rows without a missing cell. *)
Definition dropna (df : DataFrame) : DataFrame :=
  mk_frame (columns df)
           (filter (fun r => negb (existsb isna (snd r))) (rows df)).

(** [s.dropna()] *)
Definition s_dropna (s : Series) : Series :=
  mk_series (s_dtype s) (filter (fun it => negb (isna (snd it))) (s_items s)).

(** [df.head(n)] for [n >= 0] *)
Definition head (n : nat) (df : DataFrame) : DataFrame :=
  mk_frame (columns df) (firstn n (rows df)).

(** Order of the keys of a sort: numbers by [<=], strings
    lexicographically. *)
Definition cell_leb (a b : cell) : bool :=
  match a, b with
  | Num x, Num y => PrimFloat.leb x y
  | Str x, Str y => String.leb x y
  | _, _ => true
  end.

Definition same_kind (a b : cell) : bool :=
  match a, b with
  | Num _, Num _ | Str _, Str _ | Missing, Missing => true
  | _, _ => false
  end.

Definition key_of (i : nat) (r : Z * list cell) : cell := nth i (snd r) Missing.

Fixpoint insert_row (i : nat) (r : Z * list cell) (sorted : list (Z * list cell))
  : list (Z * list cell) :=
  match sorted with
  | [] => [r]
  | h :: t =>
      if cell_leb (key_of i r) (key_of i h) then r :: sorted
      else h :: insert_row i r t
  end.

Definition sort_rows (i : nat) (rs : list (Z * list cell)) : list (Z * list cell) :=
  fold_right (insert_row i) [] rs.

Definition label_count (key : string) (cols : list (string * dtype)) : nat :=
  List.length (filter (fun c => String.eqb (fst c) key) cols).

(** [df.sort_values(key)], ascending.  A label carried by two columns
    raises [ValueError]; comparing a number with a string raises
    [TypeError], as Python's [<] does.  Rows with equal keys keep their
    order here; pandas leaves that order open. *)
Definition sort_values (df : DataFrame) (key : string) : result DataFrame :=
  match position key (columns df) with
  | None => Raise (OtherException "KeyError" key)
  | Some (i, _) =>
      if (1 <? label_count key (columns df))%nat
      then Raise (ValueError ("The column label '" ++ key ++ "' is not unique."))
      else
        match rows df with
        | [] => Ok df
        | r0 :: _ =>
            if forallb (fun r => same_kind (key_of i r0) (key_of i r)) (rows df)
            then Ok (mk_frame (columns df) (sort_rows i (rows df)))
            else Raise (TypeError "'<' not supported between instances of 'str' and 'float'")
        end
  end.

(** The float64 view of a column that pandas' window functions work on;
    a string in it raises. *)
Fixpoint ensure_float64 (cs : list cell) : result (list float) :=
  match cs with
  | [] => Ok []
  | Num f :: r => rbind (ensure_float64 r) (fun fs => Ok (f :: fs))
  | Missing :: r => rbind (ensure_float64 r) (fun fs => Ok (nan :: fs))
  | Str _ :: _ => Raise (TypeError "cannot handle this type -> object")
  end.

Definition float_of_nat (n : nat) : float :=
  PrimFloat.of_uint63 (Uint63.of_Z (Z.of_nat n)).

(** [df[names]] for labels that are all columns of [df] *)
Definition select_columns (df : DataFrame) (names : list string) : DataFrame :=
  let picks := flat_map (fun n => match position n (columns df) with
                                  | Some (i, d) => [(n, i, d)]
                                  | None => []
                                  end) names in
  mk_frame (map (fun p => (fst (fst p), snd p)) picks)
           (map (fun r => (fst r, map (fun p => nth (snd (fst p)) (snd r) Missing) picks))
                (rows df)).

(** [df.rename(columns={old: new})] *)
Definition rename_column (df : DataFrame) (old new : string) : DataFrame :=
  mk_frame (map (fun c => if String.eqb (fst c) old then (new, snd c) else c) (columns df))
           (rows df).

(** [s.head(n)] of a table of counts *)
Definition counts_head (n : nat) (counts : list (cell * Z)) : list (cell * Z) :=
  firstn n counts.

End Frame.

(** ** The libraries and the collaborators

    The numerical and rendering routines of json, numpy, scipy, pandas and
    scikit-learn that the agents call are not part of the repository; the
    agents are embedded over any implementation of them. *)

Class Library := {
  (* [json.loads]; text that is not valid JSON raises [JSONDecodeError] *)
  json_loads : string -> result json;
  (* [np.polyfit(np.arange(len(y)), y, 1)[0]] *)
  polyfit_slope : list float -> result float;
  (* [s.rolling(window=w).mean()] on the float64 values of [s], for a
     window [w >= 0]: one entry per value, [nan] where the window has no
     mean *)
  rolling_mean : nat -> list float -> list float;
  (* [scipy.stats.zscore] *)
  zscore : list float -> result (list float);
  (* [df.describe().transpose()] *)
  describe_transpose : Frame.DataFrame -> result Frame.DataFrame;
  (* [df.corr()] *)
  corr : Frame.DataFrame -> result Frame.DataFrame;
  (* [s.value_counts(dropna=False)] *)
  value_counts : Frame.Series -> result (list (Frame.cell * Z));
  (* [KMeans(n_clusters=n, random_state=42).fit_predict(df)] *)
  kmeans_fit_predict : Z -> Frame.DataFrame -> result (list Z);
  (* [df.to_string()] *)
  frame_to_string : Frame.DataFrame -> string;
  (* [df.round(2)] *)
  frame_round2 : Frame.DataFrame -> Frame.DataFrame;
  (* [f"{x:.4f}"] *)
  format_4f : float -> string;
  (* [str] of a cell and of an integer *)
  str_cell : Frame.cell -> string;
  str_int : Z -> string;
  (* [repr(df.to_dict(orient='records'))] *)
  repr_records : Frame.DataFrame -> string
}.

(** [s.rolling(window=w).mean().dropna()]: the window is checked when
    the rolling object is made, a negative one raising [ValueError]; the
    positions without a mean are dropped. *)
Definition rolling_mean_dropna `{Library} (w : Z) (ys : list float) : result (list float) :=
  if (w <? 0)%Z then Raise (ValueError "window must be an integer 0 or greater")
  else Ok (filter (fun m => negb (is_nan m)) (rolling_mean (Z.to_nat w) ys)).

(** Whatever the generated code leaves in the variable [fig]. *)
Record pyobj := mk_pyobj {
  obj_truthy : bool;
  obj_has_show : bool;
  obj_repr : string
}.

(** How a run of generated code ends: it returns, leaving something or
    nothing in [fig]; or it raises an exception derived from [Exception];
    or it raises one that is not, which [except Exception] does not catch:
    [SystemExit] (the code calls [sys.exit]), [KeyboardInterrupt] or
    [GeneratorExit]. *)
Inductive exec_outcome :=
| Returned (fig : option pyobj)
| Raised (e : exn)
| Exited (e : exn).

(** The language model, the SQL engine and the Python interpreter running
    generated code, each acting on a world [W]. *)
Class Collaborators (W : Type) := {
  (* [model.generate_content(prompt, ...).text] *)
  generate_content : string -> W -> result string * W;
  (* [pd.read_sql_query(query, conn)] *)
  read_sql_query : string -> W -> result Frame.DataFrame * W;
  (* [exec(code, {}, {'data_df': data})], then [local_vars.get('fig')] *)
  exec_code : string -> Frame.DataFrame -> W -> exec_outcome * W
}.

Definition call_model {W} `{Collaborators W} (prompt : string) : M W string :=
  fun s => let (r, w) := generate_content prompt (world s) in
           (r, mk_state w (trace s ++ [ModelCall prompt])%list).

Definition call_sql {W} `{Collaborators W} (query : string) : M W Frame.DataFrame :=
  fun s => let (r, w) := read_sql_query query (world s) in
           (r, mk_state w (trace s ++ [SqlQuery query])%list).

Definition call_exec {W} `{Collaborators W} (code : string) (data : Frame.DataFrame)
  : M W exec_outcome :=
  fun s => let (r, w) := exec_code code data (world s) in
           (Ok r, mk_state w (trace s ++ [ExecCode code])%list).

(** A KPI record: the dict with the keys [KPI], [Description] and [Fields]
    that the model is asked for; each key may be absent. *)
Record kpi := mk_kpi {
  KPI : option string;
  Description : option string;
  Fields : option (list string)
}.


(** ** KPIidentificationagent.py *)

Module KPIIdentification.
Import Schema.

Record agent := mk_agent {
  schema_api : schema_summary;
  user_query : string
}.

(** The lines one role contributes: a heading and one line per field,
    nothing when the role has no field. *)
Definition role_lines (heading : string) (fields : list string) : list string :=
  match fields with
  | [] => []
  | _ => (heading ++ " fields:") :: map (fun f => " - " ++ f) fields
  end.

Definition format_schema_for_prompt (self : agent) : string :=
  join nl (role_lines "Identifiers" (identifiers (schema_api self)) ++
           role_lines "Metrics" (metrics (schema_api self)) ++
           role_lines "Dimensions" (dimensions (schema_api self)))%list.

Definition create_prompt (self : agent) : string :=
  let schema_str := format_schema_for_prompt self in
    nl ++
    "You are an expert analytics assistant." ++ nl ++
    nl ++
    "Given the dataset schema below:" ++ nl ++
    nl ++
    schema_str ++ nl ++
    nl ++
    "And the user query:" ++ nl ++
    nl ++
    dq ++ dq ++ dq ++ user_query self ++ dq ++ dq ++ dq ++ nl ++
    nl ++
    "Please suggest a list of KPIs that address the user's business goals." ++ nl ++
    "Also suggest necessary Descriptive statistics." ++ nl ++
    "-help user understand the data" ++ nl ++
    "-help user see full picture of the situation " ++ nl ++
    "Choose KPIs that are aligned with strategic goals, measurable with available data, actionable, clearly defined, and free from unintended negative incentives." ++ nl ++
    "For each KPI(key performance indicator), provide the following fields in JSON array format:" ++ nl ++
    "- " ++ dq ++ "KPI" ++ dq ++ ": The KPI name as a string" ++ nl ++
    "- " ++ dq ++ "Description" ++ dq ++ ": A brief explanation or formula of the KPI" ++ nl ++
    "- " ++ dq ++ "Fields" ++ dq ++ ": A list of the related schema fields used to compute this KPI" ++ nl ++
    nl ++
    "Example response:" ++ nl ++
    nl ++
    "[" ++ nl ++
    "  {" ++ nl ++
    "    " ++ dq ++ "KPI" ++ dq ++ ": " ++ dq ++ "Total Sales" ++ dq ++ "," ++ nl ++
    "    " ++ dq ++ "Description" ++ dq ++ ": " ++ dq ++ "Sum of sales amount over the period" ++ dq ++ "," ++ nl ++
    "    " ++ dq ++ "Fields" ++ dq ++ ": [" ++ dq ++ "sales_amount" ++ dq ++ "]" ++ nl ++
    "  }," ++ nl ++
    "  {" ++ nl ++
    "    " ++ dq ++ "KPI" ++ dq ++ ": " ++ dq ++ "Customer Count" ++ dq ++ "," ++ nl ++
    "    " ++ dq ++ "Description" ++ dq ++ ": " ++ dq ++ "Number of unique customers" ++ dq ++ "," ++ nl ++
    "    " ++ dq ++ "Fields" ++ dq ++ ": [" ++ dq ++ "customer_id" ++ dq ++ "]" ++ nl ++
    "  }" ++ nl ++
    "]" ++ nl ++
    "Your response must be ONLY a valid JSON array matching the example format." ++ nl ++
    "DO NOT include unncessary things like ''' " ++ dq ++ dq ++ " json etc" ++ nl ++
    "ONLY GIVE VALID JSON" ++ nl.

Section WithCollaborators.
Context {W : Type} `{Collaborators W} `{Library}.

Definition call_llm (prompt : string) : M W string := call_model prompt.

(** [parse_kpi_json]: the parsed value, or [None] (here [JNull]) after a
    [JSONDecodeError]; any other exception of [json.loads] is not caught. *)
Definition parse_kpi_json (text : string) : M W json :=
  match json_loads text with
  | Ok kpis => ret kpis
  | Raise (JSONDecodeError _) =>
      print "Failed to parse JSON from LLM response." ;;;
      print ("Raw LLM output: " ++ text) ;;;
      ret JNull
  | Raise e => raise e
  end.

Definition suggest_kpis (self : agent) : M W json :=
  let prompt := create_prompt self in
  llm_output <- call_llm prompt ;;
  parse_kpi_json llm_output.

End WithCollaborators.
End KPIIdentification.

(** ** dataretrievalagent.py *)

Module DataRetrieval.
Import Schema Frame.

Record agent := mk_agent {
  schema_api : schema_summary;
  (* the SQLAlchemy engine, [None] when not configured *)
  sql_engine : option string
}.

Definition generate_code_prompt (self : agent) (k : kpi) : string :=
  let fields := get_default (Fields k) [] in
  let kpi_name := get_default (KPI k) "Unknown KPI" in
  let kpi_desc := get_default (Description k) EmptyString in
  let dim_fields := dimensions (schema_api self) in
  let id_fields := identifiers (schema_api self) in
  let schema_info :=
    "Metrics: " ++ join ", " (metrics (schema_api self)) ++ nl ++
    "Dimensions: " ++ join ", " dim_fields ++ nl ++
    "Identifiers: " ++ join ", " id_fields in
    nl ++
    "You are a skilled data engineer." ++ nl ++
    nl ++
    "Given the dataset schema below:" ++ nl ++
    nl ++
    schema_info ++ nl ++
    nl ++
    "Write a SQL query that returns the minimal data required to compute the KPI named '" ++ kpi_name ++ "'." ++ nl ++
    nl ++
    "KPI description: " ++ kpi_desc ++ nl ++
    nl ++
    "The data should include these fields: " ++ join ", " fields ++ "." ++ nl ++
    "Assume the main table is named 'main_table'." ++ nl ++
    "Your SQL query should assign the result to a variable named 'result' or return the final SELECT statement." ++ nl ++
    nl ++
    "Return ONLY the SQL query without explanations or comments." ++ nl.

(** [re.sub(r'^```sql\s*', '', s, flags=re.IGNORECASE)] *)
Definition strip_sql_fence (s : string) : string :=
  if String.eqb (lower (String.substring 0 6 s)) "```sql" then lstrip (drop 6 s)
  else s.

(** [re.sub(r'```$', '', s)]: [$] matches at the end of the text and just
    before a line feed that ends it. *)
Definition strip_closing_fence (s : string) : string :=
  if endswith s "```" then drop_end 3 s
  else if endswith s ("```" ++ nl) then drop_end 4 s ++ nl
  else s.

Definition clean_sql_code (sql_text : string) : string :=
  let cleaned := strip_sql_fence (strip sql_text) in
  let cleaned := strip_closing_fence cleaned in
  strip cleaned.

(** A value a generator yields: the KPI name and the retrieved table, or
    [None] in its place. *)
Definition yielded : Type := string * option DataFrame.

Section WithCollaborators.
Context {W : Type} `{Collaborators W}.

Definition generate_code_for_kpi (self : agent) (k : kpi) : M W string :=
  response_text <- call_model (generate_code_prompt self k) ;;
  ret (strip response_text).

Definition run_sql (self : agent) (query : string) : M W DataFrame :=
  let cleaned_query := clean_sql_code query in
  match sql_engine self with
  | None => raise (ValueError "SQL engine is not configured.")
  | Some _ => call_sql cleaned_query
  end.

Definition get_data_for_kpi (self : agent) (k : kpi) : M W DataFrame :=
  sql <- generate_code_for_kpi self k ;;
  print ("Generated SQL for KPI '" ++ get_default (KPI k) EmptyString ++ "':" ++ nl
         ++ sql ++ nl) ;;;
  run_sql self sql.

(** One turn of the loop of [get_data_for_all_kpis]: what the generator
    does between two [yield]s. *)
Definition get_data_for_all_kpis_step (self : agent) (k : kpi) : M W yielded :=
  let kpi_name := get_default (KPI k) "Unnamed_KPI" in
  try_except
    (df <- get_data_for_kpi self k ;;
     ret (kpi_name, Some df))
    (fun e =>
       print ("Failed to retrieve data for KPI '" ++ kpi_name ++ "': " ++ exn_str e) ;;;
       ret (kpi_name, None)).

(** The generator object of [get_data_for_all_kpis(kpis)] is the list of
    KPIs it has still to visit; [next] runs the loop up to the next
    [yield], and returns [None] when the loop is over. *)
Definition get_data_for_all_kpis (kpis : list kpi) : list kpi := kpis.

Definition next (self : agent) (gen : list kpi) : M W (option (yielded * list kpi)) :=
  match gen with
  | [] => ret None
  | k :: rest =>
      y <- get_data_for_all_kpis_step self k ;;
      ret (Some (y, rest))
  end.

(** [list(gen)]: the generator iterated to its end. *)
Fixpoint iterate (self : agent) (gen : list kpi) : M W (list yielded) :=
  match gen with
  | [] => ret []
  | k :: rest =>
      y <- get_data_for_all_kpis_step self k ;;
      ys <- iterate self rest ;;
      ret (y :: ys)
  end.

End WithCollaborators.

(** What the specification's words "an empty result table" say of the
    second component of a yielded pair: a table is there, and it has no
    row. *)
Definition carries_empty_table (r : option DataFrame) : bool :=
  match r with
  | Some df => match rows df with [] => true | _ => false end
  | None => false
  end.

End DataRetrieval.


(** ** insightgenerationagent.py *)

Module InsightGeneration.
Import Schema Frame.

Record agent := mk_agent {
  datetime_col : option string
}.

(** The dict [detect_trends] returns. *)
Record trend_info := mk_trend {
  t_field : string;
  t_trend : string;
  t_slope : float
}.

(** The values an insight bundle holds under its keys. *)
Inductive bundle_value :=
| VFrame (df : DataFrame)
| VCategorical (summaries : dict (list (cell * Z)))
| VTrends (trends : list trend_info)
| VAnomalies (anomalies : dict (list Z))
| VClusters (clusters : list (Z * list Z))
| VNone
| VStr (s : string).

(** [not self.datetime_col or self.datetime_col not in data.columns] *)
Definition no_datetime_col (self : agent) (data : DataFrame) : bool :=
  match datetime_col self with
  | None => true
  | Some dt => String.eqb dt EmptyString || negb (has_column data dt)
  end.

(** [trend = "increasing" if slope > 0 else "decreasing" if slope < 0 else "stable"] *)
Definition classify_slope (slope : float) : string :=
  if PrimFloat.ltb 0 slope then "increasing"
  else if PrimFloat.ltb slope 0 then "decreasing"
  else "stable".

(** [cluster_map.setdefault(label, []).append(row)] *)
Fixpoint cluster_add (m : list (Z * list Z)) (label row : Z) : list (Z * list Z) :=
  match m with
  | [] => [(label, [row])]
  | (l, members) :: r =>
      if Z.eqb l label then (l, members ++ [row])%list :: r
      else (l, members) :: cluster_add r label row
  end.

(** The loop over [enumerate(clusters)]; a label beyond the last row
    raises [IndexError]. *)
Fixpoint cluster_loop (clusters index : list Z) (m : list (Z * list Z))
  : result (list (Z * list Z)) :=
  match clusters, index with
  | [], _ => Ok m
  | c :: cs, i :: is_ => cluster_loop cs is_ (cluster_add m c i)
  | _ :: _, [] => Raise (OtherException "IndexError" "index out of bounds")
  end.

Section WithLibrary.
Context `{Library}.

Definition descriptive_stats (data : DataFrame) : result DataFrame :=
  let numeric := select_dtypes is_np_number data in
  if empty numeric then Ok empty_frame
  else describe_transpose numeric.

Fixpoint categorical_loop (data : DataFrame) (cols : list string)
         (summaries : dict (list (cell * Z))) : result (dict (list (cell * Z))) :=
  match cols with
  | [] => Ok summaries
  | col :: r =>
      rbind (get_column data col) (fun s =>
      rbind (value_counts s) (fun counts =>
      categorical_loop data r (dict_set summaries col counts)))
  end.

Definition categorical_summary (data : DataFrame) : result (dict (list (cell * Z))) :=
  let cats := select_dtypes is_object_or_category data in
  categorical_loop data (map fst (columns cats)) [].

Definition detect_trends (self : agent) (data : DataFrame) (field : string) (window : Z)
  : result (option trend_info) :=
  if no_datetime_col self data || negb (has_column data field) then Ok None
  else
    let dt := get_default (datetime_col self) EmptyString in
    rbind (get_columns2 data dt field) (fun pair =>
    rbind (sort_values (dropna pair) dt) (fun ts =>
    if (len ts <? window + 1)%Z then Ok None
    else
      rbind (get_column ts field) (fun col =>
      rbind (ensure_float64 (s_values col)) (fun ys =>
      rbind (rolling_mean_dropna window ys) (fun rolling =>
      if (Z.of_nat (List.length rolling) <? 2)%Z then Ok None
      else
        rbind (polyfit_slope rolling) (fun slope =>
        let trend := classify_slope slope in
        Ok (Some (mk_trend field trend slope)))))))).

Definition correlation_matrix (data : DataFrame) : result DataFrame :=
  let numeric := select_dtypes is_np_number data in
  if empty numeric then Ok empty_frame
  else corr numeric.

(** The body of the loop of [anomaly_detection] for one column: the index
    labels whose z-score exceeds the threshold in magnitude.  A mask of
    another length than the index raises [IndexError]. *)
Definition column_anomalies (col_data : Series) (z_thresh : float) : result (list Z) :=
  if s_empty col_data then Ok []
  else
    rbind (ensure_float64 (s_values col_data)) (fun xs =>
    rbind (zscore xs) (fun zs =>
    let z_scores := map PrimFloat.abs zs in
    let mask := map (fun z => PrimFloat.ltb z_thresh z) z_scores in
    if (List.length mask =? List.length (s_index col_data))%nat
    then Ok (mask_filter mask (s_index col_data))
    else Raise (OtherException "IndexError" "boolean index did not match"))).

Fixpoint anomaly_loop (numeric : DataFrame) (cols : list string) (z_thresh : float)
         (res : dict (list Z)) : result (dict (list Z)) :=
  match cols with
  | [] => Ok res
  | col :: r =>
      rbind (get_column numeric col) (fun s =>
      rbind (column_anomalies (s_dropna s) z_thresh) (fun anomalies =>
      anomaly_loop numeric r z_thresh (dict_set res col anomalies)))
  end.

Definition anomaly_detection (data : DataFrame) (z_thresh : float)
  : result (dict (list Z)) :=
  let numeric := select_dtypes is_np_number data in
  anomaly_loop numeric (map fst (columns numeric)) z_thresh [].

Definition detect_clusters (data : DataFrame) (n_clusters : Z)
  : result (option (list (Z * list Z))) :=
  let numeric := dropna (select_dtypes is_np_number data) in
  if (len numeric <? n_clusters)%Z || empty numeric then Ok None
  else
    rbind (kmeans_fit_predict n_clusters numeric) (fun clusters =>
    rbind (cluster_loop clusters (map fst (rows numeric)) []) (fun cluster_map =>
    Ok (Some cluster_map))).

Definition trend_line (t : trend_info) : string :=
  "- Field '" ++ t_field t ++ "' shows a " ++ t_trend t ++ " trend (slope: "
  ++ format_4f (t_slope t) ++ ")".

Definition categorical_text (cat_summary : dict (list (cell * Z))) : string :=
  match cat_summary with
  | [] => "No categorical data available."
  | _ =>
      fold_left
        (fun text entry =>
           fold_left
             (fun text vc =>
                text ++ " - " ++ str_cell (fst vc) ++ ": " ++ str_int (snd vc)
                     ++ " records" ++ nl)
             (counts_head 5 (snd entry))
             (text ++ nl ++ "Categorical distribution for '" ++ fst entry ++ "':" ++ nl))
        cat_summary EmptyString
  end.

Definition textual_insight_prompt (kpi_name kpi_desc : string) (desc_stats : DataFrame)
           (trends : list trend_info) (corr_matrix : DataFrame)
           (cat_summary : dict (list (cell * Z))) : string :=
  let stats_lines :=
    if empty desc_stats then "No numeric data available."
    else
      let cols_to_show :=
        filter (has_column desc_stats) ["mean"; "50%"; "min"; "max"] in
      let stats_subset := select_columns desc_stats cols_to_show in
      let stats_subset :=
        if has_column stats_subset "50%"
        then rename_column stats_subset "50%" "median"
        else stats_subset in
      frame_to_string stats_subset in
  let trend_descriptions :=
    let joined := join nl (map trend_line trends) in
    if String.eqb joined EmptyString then "No significant trends detected."
    else joined in
  let corr_sample :=
    if negb (empty corr_matrix) then frame_to_string (frame_round2 corr_matrix)
    else "No correlation data available." in
  let cat_summary_text := categorical_text cat_summary in
    nl ++
    "You are a data analyst assistant." ++ nl ++
    nl ++
    "Given the KPI named '" ++ kpi_name ++ "' with description:" ++ nl ++
    dq ++ kpi_desc ++ dq ++ nl ++
    nl ++
    "And the following descriptive statistics on relevant numeric fields:" ++ nl ++
    stats_lines ++ nl ++
    nl ++
    "The following trends have been detected over time:" ++ nl ++
    trend_descriptions ++ nl ++
    nl ++
    "And here is the correlation matrix among numeric features:" ++ nl ++
    corr_sample ++ nl ++
    nl ++
    "Additionally, here are some key categorical data distributions:" ++ nl ++
    cat_summary_text ++ nl ++
    nl ++
    "Generate a concise and clear natural-language summary of insights and potential recommendations related to this KPI, highlighting key statistics, trends, correlations, categorical distributions, and any notable observations." ++ nl ++
    "Respond ONLY with the summary text." ++ nl.

Definition final_summary_prompt (kpi_insights : dict string) : string :=
  let combined_insights_text :=
    join (nl ++ nl)
         (map (fun e => "KPI: " ++ fst e ++ nl ++ "Insight:" ++ nl ++ snd e) kpi_insights) in
    nl ++
    "You are a senior data analyst." ++ nl ++
    nl ++
    "Given the following individual KPI insights summaries:" ++ nl ++
    nl ++
    combined_insights_text ++ nl ++
    nl ++
    "Generate a concise, bullet-point list summarizing the key overall insights across all KPIs." ++ nl ++
    "Highlight the most important findings, patterns, and actionable recommendations." ++ nl ++
    "Respond ONLY with the bullet-point summary." ++ nl.

Section WithCollaborators.
Context {W : Type} `{Collaborators W}.

Definition generate_textual_insight (kpi_name kpi_desc : string) (desc_stats : DataFrame)
           (trends : list trend_info) (corr_matrix : DataFrame)
           (cat_summary : dict (list (cell * Z))) : M W string :=
  response_text <-
    call_model (textual_insight_prompt kpi_name kpi_desc desc_stats trends
                                       corr_matrix cat_summary) ;;
  ret (strip response_text).

(** The loop over the numeric columns that gathers the trends. *)
Fixpoint trends_loop (self : agent) (data : DataFrame) (cols : list string)
  : result (list trend_info) :=
  match cols with
  | [] => Ok []
  | col :: r =>
      rbind (detect_trends self data col 3) (fun trend =>
      rbind (trends_loop self data r) (fun rest =>
      Ok (match trend with
          | Some t => t :: rest
          | None => rest
          end)))
  end.

(** The [try] block of [generate_insights_for_kpi]. *)
Definition insights_try_block (self : agent) (k : kpi) (kpi_data : DataFrame)
  : M W (dict bundle_value) :=
  desc_stats <- lift (descriptive_stats kpi_data) ;;
  cat_summary <- lift (categorical_summary kpi_data) ;;
  trends <- lift (if negb (no_datetime_col self kpi_data)
                  then trends_loop self kpi_data
                         (map fst (columns (select_dtypes is_np_number kpi_data)))
                  else Ok []) ;;
  corr_m <- lift (correlation_matrix kpi_data) ;;
  anomalies <- lift (anomaly_detection kpi_data 3%float) ;;
  let clusters := VNone in
  summary <- generate_textual_insight (get_default (KPI k) "Unknown KPI")
                                      (get_default (Description k) EmptyString)
                                      desc_stats trends corr_m cat_summary ;;
  ret [("descriptive_stats", VFrame desc_stats);
       ("categorical_summary", VCategorical cat_summary);
       ("trends", VTrends trends);
       ("correlation_matrix", VFrame corr_m);
       ("anomalies", VAnomalies anomalies);
       ("clusters", clusters);
       ("summary", VStr summary)].

Definition generate_insights_for_kpi (self : agent) (k : kpi) (kpi_data : DataFrame)
  : M W (dict bundle_value) :=
  if empty kpi_data
  then ret [("summary",
             VStr ("No data available to generate insights for KPI '"
                   ++ get_default (KPI k) "Unknown" ++ "'."))]
  else
    try_except (insights_try_block self k kpi_data)
      (fun e =>
         ret [("summary",
               VStr ("Failed to generate insights for KPI '"
                     ++ get_default (KPI k) "Unknown" ++ "': " ++ exn_str e))]).

Definition generate_final_summary (kpi_insights : dict string) : M W string :=
  response_text <- call_model (final_summary_prompt kpi_insights) ;;
  ret (strip response_text).

End WithCollaborators.
End WithLibrary.

(** The library with another k-means routine in place of its own. *)
Definition with_kmeans (lib : Library)
           (km : Z -> DataFrame -> result (list Z)) : Library := {|
  json_loads := @json_loads lib;
  polyfit_slope := @polyfit_slope lib;
  rolling_mean := @rolling_mean lib;
  zscore := @zscore lib;
  describe_transpose := @describe_transpose lib;
  corr := @corr lib;
  value_counts := @value_counts lib;
  kmeans_fit_predict := km;
  frame_to_string := @frame_to_string lib;
  frame_round2 := @frame_round2 lib;
  format_4f := @format_4f lib;
  str_cell := @str_cell lib;
  str_int := @str_int lib;
  repr_records := @repr_records lib
|}.

End InsightGeneration.


(** ** visualizationagent.py *)

Module Visualization.
Import Frame.

Definition suggest_chart_prompt (kpi_name kpi_desc insight_summary : string) : string :=
    nl ++
    "You are a data visualization expert." ++ nl ++
    nl ++
    "Given the KPI named " ++ dq ++ kpi_name ++ dq ++ " with description:" ++ nl ++
    dq ++ dq ++ dq ++ kpi_desc ++ dq ++ dq ++ dq ++ nl ++
    nl ++
    "And the following insights related to this KPI:" ++ nl ++
    dq ++ dq ++ dq ++ insight_summary ++ dq ++ dq ++ dq ++ nl ++
    nl ++
    "Please suggest the best chart type(s) to visualize this KPI's data." ++ nl ++
    "For each suggested chart, provide a JSON object with keys:" ++ nl ++
    "- chart_type (e.g., bar, line, pie, scatter)" ++ nl ++
    "- x_axis (column name for x axis)" ++ nl ++
    "- y_axis (column name for y axis, if applicable)" ++ nl ++
    "- title (a concise chart title)" ++ nl ++
    "- color (optional, column to color/group by)" ++ nl ++
    "-select graphs based on understandability, presentability and suitability" ++ nl ++
    "If multiple charts are suitable, return a JSON list of such objects." ++ nl ++
    "Respond with ONLY the JSON." ++ nl.

(** [re.sub(r"^```(?:python)?\n?", "", code, flags=re.MULTILINE)], line by
    line: a fence at the start of a line goes, with the word [python]
    after it and with the line feed when nothing else is on the line. *)
Fixpoint strip_opening_fences (lines : list string) : list string :=
  match lines with
  | [] => []
  | l :: rest =>
      let tail := strip_opening_fences rest in
      if startswith l "```" then
        let r := drop 3 l in
        let r := if startswith r "python" then drop 6 r else r in
        match r, rest with
        | EmptyString, _ :: _ => tail
        | _, _ => r :: tail
        end
      else l :: tail
  end.

(** [re.sub(r"\n?```$", "", code, flags=re.MULTILINE)], line by line: a
    fence at the end of a line goes, with the line feed before it when the
    fence is the whole line. *)
Fixpoint strip_closing_fences (first : bool) (lines : list string) : list string :=
  match lines with
  | [] => []
  | l :: rest =>
      if endswith l "```" then
        if String.eqb l "```" && negb first then strip_closing_fences false rest
        else drop_end 3 l :: strip_closing_fences false rest
      else l :: strip_closing_fences false rest
  end.

Definition _clean_generated_code (code : string) : string :=
  let code := join nl (strip_opening_fences (split_lines code)) in
  join nl (strip_closing_fences true (split_lines code)).

Section WithLibrary.
Context `{Library}.

Definition plotly_code_prompt (kpi_name kpi_desc insight_summary : string)
           (data : DataFrame) (num_rows : nat) : string :=
  let data_sample := repr_records (head num_rows data) in
    nl ++
    "You are a python data visualization expert." ++ nl ++
    nl ++
    "Given the KPI named " ++ dq ++ kpi_name ++ dq ++ " with description:" ++ nl ++
    dq ++ dq ++ dq ++ kpi_desc ++ dq ++ dq ++ dq ++ nl ++
    nl ++
    "And the following insights:" ++ nl ++
    dq ++ dq ++ dq ++ insight_summary ++ dq ++ dq ++ dq ++ nl ++
    nl ++
    "Here is a sample of the KPI data (as a list of dictionaries):" ++ nl ++
    data_sample ++ nl ++
    nl ++
    "Write a complete Python code snippet using Plotly (express or graph_objects) to create one or more relevant charts visualizing this KPI." ++ nl ++
    "- The data is available in a variable named `data_df` (a pandas DataFrame)." ++ nl ++
    "- Name the resulting figure variable `fig`." ++ nl ++
    "- Include imports if necessary." ++ nl ++
    "- Add meaningful titles, axis labels, and color grouping if applicable." ++ nl ++
    "- Do not include any explanation or print statements, only the code." ++ nl ++
    "- The code should be executable standalone given the variable `data_df`." ++ nl ++
    "-Make the graph visually attractive" ++ nl ++
    "Example:" ++ nl.

Section WithCollaborators.
Context {W : Type} `{Collaborators W}.

(** The [try] statement of [suggest_chart_types], applied to the stripped
    response text. *)
Definition parse_chart_suggestions (text : string) : M W (option (list json)) :=
  match json_loads text with
  | Ok (JObj members) => ret (Some [JObj members])
  | Ok (JArr items) => ret (Some items)
  | Ok _ =>
      print "Unexpected JSON structure from LLM chart suggestion." ;;;
      ret None
  | Raise (JSONDecodeError msg) =>
      print ("Failed to parse chart suggestion JSON: " ++ msg) ;;;
      print ("LLM response was: " ++ text) ;;;
      ret None
  | Raise e => raise e
  end.

Definition suggest_chart_types (kpi_name kpi_desc insight_summary : string)
  : M W (option (list json)) :=
  response_text <- call_model (suggest_chart_prompt kpi_name kpi_desc insight_summary) ;;
  let text := strip response_text in
  parse_chart_suggestions text.

Definition generate_plotly_code (kpi_name kpi_desc insight_summary : string)
           (data : DataFrame) (num_rows : nat) : M W (option pyobj) :=
  response_text <-
    call_model (plotly_code_prompt kpi_name kpi_desc insight_summary data num_rows) ;;
  let code_str := strip response_text in
  let code_str := _clean_generated_code code_str in
  outcome <- call_exec code_str data ;;
  match outcome with
  | Returned (Some f) =>
      if obj_truthy f && obj_has_show f then ret (Some f)
      else
        print "Generated code did not create a Plotly figure named 'fig'." ;;;
        print ("Generated code was:" ++ nl ++ " " ++ code_str) ;;;
        ret None
  | Returned None =>
      print "Generated code did not create a Plotly figure named 'fig'." ;;;
      print ("Generated code was:" ++ nl ++ " " ++ code_str) ;;;
      ret None
  | Raised e =>
      (* [except Exception as e] *)
      print ("Error executing generated plotly code: " ++ exn_str e) ;;;
      print ("Generated code was:" ++ nl ++ " " ++ code_str) ;;;
      ret None
  | Exited e =>
      (* no handler: the exception leaves the function *)
      raise e
  end.

(** [create_visualization]; [first_suggestion] is bound as in the source. *)
Definition create_visualization (kpi_name kpi_desc insight_summary : string)
           (kpi_data : DataFrame) : M W (option pyobj) :=
  chart_suggestions <- suggest_chart_types kpi_name kpi_desc insight_summary ;;
  match chart_suggestions with
  | None | Some [] =>
      print "No chart suggestions from LLM; skipping visualization." ;;;
      ret None
  | Some (first_suggestion :: _) =>
      fig <- generate_plotly_code kpi_name kpi_desc insight_summary kpi_data 10 ;;
      ret fig
  end.

End WithCollaborators.
End WithLibrary.
End Visualization.

(** ** dashboardassemblyagent.py *)

Module Dashboard.

Inductive chart_section :=
| Graph (figure : pyobj)
| Placeholder (text : string).

(** A KPI card: the heading, the insight panel and the chart section. *)
Record card := mk_card {
  card_title : string;
  card_insight : string;
  card_chart : chart_section
}.

Record agent := mk_agent {
  port : Z;
  layout : option (string * list card);
  _setup_layout_done : bool
}.

Definition init (port : Z) : agent := mk_agent port None false.

Definition _generate_kpi_card (kpi_name insight_text : string) (figure : option pyobj)
  : card :=
  let chart :=
    match figure with
    | Some f => if obj_truthy f then Graph f
                else Placeholder "No visualization available"
    | None => Placeholder "No visualization available"
    end in
  mk_card kpi_name insight_text chart.

Definition build_dashboard_layout (self : agent)
           (kpi_insights_figures : dict (string * option pyobj))
           (dashboard_title : string) : agent :=
  let kpi_cards :=
    map (fun e => _generate_kpi_card (fst e) (fst (snd e)) (snd (snd e)))
        kpi_insights_figures in
  mk_agent (port self) (Some (dashboard_title, kpi_cards)) true.

(** [run_dashboard] up to the point where the server takes over. *)
Definition run_dashboard (self : agent) (open_browser : bool) : result unit :=
  if negb (_setup_layout_done self)
  then Raise (RuntimeError "Dashboard layout is not set. Call build_dashboard_layout first.")
  else Ok tt.

(** The cards of the page, none before the layout is built. *)
Definition cards (self : agent) : list card :=
  match layout self with
  | Some (_, cs) => cs
  | None => []
  end.

(** What "the dashboard shows the placeholder text for the KPI" says: the
    page has a card for that KPI whose chart section is the placeholder. *)
Definition shows_placeholder_for (self : agent) (kpi_name : string) : bool :=
  existsb (fun c => String.eqb (card_title c) kpi_name &&
                    match card_chart c with
                    | Placeholder _ => true
                    | Graph _ => false
                    end)
          (cards self).

Definition has_card_for (self : agent) (kpi_name : string) : bool :=
  existsb (fun c => String.eqb (card_title c) kpi_name) (cards self).

End Dashboard.

(** ** mainagent.py: steps 7 and 8 of [main] *)

Module Main.
Import Frame InsightGeneration.

Definition option_string_eqb (o : option string) (s : string) : bool :=
  match o with
  | Some s' => String.eqb s' s
  | None => false
  end.

(** [insights.get('summary', default)] as text *)
Definition summary_text (insights : dict bundle_value) (default : string) : string :=
  match dict_get insights "summary" with
  | Some (VStr s) => s
  | _ => default
  end.

Section WithCollaborators.
Context {W : Type} `{Collaborators W} `{Library}.

(** The body of the [for] loop of step 7, for one yielded pair. *)
Definition process_kpi (insight_agent : InsightGeneration.agent) (kpis : list kpi)
           (kpi_insights_figures : dict (string * option pyobj))
           (y : DataRetrieval.yielded)
  : M W (dict (string * option pyobj)) :=
  let kpi_name := fst y in
  let skip_no_data :=
    print ("No data available for KPI '" ++ kpi_name ++ "'. Skipping.") ;;;
    ret kpi_insights_figures in
  print (nl ++ "=== Processing KPI: " ++ kpi_name ++ " ===") ;;;
  match snd y with
  | None => skip_no_data
  | Some df_subset =>
      if empty df_subset then skip_no_data
      else
        match find (fun item => option_string_eqb (KPI item) kpi_name) kpis with
        | None =>
            print ("KPI metadata missing for '" ++ kpi_name ++ "'. Skipping.") ;;;
            ret kpi_insights_figures
        | Some kpi_meta =>
            insights <- generate_insights_for_kpi insight_agent kpi_meta df_subset ;;
            print ("Insight summary:" ++ nl ++ " "
                   ++ summary_text insights "No summary generated.") ;;;
            fig <- Visualization.create_visualization
                     (get_default (KPI kpi_meta) kpi_name)
                     (get_default (Description kpi_meta) EmptyString)
                     (summary_text insights EmptyString)
                     df_subset ;;
            print (match fig with
                   | Some f =>
                       if obj_truthy f
                       then "Visualization generated for KPI '" ++ kpi_name ++ "'."
                       else "No visualization generated for KPI '" ++ kpi_name ++ "'."
                   | None => "No visualization generated for KPI '" ++ kpi_name ++ "'."
                   end) ;;;
            ret (dict_set kpi_insights_figures kpi_name
                          (summary_text insights EmptyString, fig))
        end
  end.

(** Step 7: the [for] loop over the generator; [gen] is what the generator
    has still to visit. *)
Fixpoint process_all (data_agent : DataRetrieval.agent)
         (insight_agent : InsightGeneration.agent) (kpis gen : list kpi)
         (kpi_insights_figures : dict (string * option pyobj))
  : M W (dict (string * option pyobj)) :=
  match gen with
  | [] => ret kpi_insights_figures
  | k :: rest =>
      y <- DataRetrieval.get_data_for_all_kpis_step data_agent k ;;
      acc <- process_kpi insight_agent kpis kpi_insights_figures y ;;
      process_all data_agent insight_agent kpis rest acc
  end.

(** Steps 7 and 8: the loop, then the dashboard when something was
    collected. *)
Definition main_from_step_7 (data_agent : DataRetrieval.agent)
           (insight_agent : InsightGeneration.agent) (kpis : list kpi)
  : M W Dashboard.agent :=
  let dashboard_agent := Dashboard.init 8050 in
  kpi_insights_figures <-
    process_all data_agent insight_agent kpis
                (DataRetrieval.get_data_for_all_kpis kpis) [] ;;
  match kpi_insights_figures with
  | _ :: _ =>
      print (nl ++ "Building dashboard...") ;;;
      let dashboard_agent :=
        Dashboard.build_dashboard_layout dashboard_agent kpi_insights_figures
                                         "Student Migration KPIs Dashboard" in
      print ("Running dashboard on http://localhost:8050 (close terminal to stop)...") ;;;
      _ <- lift (Dashboard.run_dashboard dashboard_agent true) ;;
      ret dashboard_agent
  | [] =>
      print "No insights or visualizations to build dashboard." ;;;
      ret dashboard_agent
  end.

End WithCollaborators.
End Main.

(** ** Notions the properties are stated with *)

Module Notions.
Import Frame.






(** Fewer than two distinct values: every value equals the first. *)
Definition fewer_than_two_distinct (xs : list float) : bool :=
  match xs with
  | [] => true
  | x0 :: r => forallb (fun x => PrimFloat.eqb x x0) r
  end.

(** What is used of [scipy.stats.zscore] on a column without variance:
    it returns, and returns a [nan] for every value. *)
Definition zscore_nan_without_variance `{Library} : Prop :=
  forall xs,
    xs <> [] ->
    forallb (fun x => negb (is_nan x)) xs = true ->
    fewer_than_two_distinct xs = true ->
    exists zs, zscore xs = Ok zs /\
               List.length zs = List.length xs /\
               forallb is_nan zs = true.

(** Every numeric column of the table holds numbers only and has fewer
    than two distinct values among those that are not missing. *)
Definition numeric_columns_without_variance (data : DataFrame) : Prop :=
  let numeric := select_dtypes is_np_number data in
  Forall (fun col =>
            exists s xs,
              get_column numeric col = Ok s /\
              ensure_float64 (s_values (s_dropna s)) = Ok xs /\
              fewer_than_two_distinct xs = true)
         (map fst (columns numeric)).

End Notions.

(** ** Executable instances

    A small implementation of each library routine and a scripted world,
    to run the agents on concrete inputs.  The JSON reader covers the
    literals, integers of up to 4300 digits, strings without escapes,
    arrays and objects; of a [JSONDecodeError] it gives the class, not the
    message with the position that [json.loads] gives. *)

Module Instances.
Import Frame.

Definition is_digit (c : ascii) : bool :=
  let n := nat_of_ascii c in (48 <=? n)%nat && (n <=? 57)%nat.

(** The white space of JSON: space, tab, line feed and carriage return. *)
Definition is_json_space (c : ascii) : bool :=
  let n := nat_of_ascii c in
  (n =? 32)%nat || (n =? 9)%nat || (n =? 10)%nat || (n =? 13)%nat.

Fixpoint skip_space (s : string) : string :=
  match s with
  | String c r => if is_json_space c then skip_space r else s
  | EmptyString => EmptyString
  end.

Fixpoint read_digits (s : string) (acc : Z) : Z * string :=
  match s with
  | String c r =>
      if is_digit c then read_digits r (10 * acc + Z.of_nat (nat_of_ascii c - 48))
      else (acc, s)
  | EmptyString => (acc, s)
  end.

(** An integer: [0], or digits that do not start with [0]. *)
Definition read_integer (s : string) : option (Z * string) :=
  match s with
  | String c r =>
      if (nat_of_ascii c =? 48)%nat then Some (0%Z, r)
      else if is_digit c then Some (read_digits s 0)
      else None
  | EmptyString => None
  end.

(** The characters up to the closing quote; a backslash is not read, and
    a control character is refused. *)
Fixpoint read_string (s : string) : option (string * string) :=
  match s with
  | EmptyString => None
  | String c r =>
      if Ascii.eqb c (ascii_of_nat 34) then Some (EmptyString, r)
      else if Ascii.eqb c (ascii_of_nat 92) then None
      else if (nat_of_ascii c <? 32)%nat then None
      else match read_string r with
           | Some (body, rest) => Some (String c body, rest)
           | None => None
           end
  end.

Definition first_is (n : nat) (s : string) : bool :=
  match s with
  | String c _ => (nat_of_ascii c =? n)%nat
  | EmptyString => false
  end.

(** What reading a value ends in: the value and the text after it, a
    text that is no JSON, or more arrays and objects open at once than
    the interpreter has room for. *)
Inductive parsed (A : Type) :=
| Parsed (a : A) (rest : string)
| Malformed
| TooDeep (what : string).
Arguments Parsed {A} a rest.
Arguments Malformed {A}.
Arguments TooDeep {A} what.

(** [depth] is the number of arrays and objects that may still be
    entered; entering one more ends the reading, as CPython's scanner does
    when the recursion limit is reached. *)
Fixpoint read_value (fuel depth : nat) (s : string) : parsed json :=
  match fuel with
  | O => Malformed
  | S fuel' =>
      let s := skip_space s in
      if startswith s "null" then Parsed JNull (drop 4 s)
      else if startswith s "true" then Parsed (JBool true) (drop 4 s)
      else if startswith s "false" then Parsed (JBool false) (drop 5 s)
      else if startswith s "NaN" then Parsed (JFloat nan) (drop 3 s)
      else if startswith s "Infinity" then Parsed (JFloat infinity) (drop 8 s)
      else if startswith s "-Infinity" then Parsed (JFloat neg_infinity) (drop 9 s)
      else if first_is 34 s then
        match read_string (drop 1 s) with
        | Some (body, rest) => Parsed (JStr body) rest
        | None => Malformed
        end
      else if first_is 91 s then
        match depth with
        | O => TooDeep "array"
        | S depth' =>
            let r := skip_space (drop 1 s) in
            if first_is 93 r then Parsed (JArr []) (drop 1 r)
            else match read_items fuel' depth' r with
                 | Parsed items rest => Parsed (JArr items) rest
                 | Malformed => Malformed
                 | TooDeep what => TooDeep what
                 end
        end
      else if first_is 123 s then
        match depth with
        | O => TooDeep "object"
        | S depth' =>
            let r := skip_space (drop 1 s) in
            if first_is 125 r then Parsed (JObj []) (drop 1 r)
            else match read_members fuel' depth' r with
                 | Parsed members rest => Parsed (JObj members) rest
                 | Malformed => Malformed
                 | TooDeep what => TooDeep what
                 end
        end
      else if first_is 45 s then
        match read_integer (drop 1 s) with
        | Some (z, rest) => Parsed (JInt (- z)) rest
        | None => Malformed
        end
      else match read_integer s with
           | Some (z, rest) => Parsed (JInt z) rest
           | None => Malformed
           end
  end
with read_items (fuel depth : nat) (s : string) : parsed (list json) :=
  match fuel with
  | O => Malformed
  | S fuel' =>
      match read_value fuel' depth s with
      | Parsed v rest =>
          let rest := skip_space rest in
          if first_is 93 rest then Parsed [v] (drop 1 rest)
          else if first_is 44 rest then
            match read_items fuel' depth (drop 1 rest) with
            | Parsed vs rest' => Parsed (v :: vs) rest'
            | Malformed => Malformed
            | TooDeep what => TooDeep what
            end
          else Malformed
      | Malformed => Malformed
      | TooDeep what => TooDeep what
      end
  end
with read_members (fuel depth : nat) (s : string) : parsed (list (string * json)) :=
  match fuel with
  | O => Malformed
  | S fuel' =>
      let s := skip_space s in
      if first_is 34 s then
        match read_string (drop 1 s) with
        | Some (key, rest) =>
            let rest := skip_space rest in
            if first_is 58 rest then
              match read_value fuel' depth (drop 1 rest) with
              | Parsed v rest =>
                  let rest := skip_space rest in
                  if first_is 125 rest then Parsed [(key, v)] (drop 1 rest)
                  else if first_is 44 rest then
                    match read_members fuel' depth (drop 1 rest) with
                    | Parsed ms rest' => Parsed ((key, v) :: ms) rest'
                    | Malformed => Malformed
                    | TooDeep what => TooDeep what
                    end
                  else Malformed
              | Malformed => Malformed
              | TooDeep what => TooDeep what
              end
            else Malformed
        | None => Malformed
        end
      else Malformed
  end.

(** [sys.getrecursionlimit()] as CPython starts with; the frames of the
    callers, which take a few levels off it, are not counted. *)
Definition recursion_limit : nat := 1000.

Definition mini_json_loads (text : string) : result json :=
  match read_value (S (2 * String.length text)) recursion_limit text with
  | Parsed v rest =>
      if String.eqb (skip_space rest) EmptyString then Ok v
      else Raise (JSONDecodeError "Extra data")
  | Malformed => Raise (JSONDecodeError "Expecting value")
  | TooDeep what =>
      Raise (OtherException
               "RecursionError"
               ("maximum recursion depth exceeded while decoding a JSON " ++ what
                ++ " from a unicode string"))
  end.

Local Open Scope float_scope.

Definition fsum (xs : list float) : float := fold_left PrimFloat.add xs 0.

Definition fmean (xs : list float) : float := fsum xs / float_of_nat (List.length xs).

(** The least-squares slope of [ys] over the abscissae [0, 1, ...]. *)
Definition least_squares_slope (ys : list float) : result float :=
  let xs := map float_of_nat (seq 0 (List.length ys)) in
  let xm := fmean xs in
  let ym := fmean ys in
  let num := fsum (map (fun p => (fst p - xm) * (snd p - ym)) (combine xs ys)) in
  let den := fsum (map (fun x => (x - xm) * (x - xm)) xs) in
  Ok (num / den).

(** The rolling mean as pandas computes it for a window of [w] values
    with [min_periods = w].  Infinities count as missing.  The sum of the
    window is kept running: a value enters it, and the value that falls
    out of the window leaves it, each with Kahan's compensation; missing
    values are passed over, and a window with fewer than [w] values
    present has no mean.  A window whose values are all the same gets that
    value, and a mean whose sign no value of the window has is set to
    zero. *)
Record roll_state := mk_roll {
  nobs : Z;
  sum_x : float;
  neg_ct : Z;
  compensation_add : float;
  compensation_remove : float;
  num_consecutive_same_value : Z;
  prev_value : float
}.

Definition add_mean (val : float) (st : roll_state) : roll_state :=
  if PrimFloat.eqb val val then
    let y := val - compensation_add st in
    let t := sum_x st + y in
    mk_roll (nobs st + 1) t
            (if get_sign val then neg_ct st + 1 else neg_ct st)
            (t - sum_x st - y) (compensation_remove st)
            (if PrimFloat.eqb val (prev_value st)
             then num_consecutive_same_value st + 1 else 1)
            val
  else st.

Definition remove_mean (val : float) (st : roll_state) : roll_state :=
  if PrimFloat.eqb val val then
    let y := - val - compensation_remove st in
    let t := sum_x st + y in
    mk_roll (nobs st - 1) t
            (if get_sign val then neg_ct st - 1 else neg_ct st)
            (compensation_add st) (t - sum_x st - y)
            (num_consecutive_same_value st) (prev_value st)
  else st.

Definition calc_mean (minp : Z) (st : roll_state) : float :=
  if (minp <=? nobs st)%Z && (0 <? nobs st)%Z then
    let result := sum_x st / PrimFloat.of_uint63 (Uint63.of_Z (nobs st)) in
    if (nobs st <=? num_consecutive_same_value st)%Z then prev_value st
    else if (neg_ct st =? 0)%Z && PrimFloat.ltb result 0 then 0
    else if (neg_ct st =? nobs st)%Z && PrimFloat.ltb 0 result then 0
    else result
  else nan.

(** The window ending at position [i]: when it is the first one, or
    shares no value with the one before, the state starts afresh;
    otherwise the value [w] places back leaves and the value at [i]
    enters. *)
Fixpoint roll_mean (w : nat) (values : list float) (i : nat) (todo : list float)
         (st : roll_state) : list float :=
  match todo with
  | [] => []
  | val :: rest =>
      let st' :=
        if (i =? 0)%nat || (w =? 1)%nat
        then add_mean val (mk_roll 0 0 0 0 0 0 val)
        else add_mean val (if (w <=? i)%nat
                           then remove_mean (nth (i - w) values nan) st
                           else st) in
      calc_mean (Z.of_nat w) st' :: roll_mean w values (S i) rest st'
  end.

Definition running_mean (w : nat) (ys : list float) : list float :=
  match w with
  | O => map (fun _ => nan) ys
  | _ =>
      let values := map (fun y => if is_infinity y then nan else y) ys in
      roll_mean w values 0 values (mk_roll 0 0 0 0 0 0 0)
  end.

(** The population z-score; an input without variance gives [nan]
    throughout, as dividing zero by zero does. *)
Definition population_zscore (xs : list float) : result (list float) :=
  match xs with
  | [] => Ok []
  | x0 :: _ =>
      let mn := fmean xs in
      let sd := PrimFloat.sqrt (fmean (map (fun x => (x - mn) * (x - mn)) xs)) in
      if forallb (fun x => PrimFloat.eqb x x0) xs then Ok (map (fun _ => nan) xs)
      else Ok (map (fun x => (x - mn) / sd) xs)
  end.

Local Close Scope float_scope.

Definition count_column (df : DataFrame) : DataFrame :=
  mk_frame [("count", Schema.float64)]
           (map (fun i => (Z.of_nat i,
                           [Num (float_of_nat (List.length (rows (dropna df))))]))
                (seq 0 (List.length (columns df)))).

Definition str_of_Z (z : Z) : string :=
  DecimalString.NilZero.string_of_int (Z.to_int z).

Definition sample_library : Library := {|
  json_loads := mini_json_loads;
  polyfit_slope := least_squares_slope;
  rolling_mean := running_mean;
  zscore := population_zscore;
  describe_transpose := fun df => Ok (count_column df);
  corr := fun df => Ok (mk_frame (columns df) []);
  value_counts := fun s => Ok (map (fun c => (c, 1%Z)) (s_values s));
  kmeans_fit_predict := fun n df => Ok (map (fun r => (fst r mod n)%Z) (rows df));
  frame_to_string := fun df => join " " (map fst (columns df));
  frame_round2 := fun df => df;
  format_4f := fun _ => "0.0000";
  str_cell := fun c => match c with Str s => s | Num _ => "0.0" | Missing => "nan" end;
  str_int := str_of_Z;
  repr_records := fun df => "[" ++ join ", " (map fst (columns df)) ++ "]"
|}.

(** A scripted world: the replies the model, the SQL engine and the
    interpreter will give, in order. *)
Record script := mk_script {
  model_replies : list (result string);
  sql_replies : list (result DataFrame);
  exec_replies : list exec_outcome
}.

Definition scripted : Collaborators script := {|
  generate_content := fun _ w =>
    match model_replies w with
    | r :: rs => (r, mk_script rs (sql_replies w) (exec_replies w))
    | [] => (Raise (RuntimeError "no reply left"), w)
    end;
  read_sql_query := fun _ w =>
    match sql_replies w with
    | r :: rs => (r, mk_script (model_replies w) rs (exec_replies w))
    | [] => (Raise (RuntimeError "no reply left"), w)
    end;
  exec_code := fun _ _ w =>
    match exec_replies w with
    | r :: rs => (r, mk_script (model_replies w) (sql_replies w) rs)
    | [] => (Raised (RuntimeError "no reply left"), w)
    end
|}.


Definition start (w : script) : state script := mk_state w [].

(** [print]ed lines of a trace, and the prompts sent to the model. *)
Definition printed (t : list event) : list string :=
  flat_map (fun e => match e with Printed l => [l] | _ => [] end) t.

Definition prompts (t : list event) : list string :=
  flat_map (fun e => match e with ModelCall p => [p] | _ => [] end) t.

End Instances.

(** ** Sample inputs *)

Module Samples.
Import Schema Frame Instances.

Definition sales_schema : list field :=
  annotate_schema
    (parse_schema "sales"
                  [("user_id", int64); ("date", object_); ("total_spent", float64)]).

Definition data_agent : DataRetrieval.agent :=
  DataRetrieval.mk_agent (schema_api sales_schema) (Some "sqlite:///:memory:").

Definition insight_agent : InsightGeneration.agent :=
  InsightGeneration.mk_agent (Some "date").

Definition kpi_spent : kpi :=
  mk_kpi (Some "Total Spent") (Some "Sum of the amounts spent") (Some ["total_spent"]).

Definition kpi_users : kpi :=
  mk_kpi (Some "User Count") (Some "Number of users") (Some ["user_id"]).

Definition spent_table : DataFrame :=
  mk_frame [("date", object_); ("total_spent", float64)]
           [(0%Z, [Str "2024-01-01"; Num 10]);
            (1%Z, [Str "2024-01-02"; Num 12]);
            (2%Z, [Str "2024-01-03"; Num 14]);
            (3%Z, [Str "2024-01-04"; Num 16]);
            (4%Z, [Str "2024-01-05"; Num 30])].

(** A result without rows. *)
Definition no_rows : DataFrame := mk_frame [("user_id", int64)] [].

(** A column where every value present is the same. *)
Definition flat_table : DataFrame :=
  mk_frame [("label", object_); ("amount", float64)]
           [(0%Z, [Str "a"; Num 5]);
            (1%Z, [Str "b"; Num 5]);
            (2%Z, [Str "c"; Missing]);
            (3%Z, [Str "d"; Num 5])].




Definition figure : pyobj := mk_pyobj true true "Figure".

Definition fenced_sql : string :=
  "```sql" ++ nl ++ "SELECT date, total_spent FROM main_table" ++ nl ++ "```".

Definition one_chart : string :=
  "{" ++ dq ++ "chart_type" ++ dq ++ ": " ++ dq ++ "line" ++ dq ++ "}".

Definition two_charts : string :=
  "[{" ++ dq ++ "chart_type" ++ dq ++ ": " ++ dq ++ "bar" ++ dq ++ "}, {"
  ++ dq ++ "chart_type" ++ dq ++ ": " ++ dq ++ "pie" ++ dq ++ "}]".

Definition chatter : string := "Sure! Here are the KPIs you asked for.".

(** [s * n] *)
Fixpoint times (n : nat) (s : string) : string :=
  match n with
  | O => EmptyString
  | S n' => s ++ times n' s
  end.

(** Two thousand opening brackets, and objects nested 1200 deep. *)
Definition deep_brackets : string := times 2000 "[".

Definition deep_objects : string :=
  times 1200 ("{" ++ dq ++ "k" ++ dq ++ ":") ++ "1" ++ times 1200 "}".

(** The SQL of the first KPI fails, the second KPI gets its table. *)
Definition failing_then_fine : script :=
  mk_script [Ok "SELECT nope FROM main_table"; Ok fenced_sql]
            [Raise (OtherException "OperationalError" "no such column: nope");
             Ok spent_table]
            [].

(** The first KPI gets a table, an insight and a chart; the second KPI
    gets a result without rows. *)
Definition one_full_one_empty : script :=
  mk_script [Ok fenced_sql; Ok " Spending grows over the week. "; Ok one_chart;
             Ok "fig = px.line(data_df)"; Ok "SELECT user_id FROM main_table WHERE 0"]
            [Ok spent_table; Ok no_rows]
            [Returned (Some figure)].

Definition replies (texts : list string) : script :=
  mk_script (map Ok texts) [] [Returned (Some figure); Returned (Some figure)].

End Samples.

(** ** SchemaParsingAgent.py: the agent object, from the file to the schema

    Paths are POSIX paths. *)

Module Loading.
Import Frame.

Fixpoint has_char (c : ascii) (s : string) : bool :=
  match s with
  | EmptyString => false
  | String d r => Ascii.eqb d c || has_char c r
  end.

(** [os.path.basename(p)]: what follows the last slash. *)
Fixpoint basename (p : string) : string :=
  match p with
  | EmptyString => EmptyString
  | String c r =>
      if has_char "/" r then basename r
      else if Ascii.eqb c "/" then r
      else p
  end.

Fixpoint skip_dots (s : string) : string :=
  match s with
  | String c r => if Ascii.eqb c "." then skip_dots r else s
  | EmptyString => EmptyString
  end.

Fixpoint from_last_dot (s : string) : string :=
  match s with
  | EmptyString => EmptyString
  | String c r =>
      if has_char "." r then from_last_dot r
      else if Ascii.eqb c "." then s
      else EmptyString
  end.

(** [os.path.splitext(p)[1]]: from the last dot of the last component on,
    the dots that start the component not counted; empty when there is no
    such dot. *)
Definition splitext_ext (p : string) : string :=
  from_last_dot (skip_dots (basename p)).

(** [os.path.splitext(p)[0]] *)
Definition splitext_root (p : string) : string :=
  drop_end (String.length (splitext_ext p)) p.

Record agent := mk_agent {
  file_path : string;
  table_name : string;
  dataframe : DataFrame;
  schema : option (list Schema.field)
}.

Section WithReaders.
Context {W : Type}.
(** [pd.read_csv] and [pd.read_excel] *)
Variable read_csv read_excel : string -> W -> result DataFrame * W.

Definition _load_data (path : string) (w : W) : result DataFrame * W :=
  let ext := lower (splitext_ext path) in
  if String.eqb ext ".csv" then read_csv path w
  else if String.eqb ext ".xls" || String.eqb ext ".xlsx" then read_excel path w
  else (Raise (ValueError ("Unsupported file extension: " ++ ext)), w).

(** [SchemaParsingAgent(file_path)] *)
Definition init (path : string) (w : W) : result agent * W :=
  let name := splitext_root (basename path) in
  match _load_data path w with
  | (Ok df, w') => (Ok (mk_agent path name df None), w')
  | (Raise e, w') => (Raise e, w')
  end.

End WithReaders.

Definition parse_schema (self : agent) : agent :=
  mk_agent (file_path self) (table_name self) (dataframe self)
           (Some (Schema.parse_schema (table_name self) (columns (dataframe self)))).

(** [annotate_schema]: the loop runs over [self.schema], which is [None]
    until [parse_schema] has run. *)
Definition annotate_schema (self : agent) : result agent :=
  match schema self with
  | None => Raise (TypeError "'NoneType' object is not iterable")
  | Some fields =>
      Ok (mk_agent (file_path self) (table_name self) (dataframe self)
                   (Some (Schema.annotate_schema fields)))
  end.

Definition get_schema (self : agent) : option (list Schema.field) := schema self.

Definition schema_api (self : agent) : result Schema.schema_summary :=
  match schema self with
  | None => Raise (TypeError "'NoneType' object is not iterable")
  | Some fields => Ok (Schema.schema_api fields)
  end.

End Loading.

(** ** mainagent.py: step 5 of [main], and what a trace shows *)

Module Setup.
Import Frame.

Definition datetime_col_candidates : list string := ["date"; "timestamp"; "datetime"].

(** The loop of step 5: the first candidate that is a column. *)
Definition detect_datetime_col (full_df : DataFrame) : option string :=
  find (has_column full_df) datetime_col_candidates.

(** Step 6 *)
Definition make_insight_agent (full_df : DataFrame) : InsightGeneration.agent :=
  InsightGeneration.mk_agent (detect_datetime_col full_df).

(** The queries sent to the SQL engine and the code handed to the
    interpreter, as a trace records them. *)
Definition sql_queries (t : list event) : list string :=
  flat_map (fun e => match e with SqlQuery q => [q] | _ => [] end) t.

Definition exec_codes (t : list event) : list string :=
  flat_map (fun e => match e with ExecCode c => [c] | _ => [] end) t.

Definition model_prompts (t : list event) : list string :=
  flat_map (fun e => match e with ModelCall p => [p] | _ => [] end) t.

(** The rows a cluster map holds, all clusters together. *)
Definition clustered_rows (m : list (Z * list Z)) : list Z := List.concat (map snd m).

(** No character of the line is a line feed. *)
Definition one_line (s : string) : bool := negb (Loading.has_char (ascii_of_nat 10) s).

(** A line that neither starts nor ends with a code fence. *)
Definition fence_free (l : string) : bool :=
  negb (startswith l "```") && negb (endswith l "```").

(** Only white space, or nothing. *)
Fixpoint blank (s : string) : bool :=
  match s with
  | EmptyString => true
  | String c r => is_space c && blank r
  end.

(** A categorical summary cut down to the five first values of each
    column. *)
Definition first_five (cat_summary : dict (list (Frame.cell * Z)))
  : dict (list (Frame.cell * Z)) :=
  map (fun entry => (fst entry, Frame.counts_head 5 (snd entry))) cat_summary.

End Setup.

(** ** More sample inputs *)

Module MoreSamples.
Import Schema Frame Instances Samples.

(** Readers that answer with the table of spendings and note what they
    were asked to read. *)
Definition noting_csv (path : string) (read : list string) : result DataFrame * list string :=
  (Ok spent_table, ("csv " ++ path) :: read).

Definition noting_excel (path : string) (read : list string) : result DataFrame * list string :=
  (Ok spent_table, ("excel " ++ path) :: read).

Definition padded_fenced_sql : string :=
  "  " ++ ("```" ++ "SQL" ++ nl ++ " SELECT total_spent FROM main_table " ++ nl ++ "```")
       ++ nl.

Definition agent_without_engine : DataRetrieval.agent :=
  DataRetrieval.mk_agent (schema_api sales_schema) None.

Definition kpi_without_name : kpi :=
  mk_kpi None (Some "Spending per user") (Some ["total_spent"]).

Definition kpi_called_unnamed : kpi :=
  mk_kpi (Some "Unnamed_KPI") (Some "A record without a better name") (Some ["user_id"]).

Definition text_table : DataFrame :=
  mk_frame [("label", object_); ("flag", bool_)]
           [(0%Z, [Str "a"; Num 1]); (1%Z, [Str "b"; Num 0])].

Definition spiky_table : DataFrame :=
  mk_frame [("value", float64)]
           (map (fun i => (Z.of_nat i,
                           [if (i =? 5)%nat then Missing
                            else if (i =? 11)%nat then Num 1000 else Num 1]))
                (seq 0 12)).

(** A table whose time column holds numbers, and the agent of step 6 for
    it. *)
Definition epoch_table : DataFrame :=
  mk_frame [("timestamp", int64); ("total_spent", float64)]
           [(0%Z, [Num 1; Num 10]);
            (1%Z, [Num 2; Num 12]);
            (2%Z, [Num 3; Num 14]);
            (3%Z, [Num 4; Num 16])].

Definition epoch_agent : InsightGeneration.agent := Setup.make_insight_agent epoch_table.

Definition label_not_unique : exn :=
  ValueError "The column label 'timestamp' is not unique.".

(** The agent made for [data/sales.csv], before [parse_schema]. *)
Definition fresh_sales_agent : Loading.agent :=
  Loading.mk_agent "data/sales.csv" "sales"
                   (mk_frame [("user_id", int64); ("date", object_); ("total_spent", float64)]
                             [(0%Z, [Num 1; Str "2024-01-01"; Num 10])])
                   None.

(** The model is out of quota. *)
Definition model_down : script :=
  mk_script [Raise (RuntimeError "quota exceeded")] [] [].

(** The model replies with code that fails when run. *)
Definition code_that_fails : script :=
  mk_script [Ok "fig = px.line(data_df)"] []
            [Raised (OtherException "NameError" "name 'px' is not defined")].

(** The model replies with code that calls [sys.exit]. *)
Definition code_that_exits : script :=
  mk_script [Ok "import sys; sys.exit(1)"] []
            [Exited (OtherException "SystemExit" "1")].

(** Six distinct values in one column. *)
Definition six_values : dict (list (cell * Z)) :=
  [("label", [(Str "a", 6%Z); (Str "b", 5%Z); (Str "c", 4%Z);
              (Str "d", 3%Z); (Str "e", 2%Z); (Str "f", 1%Z)])].

End MoreSamples.

(* ================================================================== *)
(** * Properties *)

Module SchemaFacts.
Import Schema.

Lemma lower_app (a b : string) : lower (a ++ b) = lower a ++ lower b.
Proof.
  induction a as [|c a IH]; simpl; [reflexivity | now rewrite IH].
Qed.

Lemma append_length (a b : string) :
  String.length (a ++ b) = String.length a + String.length b.
Proof.
  induction a as [|c a IH]; simpl; [reflexivity | now rewrite IH].
Qed.

Lemma substring_skip (a b : string) :
  String.substring (String.length a) (String.length b) (a ++ b) = b.
Proof.
  induction a as [|c a IH]; simpl.
  - induction b as [|d b IHb]; simpl; [reflexivity|].
    now rewrite IHb.
  - exact IH.
Qed.

Lemma endswith_app (a suf : string) : endswith (a ++ suf) suf = true.
Proof.
  unfold endswith. rewrite append_length.
  apply andb_true_intro; split.
  - apply Nat.leb_le; lia.
  - replace (String.length a + String.length suf - String.length suf)
      with (String.length a) by lia.
    rewrite substring_skip. apply String.eqb_refl.
Qed.

(** C2 (as amended): the role is a function of the lower-cased name and the
    semantic type.  A name that lower-cases to [id] or to something ending
    in [_id] gives [identifier] whatever the semantic type; otherwise
    [numerical] gives [metric] and every other semantic type gives
    [dimension].  For a column this reads: after [parse_schema] and
    [annotate_schema] the role is [identifier] by the name, else [metric]
    for a numeric dtype, else [dimension]. *)
Theorem assign_role_name_precedence (name : string) (st : semantic_type) :
  let is_id := String.eqb (lower name) "id" || endswith (lower name) "_id" in
  (is_id = true -> assign_role name st = identifier) /\
  (is_id = false -> st = numerical -> assign_role name st = metric) /\
  (is_id = false -> st <> numerical -> assign_role name st = dimension) /\
  (forall table d,
      field_role (annotate_field (parse_field table name d))
      = Some (if is_id then identifier
              else if is_numeric_dtype d then metric else dimension)).
Proof.
  unfold assign_role; cbv zeta.
  destruct (String.eqb (lower name) "id" || endswith (lower name) "_id") eqn:Hid.
  - repeat split; intros; try reflexivity; try discriminate.
    simpl. unfold assign_role. now rewrite Hid.
  - repeat split; intros; try discriminate.
    + subst st; reflexivity.
    + destruct st; try reflexivity. now contradiction H0.
    + simpl. unfold assign_role, infer_field_type. rewrite Hid.
      destruct d; reflexivity.
Qed.

(** C2 fails as it is worded: the numeric field [ID] is not named [id] and
    does not end in [_id], so the literal rule makes it a metric, while
    [annotate_schema] makes it an identifier. *)
Lemma literal_name_rule_fails_on_upper_case :
  (String.eqb "ID" "id" || endswith "ID" "_id") = false /\
  role_by_literal_name "ID" numerical = metric /\
  field_role (annotate_field (parse_field "t" "ID" int64)) = Some identifier /\
  assign_role "ID" numerical <> role_by_literal_name "ID" numerical.
Proof.
  repeat split; try reflexivity. discriminate.
Qed.

(** C10: the identifier check is made on the lower-cased name.  A name
    is an identifier exactly when its lower-cased form is [id] or ends in
    [_id], whatever the semantic type, and two names that differ in letter
    case only get the same role; so [ID], [Id] and every name ending in
    [_ID] or [_Id] is an identifier, before the metric and dimension rules
    are looked at. *)
Theorem identifier_check_is_case_insensitive (p : string) (st : semantic_type) :
  assign_role "ID" st = identifier /\
  assign_role "Id" st = identifier /\
  assign_role (p ++ "_ID") st = identifier /\
  assign_role (p ++ "_Id") st = identifier /\
  (forall name,
      assign_role name st = identifier <->
      String.eqb (lower name) "id" || endswith (lower name) "_id" = true) /\
  (forall name name',
      lower name = lower name' -> assign_role name st = assign_role name' st) /\
  (forall f,
      field_role (annotate_field f) = Some identifier <->
      (lower (field_name f) = "id" \/ endswith (lower (field_name f)) "_id" = true)).
Proof.
  assert (Hsuf : forall q suf, lower suf = "_id" ->
                  assign_role (q ++ suf) st = identifier).
  { intros q suf Hl. unfold assign_role.
    rewrite lower_app, Hl, endswith_app, orb_true_r. reflexivity. }
  assert (Hiff : forall st' name,
             assign_role name st' = identifier <->
             String.eqb (lower name) "id" || endswith (lower name) "_id" = true).
  { intros st' name. unfold assign_role.
    destruct (String.eqb (lower name) "id" || endswith (lower name) "_id").
    - split; reflexivity.
    - split; [destruct st'; discriminate | discriminate]. }
  split; [reflexivity | split; [reflexivity|]].
  split; [apply (Hsuf p "_ID"); reflexivity|].
  split; [apply (Hsuf p "_Id"); reflexivity|].
  split; [apply Hiff | split].
  - intros name name' Hsame. unfold assign_role. now rewrite Hsame.
  - intro f. cbn [annotate_field field_role].
    split.
    + intros [= Hrole]. apply Hiff in Hrole.
      apply orb_true_iff in Hrole as [Hid | Hend]; [left | now right].
      now apply String.eqb_eq.
    + intros [Hid | Hend]; f_equal; apply Hiff.
      * rewrite Hid. reflexivity.
      * rewrite Hend. apply orb_true_r.
Qed.

End SchemaFacts.

(** ** Data retrieval *)

Module DataRetrievalFacts.
Import Frame DataRetrieval.

Ltac run_monad :=
  unfold bind, ret, raise, lift, try_except, print, log in *; simpl in *.

Section WithCollaborators.
Context {W : Type} `{Collaborators W}.

(** One turn of the generator never raises: it yields the table when
    retrieval returned one, and [None] under the KPI's name, after one
    printed line, when retrieval raised. *)
Lemma step_outcome (self : agent) (k : kpi) (s : state W) :
  get_data_for_all_kpis_step self k s =
  match get_data_for_kpi self k s with
  | (Ok df, s') => (Ok (get_default (KPI k) "Unnamed_KPI", Some df), s')
  | (Raise e, s') =>
      (Ok (get_default (KPI k) "Unnamed_KPI", None),
       mk_state (world s')
                (trace s' ++ [Printed ("Failed to retrieve data for KPI '"
                                       ++ get_default (KPI k) "Unnamed_KPI"
                                       ++ "': " ++ exn_str e)])%list)
  end.
Proof.
  unfold get_data_for_all_kpis_step. run_monad.
  destruct (get_data_for_kpi self k s) as [[df | e] s']; reflexivity.
Qed.

Lemma step_never_raises (self : agent) (k : kpi) (s : state W) :
  exists r s', get_data_for_all_kpis_step self k s
               = (Ok (get_default (KPI k) "Unnamed_KPI", r), s').
Proof.
  rewrite step_outcome.
  destruct (get_data_for_kpi self k s) as [[df | e] s']; eauto.
Qed.

Lemma iterate_names (self : agent) (kpis : list kpi) :
  forall s, exists ys s',
    iterate self kpis s = (Ok ys, s') /\
    map fst ys = map (fun k => get_default (KPI k) "Unnamed_KPI") kpis.
Proof.
  induction kpis as [|k rest IH]; intro s; simpl.
  - exists [], s. split; reflexivity.
  - destruct (step_never_raises self k s) as (r & s1 & Hstep).
    destruct (IH s1) as (ys & s2 & Hrest & Hnames).
    exists ((get_default (KPI k) "Unnamed_KPI", r) :: ys), s2.
    unfold bind. rewrite Hstep, Hrest. simpl. rewrite Hnames. split; reflexivity.
Qed.

(** C1 (as amended): iterating the generator never raises and yields one
    pair per KPI, under the KPIs' names and in their order.  Each call of
    [next] on a generator with a KPI left yields that KPI's pair and leaves
    the rest to visit: the retrieved table when retrieval returned, and
    [None] in place of a table when generating or running the SQL raised. *)
Theorem get_data_for_all_kpis_yields_one_pair_per_kpi
        (self : agent) (kpis : list kpi) (s : state W) :
  (exists ys s',
      iterate self (get_data_for_all_kpis kpis) s = (Ok ys, s') /\
      List.length ys = List.length kpis /\
      map fst ys = map (fun k => get_default (KPI k) "Unnamed_KPI") kpis) /\
  (forall k rest s0,
      exists r s1,
        next self (k :: rest) s0
        = (Ok (Some ((get_default (KPI k) "Unnamed_KPI", r), rest)), s1) /\
        match fst (get_data_for_kpi self k s0) with
        | Ok df => r = Some df
        | Raise _ => r = None
        end) /\
  (forall s0, next self [] s0 = (Ok None, s0)).
Proof.
  split; [|split].
  - destruct (iterate_names self kpis s) as (ys & s' & Hrun & Hnames).
    exists ys, s'. split; [exact Hrun | split; [| exact Hnames]].
    transitivity (List.length (map fst ys)).
    + symmetry. apply length_map.
    + rewrite Hnames. apply length_map.
  - intros k rest s0. unfold next, bind, ret.
    rewrite step_outcome.
    destruct (get_data_for_kpi self k s0) as [[df | e] s1]; simpl; eauto.
  - reflexivity.
Qed.

End WithCollaborators.
End DataRetrievalFacts.

(** ** Insight generation *)

Module InsightFacts.
Import Frame InsightGeneration Notions.

(** *** Floats *)


Lemma nan_exceeds_nothing (t z : float) :
  is_nan z = true -> PrimFloat.ltb t (PrimFloat.abs z) = false.
Proof.
  unfold is_nan.
  rewrite FloatAxioms.ltb_spec, FloatAxioms.eqb_spec, FloatAxioms.abs_spec.
  destruct (Prim2SF z) as [[|]|[|]| |[|] m e]; cbn;
    try rewrite Pos.compare_refl; try rewrite Z.compare_refl; cbn;
    try discriminate.
  intros _. destruct (Prim2SF t) as [[|]|[|]| |[|] m e]; reflexivity.
Qed.


(** *** Rows left after dropping and sorting *)

Lemma insert_row_length i r rs :
  List.length (insert_row i r rs) = S (List.length rs).
Proof.
  induction rs as [|h t IH]; simpl; [reflexivity|].
  destruct (cell_leb (key_of i r) (key_of i h)); simpl; [reflexivity | now rewrite IH].
Qed.

Lemma sort_rows_length i rs : List.length (sort_rows i rs) = List.length rs.
Proof.
  induction rs as [|r rs IH]; simpl; [reflexivity|].
  rewrite insert_row_length. now rewrite IH.
Qed.

Lemma sort_values_len df key ts : sort_values df key = Ok ts -> len ts = len df.
Proof.
  unfold sort_values, len.
  destruct (position key (columns df)) as [[i d]|]; [|discriminate].
  destruct (1 <? label_count key (columns df))%nat; [discriminate|].
  destruct (rows df) as [|r0 rs] eqn:Hrows.
  - intros [= <-]. now rewrite Hrows.
  - destruct (forallb _ _); [|discriminate].
    intros [= <-]. cbn [rows]. now rewrite insert_row_length, sort_rows_length.
Qed.

Lemma filter_map_length {A B} (f : A -> B) (p : B -> bool) (l : list A) :
  List.length (filter p (map f l)) = List.length (filter (fun a => p (f a)) l).
Proof.
  induction l as [|a l IH]; simpl; [reflexivity|].
  destruct (p (f a)); simpl; now rewrite IH.
Qed.







Section WithLibrary.
Context `{Library}.


End WithLibrary.

(** *** Anomalies of a column without variance *)

Lemma ensure_float64_present (cs : list cell) :
  forall xs,
    forallb (fun c => negb (isna c)) cs = true ->
    ensure_float64 cs = Ok xs ->
    forallb (fun x => negb (is_nan x)) xs = true /\
    List.length xs = List.length cs.
Proof.
  induction cs as [|c cs IH]; intros xs Hpresent Hxs; simpl in *.
  - injection Hxs as <-. split; reflexivity.
  - apply andb_true_iff in Hpresent as [Hc Hcs].
    destruct c as [f | s |]; simpl in *; try discriminate.
    destruct (ensure_float64 cs) as [fs|e]; [|discriminate].
    injection Hxs as <-. destruct (IH fs Hcs eq_refl) as [Hnan Hlen].
    simpl. rewrite Hc, Hnan, Hlen. split; reflexivity.
Qed.

Lemma dropna_values_present (s : Series) :
  forallb (fun c => negb (isna c)) (s_values (s_dropna s)) = true.
Proof.
  unfold s_values, s_dropna; simpl.
  induction (s_items s) as [|it items IH]; simpl; [reflexivity|].
  destruct (negb (isna (snd it))) eqn:Hit; simpl; [now rewrite Hit|exact IH].
Qed.

Lemma mask_filter_all_false {A} (zs : list float) (t : float) (l : list A) :
  forallb is_nan zs = true ->
  mask_filter (map (fun z => PrimFloat.ltb t z) (map PrimFloat.abs zs)) l = [].
Proof.
  revert l. induction zs as [|z zs IH]; intros l Hnan; simpl in *; [reflexivity|].
  apply andb_true_iff in Hnan as [Hz Hzs].
  destruct l as [|x l]; [reflexivity|].
  rewrite (nan_exceeds_nothing t z Hz). now apply IH.
Qed.

Lemma dict_get_set_same {V} (d : dict V) (k : string) (v : V) :
  dict_get (dict_set d k v) k = Some v.
Proof.
  induction d as [|[k' v'] d IH]; simpl.
  - now rewrite String.eqb_refl.
  - destruct (String.eqb k' k) eqn:Hk; simpl; rewrite Hk; [reflexivity | exact IH].
Qed.

Lemma dict_get_set_keeps {V} (d : dict V) (k c : string) (v : V) :
  dict_get d k = Some v -> dict_get (dict_set d c v) k = Some v.
Proof.
  induction d as [|[k' v'] d IH]; simpl; [discriminate|].
  destruct (String.eqb k' k) eqn:Hk.
  - intros [= ->]. destruct (String.eqb k' c); simpl; now rewrite Hk.
  - intro Hget. destruct (String.eqb k' c); simpl; rewrite Hk; auto.
Qed.

Lemma dict_get_after_sets {V} (cols : list string) (v : V) :
  forall (d : dict V) (k : string),
    In k cols \/ dict_get d k = Some v ->
    dict_get (fold_left (fun d c => dict_set d c v) cols d) k = Some v.
Proof.
  induction cols as [|c cols IH]; intros d k Hk; simpl.
  - destruct Hk as [[] | Hk]; exact Hk.
  - apply IH. destruct Hk as [[-> | Hin] | Hget].
    + right. apply dict_get_set_same.
    + now left.
    + right. now apply dict_get_set_keeps.
Qed.

Lemma has_column_In (df : DataFrame) (name : string) :
  has_column df name = true -> In name (map fst (columns df)).
Proof.
  unfold has_column. intro Hex. apply existsb_exists in Hex as (c & Hin & Heq).
  apply String.eqb_eq in Heq. subst name. now apply in_map.
Qed.

Section Anomalies.
Context `{Library}.

Lemma column_without_variance (s : Series) (xs : list float) (z_thresh : float) :
  zscore_nan_without_variance ->
  ensure_float64 (s_values (s_dropna s)) = Ok xs ->
  fewer_than_two_distinct xs = true ->
  column_anomalies (s_dropna s) z_thresh = Ok [].
Proof.
  intros Hlib Hxs Hfew. unfold column_anomalies.
  destruct (s_empty (s_dropna s)) eqn:Hempty; [reflexivity|].
  destruct (ensure_float64_present _ _ (dropna_values_present s) Hxs) as [Hnan Hlen].
  assert (Hne : xs <> []).
  { intros ->. unfold s_empty in Hempty. unfold s_values in Hlen.
    destruct (s_items (s_dropna s)); simpl in *; discriminate. }
  destruct (Hlib xs Hne Hnan Hfew) as (zs & Hz & Hzlen & Hznan).
  rewrite Hxs. simpl. rewrite Hz. simpl.
  rewrite !length_map, Hzlen, Hlen.
  unfold s_index, s_values. rewrite !length_map, Nat.eqb_refl.
  f_equal. now apply mask_filter_all_false.
Qed.

Lemma anomaly_loop_without_variance (numeric : DataFrame) (z_thresh : float)
      (cols : list string) :
  zscore_nan_without_variance ->
  Forall (fun col =>
            exists s xs,
              get_column numeric col = Ok s /\
              ensure_float64 (s_values (s_dropna s)) = Ok xs /\
              fewer_than_two_distinct xs = true) cols ->
  forall res,
    anomaly_loop numeric cols z_thresh res
    = Ok (fold_left (fun d c => dict_set d c []) cols res).
Proof.
  intros Hlib Hcols. induction Hcols as [|col cols (s & xs & Hs & Hxs & Hfew) _ IH];
    intro res; simpl; [reflexivity|].
  rewrite Hs. simpl.
  rewrite (column_without_variance s xs z_thresh Hlib Hxs Hfew). simpl.
  apply IH.
Qed.

(** C7: given that [zscore] returns a [nan] for every value of a column
    without variance, the loop body of [anomaly_detection] returns the
    empty list for a numeric column whose values, the missing ones apart,
    number fewer than two distinct ones; it does not raise.  On a table
    whose numeric columns are all such, [anomaly_detection] returns a dict
    that maps every numeric column to the empty list. *)
Theorem anomaly_detection_without_variance (data : DataFrame) (z_thresh : float) :
  zscore_nan_without_variance ->
  (forall s xs,
      ensure_float64 (s_values (s_dropna s)) = Ok xs ->
      fewer_than_two_distinct xs = true ->
      column_anomalies (s_dropna s) z_thresh = Ok []) /\
  (numeric_columns_without_variance data ->
   exists res,
     anomaly_detection data z_thresh = Ok res /\
     forall col,
       has_column (select_dtypes is_np_number data) col = true ->
       dict_get res col = Some []).
Proof.
  intro Hlib. split.
  - intros s xs. now apply column_without_variance.
  - intro Hall. unfold anomaly_detection.
    rewrite (anomaly_loop_without_variance _ z_thresh _ Hlib Hall).
    eexists. split; [reflexivity|].
    intros col Hcol. apply dict_get_after_sets. left. now apply has_column_In.
Qed.

End Anomalies.

(** *** The insight bundle *)

Section Bundle.
Context {W : Type} `{Collaborators W} `{Library}.

(** An empty table stops [generate_insights_for_kpi] at once: the bundle
    has the summary alone, and nothing was computed, asked or printed. *)
Lemma insights_for_empty_table (self : agent) (k : kpi) (data : DataFrame)
      (s : state W) :
  empty data = true ->
  generate_insights_for_kpi self k data s
  = (Ok [("summary",
          VStr ("No data available to generate insights for KPI '"
                ++ get_default (KPI k) "Unknown" ++ "'."))], s).
Proof.
  intro Hempty. unfold generate_insights_for_kpi. now rewrite Hempty.
Qed.

Lemma zero_rows_empty (data : DataFrame) : rows data = [] -> empty data = true.
Proof. unfold empty. now intros ->. Qed.

(** C9: for a table that is not empty, whenever the [try] block of
    [generate_insights_for_kpi] runs to its end, the bundle returned is
    the block's, it holds [None] under [clusters], and all seven keys are
    there in order.  The k-means routine plays no part: with any other
    routine in its place, [generate_insights_for_kpi] does the same. *)
Theorem clusters_entry_is_none (self : agent) (k : kpi) (data : DataFrame)
        (s s' : state W) (bundle : dict bundle_value) :
  empty data = false ->
  insights_try_block self k data s = (Ok bundle, s') ->
  generate_insights_for_kpi self k data s = (Ok bundle, s') /\
  dict_get bundle "clusters" = Some VNone /\
  dict_keys bundle = ["descriptive_stats"; "categorical_summary"; "trends";
                      "correlation_matrix"; "anomalies"; "clusters"; "summary"] /\
  (forall km,
      generate_insights_for_kpi (H := with_kmeans _ km) self k data s
      = generate_insights_for_kpi self k data s).
Proof.
  intros Hne Hblock.
  assert (Hkm : forall km,
             generate_insights_for_kpi (H := with_kmeans _ km) self k data s
             = generate_insights_for_kpi self k data s) by reflexivity.
  split; [|cut (dict_get bundle "clusters" = Some VNone /\
                dict_keys bundle
                = ["descriptive_stats"; "categorical_summary"; "trends";
                   "correlation_matrix"; "anomalies"; "clusters"; "summary"]);
           [tauto|]].
  - unfold generate_insights_for_kpi, try_except. now rewrite Hne, Hblock.
  - revert Hblock. unfold insights_try_block, bind, lift, ret.
    destruct (descriptive_stats data); [|discriminate].
    destruct (categorical_summary data); [|discriminate].
    destruct (if negb (no_datetime_col self data) then _ else _); [|discriminate].
    destruct (correlation_matrix data); [|discriminate].
    destruct (anomaly_detection data 3); [|discriminate].
    destruct (generate_textual_insight _ _ _ _ _ _ s) as [[summary|e] s1];
      [|discriminate].
    intros [= <- _]. split; reflexivity.
Qed.

End Bundle.

End InsightFacts.

(** ** Parsing the model's replies, and visualization *)

Module ReplyFacts.
Import Frame Visualization.

Section WithCollaborators.
Context {W : Type} `{Collaborators W} `{Library}.

Lemma call_model_reply (prompt reply : string) (s : state W) (w' : W) :
  generate_content prompt (world s) = (Ok reply, w') ->
  call_model prompt s = (Ok reply, mk_state w' (trace s ++ [ModelCall prompt])%list).
Proof. unfold call_model. now intros ->. Qed.

(** C5 (as amended): when [json.loads] rejects the text with a
    [JSONDecodeError], neither [parse_kpi_json] nor the parsing step of
    [suggest_chart_types] raises: each prints two lines, the second one
    holding the raw text, touches nothing else, and returns [None].  So do
    [suggest_kpis] and [suggest_chart_types] when the model's reply is
    such a text.  When [json.loads] rejects the text with an exception of
    another class, no handler applies: nothing is printed and the
    exception leaves the call site. *)
Theorem decode_errors_give_none_other_errors_leave (text : string) :
  (forall msg,
      json_loads text = Raise (JSONDecodeError msg) ->
      (forall s : state W,
          KPIIdentification.parse_kpi_json text s
          = (Ok JNull,
             mk_state (world s)
                      (trace s ++ [Printed "Failed to parse JSON from LLM response.";
                                   Printed ("Raw LLM output: " ++ text)])%list)) /\
      (forall s : state W,
          parse_chart_suggestions text s
          = (Ok None,
             mk_state (world s)
                      (trace s ++ [Printed ("Failed to parse chart suggestion JSON: " ++ msg);
                                   Printed ("LLM response was: " ++ text)])%list)) /\
      (forall (self : KPIIdentification.agent) (s : state W) (w' : W),
          generate_content (KPIIdentification.create_prompt self) (world s) = (Ok text, w') ->
          KPIIdentification.suggest_kpis self s
          = (Ok JNull,
             mk_state w'
                      (trace s ++ [ModelCall (KPIIdentification.create_prompt self);
                                   Printed "Failed to parse JSON from LLM response.";
                                   Printed ("Raw LLM output: " ++ text)])%list)) /\
      (forall (kpi_name kpi_desc insight reply : string) (s : state W) (w' : W),
          generate_content (suggest_chart_prompt kpi_name kpi_desc insight) (world s)
          = (Ok reply, w') ->
          strip reply = text ->
          suggest_chart_types kpi_name kpi_desc insight s
          = (Ok None,
             mk_state w'
                      (trace s ++ [ModelCall (suggest_chart_prompt kpi_name kpi_desc insight);
                                   Printed ("Failed to parse chart suggestion JSON: " ++ msg);
                                   Printed ("LLM response was: " ++ text)])%list))) /\
  (forall e,
      json_loads text = Raise e ->
      (forall msg, e <> JSONDecodeError msg) ->
      (forall s : state W, KPIIdentification.parse_kpi_json text s = (Raise e, s)) /\
      (forall s : state W, parse_chart_suggestions text s = (Raise e, s)) /\
      (forall (self : KPIIdentification.agent) (s : state W) (w' : W),
          generate_content (KPIIdentification.create_prompt self) (world s) = (Ok text, w') ->
          KPIIdentification.suggest_kpis self s
          = (Raise e,
             mk_state w' (trace s ++ [ModelCall (KPIIdentification.create_prompt self)])%list)) /\
      (forall (kpi_name kpi_desc insight reply : string) (s : state W) (w' : W),
          generate_content (suggest_chart_prompt kpi_name kpi_desc insight) (world s)
          = (Ok reply, w') ->
          strip reply = text ->
          suggest_chart_types kpi_name kpi_desc insight s
          = (Raise e,
             mk_state w'
                      (trace s ++ [ModelCall (suggest_chart_prompt kpi_name kpi_desc insight)])%list))).
Proof.
  split.
  - intros msg Hbad.
    assert (Hkpi : forall s : state W,
               KPIIdentification.parse_kpi_json text s
               = (Ok JNull,
                  mk_state (world s)
                           (trace s ++ [Printed "Failed to parse JSON from LLM response.";
                                        Printed ("Raw LLM output: " ++ text)])%list)).
    { intro s. unfold KPIIdentification.parse_kpi_json. rewrite Hbad.
      unfold bind, print, log, ret. simpl. now rewrite <- app_assoc. }
    assert (Hchart : forall s : state W,
               parse_chart_suggestions text s
               = (Ok None,
                  mk_state (world s)
                           (trace s ++ [Printed ("Failed to parse chart suggestion JSON: " ++ msg);
                                        Printed ("LLM response was: " ++ text)])%list)).
    { intro s. unfold parse_chart_suggestions. rewrite Hbad.
      unfold bind, print, log, ret. simpl. now rewrite <- app_assoc. }
    split; [exact Hkpi | split; [exact Hchart | split]].
    + intros self s w' Hreply.
      unfold KPIIdentification.suggest_kpis, KPIIdentification.call_llm, bind.
      rewrite (call_model_reply _ _ _ _ Hreply), Hkpi. simpl.
      now rewrite <- app_assoc.
    + intros kpi_name kpi_desc insight reply s w' Hreply Hstrip.
      unfold suggest_chart_types, bind.
      rewrite (call_model_reply _ _ _ _ Hreply), Hstrip, Hchart. simpl.
      now rewrite <- app_assoc.
  - intros e Hbad Hother.
    assert (Hkpi : forall s : state W,
               KPIIdentification.parse_kpi_json text s = (Raise e, s)).
    { intro s. unfold KPIIdentification.parse_kpi_json. rewrite Hbad.
      destruct e; try reflexivity. now contradiction (Hother msg). }
    assert (Hchart : forall s : state W, parse_chart_suggestions text s = (Raise e, s)).
    { intro s. unfold parse_chart_suggestions. rewrite Hbad.
      destruct e; try reflexivity. now contradiction (Hother msg). }
    split; [exact Hkpi | split; [exact Hchart | split]].
    + intros self s w' Hreply.
      unfold KPIIdentification.suggest_kpis, KPIIdentification.call_llm, bind.
      now rewrite (call_model_reply _ _ _ _ Hreply), Hkpi.
    + intros kpi_name kpi_desc insight reply s w' Hreply Hstrip.
      unfold suggest_chart_types, bind.
      now rewrite (call_model_reply _ _ _ _ Hreply), Hstrip, Hchart.
Qed.

(** C8: a reply that parses to a single JSON object comes back from
    [suggest_chart_types] as the list holding that object alone, and a
    reply that parses to a JSON array comes back as the array's items;
    nothing is raised or printed on the way. *)
Theorem single_object_becomes_one_element_list
        (kpi_name kpi_desc insight reply : string) (s : state W) (w' : W) :
  generate_content (suggest_chart_prompt kpi_name kpi_desc insight) (world s)
  = (Ok reply, w') ->
  let s' := mk_state w'
              (trace s ++ [ModelCall (suggest_chart_prompt kpi_name kpi_desc insight)])%list in
  (forall members,
      json_loads (strip reply) = Ok (JObj members) ->
      suggest_chart_types kpi_name kpi_desc insight s = (Ok (Some [JObj members]), s')) /\
  (forall items,
      json_loads (strip reply) = Ok (JArr items) ->
      suggest_chart_types kpi_name kpi_desc insight s = (Ok (Some items), s')).
Proof.
  intros Hreply s'. split; intros v Hparse;
    unfold suggest_chart_types, bind;
    rewrite (call_model_reply _ _ _ _ Hreply);
    unfold parse_chart_suggestions; rewrite Hparse; reflexivity.
Qed.

Lemma generate_plotly_code_asks_model
      (kpi_name kpi_desc insight : string) (data : DataFrame) (n : nat) (s : state W) :
  exists tail,
    trace (snd (generate_plotly_code kpi_name kpi_desc insight data n s))
    = (trace s ++ ModelCall (plotly_code_prompt kpi_name kpi_desc insight data n) :: tail)%list.
Proof.
  unfold generate_plotly_code, bind, call_model, call_exec, raise, print, log, ret.
  destruct (generate_content _ (world s)) as [[reply|e] w1]; simpl.
  - destruct (exec_code _ data w1) as [[[f|]|e|e] w2]; simpl.
    + destruct (obj_truthy f && obj_has_show f); simpl;
        rewrite <- ?app_assoc; simpl; eauto.
    + rewrite <- ?app_assoc; simpl; eauto.
    + rewrite <- ?app_assoc; simpl; eauto.
    + rewrite <- ?app_assoc; simpl; eauto.
  - eauto.
Qed.

(** C6 (what the code does): once [suggest_chart_types] has returned a
    list that is not empty, [create_visualization] is
    [generate_plotly_code] on the KPI's name, description, insight and
    data.  The prompt of that step is built from these four alone, and two
    runs that differ only in the suggestions they received go on alike:
    the first suggestion does not reach the code generation step. *)
Theorem first_suggestion_does_not_reach_code_generation
        (kpi_name kpi_desc insight : string) (data : DataFrame)
        (s s1 : state W) (first : json) (others : list json) :
  suggest_chart_types kpi_name kpi_desc insight s = (Ok (Some (first :: others)), s1) ->
  create_visualization kpi_name kpi_desc insight data s
  = generate_plotly_code kpi_name kpi_desc insight data 10 s1 /\
  (exists tail,
      trace (snd (create_visualization kpi_name kpi_desc insight data s))
      = (trace s1 ++ ModelCall (plotly_code_prompt kpi_name kpi_desc insight data 10)
               :: tail)%list) /\
  (forall (t : state W) (first' : json) (others' : list json),
      suggest_chart_types kpi_name kpi_desc insight t = (Ok (Some (first' :: others')), s1) ->
      create_visualization kpi_name kpi_desc insight data t
      = create_visualization kpi_name kpi_desc insight data s).
Proof.
  intro Hsugg.
  assert (Hrun : forall (t : state W) f o,
             suggest_chart_types kpi_name kpi_desc insight t = (Ok (Some (f :: o)), s1) ->
             create_visualization kpi_name kpi_desc insight data t
             = generate_plotly_code kpi_name kpi_desc insight data 10 s1).
  { intros t f o Ht. unfold create_visualization, bind at 1. rewrite Ht.
    unfold bind, ret.
    destruct (generate_plotly_code kpi_name kpi_desc insight data 10 s1) as [[fig|e] s2];
      reflexivity. }
  split; [|split].
  - now apply Hrun with first others.
  - rewrite (Hrun s first others Hsugg). apply generate_plotly_code_asks_model.
  - intros t f o Ht. rewrite (Hrun t f o Ht). symmetry. now apply Hrun with first others.
Qed.

End WithCollaborators.
End ReplyFacts.

(** ** The main loop and the dashboard *)

Module MainFacts.
Import Frame InsightGeneration Dashboard Main.

Lemma no_entry_no_card (acc : dict (string * option pyobj)) (name : string) :
  dict_get acc name = None ->
  existsb (fun c => String.eqb (card_title c) name)
          (map (fun e => _generate_kpi_card (fst e) (fst (snd e)) (snd (snd e))) acc)
  = false.
Proof.
  induction acc as [|[k v] acc IH]; simpl; [reflexivity|].
  destruct (String.eqb k name); [discriminate|]. exact IH.
Qed.

Lemma placeholder_needs_card (dash : agent) (name : string) :
  has_card_for dash name = false -> shows_placeholder_for dash name = false.
Proof.
  unfold has_card_for, shows_placeholder_for.
  induction (cards dash) as [|c cs IH]; simpl; [reflexivity|].
  destruct (String.eqb (card_title c) name); simpl; [discriminate | exact IH].
Qed.

Section WithCollaborators.
Context {W : Type} `{Collaborators W} `{Library}.

(** C3 (as amended): for a result table without rows,
    [generate_insights_for_kpi] returns the bundle whose only key is
    [summary], with the "no data" text, and computes and asks nothing.
    In [main] such a table is skipped before insight generation: two lines
    are printed, neither the model nor the interpreter is called, and the
    mapping handed to the dashboard is left as it was, so that the page has
    no card, and no placeholder, for a KPI that was not in it. *)
Theorem empty_table_short_circuits_and_is_skipped
        (insight_agent : InsightGeneration.agent) (kpis : list kpi) (k : kpi)
        (acc : dict (string * option pyobj)) (name : string) (table : DataFrame)
        (s : state W) :
  rows table = [] ->
  (exists bundle,
      generate_insights_for_kpi insight_agent k table s = (Ok bundle, s) /\
      bundle = [("summary",
                 VStr ("No data available to generate insights for KPI '"
                       ++ get_default (KPI k) "Unknown" ++ "'."))] /\
      dict_get bundle "descriptive_stats" = None /\
      dict_get bundle "correlation_matrix" = None /\
      dict_get bundle "anomalies" = None) /\
  process_kpi insight_agent kpis acc (name, Some table) s
  = (Ok acc,
     mk_state (world s)
              (trace s ++ [Printed (nl ++ "=== Processing KPI: " ++ name ++ " ===");
                           Printed ("No data available for KPI '" ++ name
                                    ++ "'. Skipping.")])%list) /\
  (forall (dash : Dashboard.agent) (title : string),
      dict_get acc name = None ->
      has_card_for (build_dashboard_layout dash acc title) name = false /\
      shows_placeholder_for (build_dashboard_layout dash acc title) name = false).
Proof.
  intro Hrows.
  pose proof (InsightFacts.zero_rows_empty table Hrows) as Hempty.
  split; [|split].
  - eexists. split; [now apply InsightFacts.insights_for_empty_table|].
    repeat split.
  - unfold process_kpi, bind, print, log, ret. simpl. rewrite Hempty. simpl.
    now rewrite <- app_assoc.
  - intros dash title Hnone.
    assert (Hcard : has_card_for (build_dashboard_layout dash acc title) name = false).
    { unfold has_card_for, cards, build_dashboard_layout. simpl.
      now apply no_entry_no_card. }
    split; [exact Hcard | now apply placeholder_needs_card].
Qed.

End WithCollaborators.
End MainFacts.

(** ** The properties on the sample inputs *)

Module Scenarios.
Import Schema Frame Instances Samples Notions.

#[local] Existing Instance sample_library.
#[local] Existing Instance scripted.

(** C1 fails as it is worded: the SQL of the first KPI raises, the
    generator goes on to the second KPI, and the pair it yielded for the
    first one holds [None], which is no table, hence no empty table. *)
Lemma failed_retrieval_yields_none_not_an_empty_table :
  let run := DataRetrieval.iterate data_agent [kpi_users; kpi_spent]
                                   (start failing_then_fine) in
  fst (DataRetrieval.get_data_for_kpi data_agent kpi_users (start failing_then_fine))
  = Raise (OtherException "OperationalError" "no such column: nope") /\
  fst run = Ok [("User Count", None); ("Total Spent", Some spent_table)] /\
  ~ (exists ys,
        fst run = Ok ys /\
        forall y, In y ys -> fst y = "User Count" ->
                  DataRetrieval.carries_empty_table (snd y) = true).
Proof.
  cbv zeta. split; [reflexivity | split; [reflexivity|]].
  intros (ys & Hrun & Hall).
  assert (Hys : ys = [("User Count", None); ("Total Spent", Some spent_table)]).
  { vm_compute in Hrun. now injection Hrun as <-. }
  specialize (Hall ("User Count", None)). rewrite Hys in Hall.
  specialize (Hall (or_introl eq_refl) eq_refl). discriminate Hall.
Qed.

(** The amended C2 on the columns [user_id], [date] and [total_spent]. *)
Lemma assign_role_on_sales_fields :
  (String.eqb (lower "user_id") "id" || endswith (lower "user_id") "_id" = true) /\
  assign_role "user_id" numerical = identifier /\
  assign_role "total_spent" numerical = metric /\
  assign_role "date" categorical = dimension /\
  schema_api sales_schema
  = mk_summary ["user_id"; "date"; "total_spent"] ["total_spent"] ["date"] ["user_id"].
Proof.
  split; [reflexivity | split; [|split; [|split]]].
  - exact (proj1 (SchemaFacts.assign_role_name_precedence "user_id" numerical) eq_refl).
  - exact (proj1 (proj2 (SchemaFacts.assign_role_name_precedence "total_spent" numerical))
                 eq_refl eq_refl).
  - apply (proj1 (proj2 (proj2 (SchemaFacts.assign_role_name_precedence "date" categorical)))
                 eq_refl).
    discriminate.
  - reflexivity.
Defined.

(** C10 on the names [Order_ID], [CUSTOMER_ID] and [User_Id], and on
    [valid], which ends in [id] without the underscore. *)
Lemma upper_case_identifiers :
  assign_role ("Order" ++ "_ID") numerical = identifier /\
  (String.eqb (lower "CUSTOMER_ID") "id" || endswith (lower "CUSTOMER_ID") "_id" = true) /\
  assign_role "CUSTOMER_ID" numerical = identifier /\
  lower "User_Id" = lower "USER_ID" /\
  assign_role "User_Id" numerical = assign_role "USER_ID" numerical /\
  (String.eqb (lower "valid") "id" || endswith (lower "valid") "_id" = false) /\
  assign_role "valid" numerical <> identifier.
Proof.
  pose proof (SchemaFacts.identifier_check_is_case_insensitive "Order" numerical)
    as (_ & _ & Hupper & _ & Hany & Hcase & _).
  split; [exact Hupper | split; [reflexivity|]].
  split; [exact (proj2 (Hany "CUSTOMER_ID") eq_refl) | split; [reflexivity|]].
  split; [exact (Hcase "User_Id" "USER_ID" eq_refl) | split; [reflexivity|]].
  intro Hrole. apply (proj1 (Hany "valid")) in Hrole. discriminate Hrole.
Defined.

(** The amended C3 on the result without rows. *)
Lemma result_without_rows_is_skipped :
  rows no_rows = [] /\
  fst (Main.process_kpi insight_agent [kpi_spent; kpi_users] [] ("User Count", Some no_rows)
                        (start one_full_one_empty)) = Ok [] /\
  prompts (trace (snd (Main.process_kpi insight_agent [kpi_spent; kpi_users] []
                                        ("User Count", Some no_rows)
                                        (start one_full_one_empty)))) = [].
Proof.
  pose proof (MainFacts.empty_table_short_circuits_and_is_skipped
                insight_agent [kpi_spent; kpi_users] kpi_users [] "User Count" no_rows
                (start one_full_one_empty) eq_refl) as (_ & Hskip & _).
  split; [reflexivity|]. rewrite Hskip. split; reflexivity.
Defined.

(** C3 fails as it is worded: with one KPI that has rows and one that has
    none, the page has the card of the first KPI only.  The second KPI has
    no card, so no placeholder text is shown for it. *)
Lemma no_placeholder_for_a_result_without_rows :
  exists dash final,
    Main.main_from_step_7 data_agent insight_agent [kpi_spent; kpi_users]
                          (start one_full_one_empty) = (Ok dash, final) /\
    map Dashboard.card_title (Dashboard.cards dash) = ["Total Spent"] /\
    Dashboard.has_card_for dash "User Count" = false /\
    Dashboard.shows_placeholder_for dash "User Count" = false.
Proof.
  eexists. eexists. split; [vm_compute; reflexivity|].
  repeat split.
Qed.



(** The amended C5 on a reply that is prose, which is logged and gives
    [None], and on a reply of objects nested 1200 deep, which is neither. *)
Lemma prose_reply_gives_none_deep_reply_raises :
  json_loads chatter = Raise (JSONDecodeError "Expecting value") /\
  fst (KPIIdentification.parse_kpi_json chatter (start (replies []))) = Ok JNull /\
  printed (trace (snd (KPIIdentification.parse_kpi_json chatter (start (replies [])))))
  = ["Failed to parse JSON from LLM response."; "Raw LLM output: " ++ chatter] /\
  fst (Visualization.parse_chart_suggestions chatter (start (replies []))) = Ok None /\
  KPIIdentification.parse_kpi_json deep_objects (start (replies []))
  = (Raise (OtherException
              "RecursionError"
              "maximum recursion depth exceeded while decoding a JSON object from a unicode string"),
     start (replies [])).
Proof.
  destruct (ReplyFacts.decode_errors_give_none_other_errors_leave
              (W := script) (H0 := sample_library) chatter) as (Hlogged & _).
  destruct (Hlogged "Expecting value" eq_refl) as (Hkpi & Hchart & _).
  destruct (ReplyFacts.decode_errors_give_none_other_errors_leave
              (W := script) (H0 := sample_library) deep_objects) as (_ & Hleaves).
  assert (Hdeep : json_loads deep_objects
                  = Raise (OtherException
                             "RecursionError"
                             "maximum recursion depth exceeded while decoding a JSON object from a unicode string"))
    by (vm_compute; reflexivity).
  assert (Hclass : forall msg,
             OtherException
               "RecursionError"
               "maximum recursion depth exceeded while decoding a JSON object from a unicode string"
             <> JSONDecodeError msg) by discriminate.
  destruct (Hleaves _ Hdeep Hclass) as (Hraise & _).
  split; [reflexivity|].
  rewrite (Hkpi (start (replies []))), (Hchart (start (replies []))).
  split; [reflexivity | split; [reflexivity | split; [reflexivity|]]].
  exact (Hraise (start (replies []))).
Defined.

(** C5 fails as it is worded: two thousand opening brackets are not valid
    JSON, and [json.loads] gives up on them with [RecursionError], which
    neither call site catches. *)
Lemma deep_brackets_are_not_caught :
  String.length deep_brackets = 2000 /\
  (forall c, In c (list_ascii_of_string deep_brackets) -> c = "["%char) /\
  fst (KPIIdentification.parse_kpi_json deep_brackets (start (replies [])))
  = Raise (OtherException
             "RecursionError"
             "maximum recursion depth exceeded while decoding a JSON array from a unicode string") /\
  fst (KPIIdentification.suggest_kpis
         (KPIIdentification.mk_agent (schema_api sales_schema) "revenue")
         (start (replies [deep_brackets])))
  = Raise (OtherException
             "RecursionError"
             "maximum recursion depth exceeded while decoding a JSON array from a unicode string") /\
  fst (Visualization.suggest_chart_types "Total Spent" "Sum" "Grows"
                                         (start (replies [deep_brackets])))
  = Raise (OtherException
             "RecursionError"
             "maximum recursion depth exceeded while decoding a JSON array from a unicode string").
Proof.
  split; [vm_compute; reflexivity | split].
  - assert (Hall : forallb (fun c => Ascii.eqb c "["%char)
                           (list_ascii_of_string deep_brackets) = true)
      by (vm_compute; reflexivity).
    rewrite forallb_forall in Hall. intros c Hc. now apply Ascii.eqb_eq, Hall.
  - split; [vm_compute; reflexivity | split; vm_compute; reflexivity].
Qed.

(** C6 on two suggestions: the prompts sent are the one asking for
    suggestions and the one asking for code, and the latter is the same
    as after a single, different suggestion. *)
Lemma two_suggestions_same_code_prompt :
  fst (Visualization.suggest_chart_types "Total Spent" "Sum" "Grows"
                                         (start (replies [two_charts; "fig = 1"])))
  = Ok (Some [JObj [("chart_type", JStr "bar")]; JObj [("chart_type", JStr "pie")]]) /\
  fst (Visualization.create_visualization "Total Spent" "Sum" "Grows" spent_table
                                          (start (replies [two_charts; "fig = 1"])))
  = Ok (Some figure) /\
  prompts (trace (snd (Visualization.create_visualization
                         "Total Spent" "Sum" "Grows" spent_table
                         (start (replies [two_charts; "fig = 1"])))))
  = [Visualization.suggest_chart_prompt "Total Spent" "Sum" "Grows";
     Visualization.plotly_code_prompt "Total Spent" "Sum" "Grows" spent_table 10] /\
  prompts (trace (snd (Visualization.create_visualization
                         "Total Spent" "Sum" "Grows" spent_table
                         (start (replies [one_chart; "fig = 1"])))))
  = [Visualization.suggest_chart_prompt "Total Spent" "Sum" "Grows";
     Visualization.plotly_code_prompt "Total Spent" "Sum" "Grows" spent_table 10].
Proof.
  pose proof (ReplyFacts.first_suggestion_does_not_reach_code_generation
                "Total Spent" "Sum" "Grows" spent_table
                (start (replies [two_charts; "fig = 1"]))
                (snd (Visualization.suggest_chart_types
                        "Total Spent" "Sum" "Grows"
                        (start (replies [two_charts; "fig = 1"]))))
                (JObj [("chart_type", JStr "bar")])
                [JObj [("chart_type", JStr "pie")]] eq_refl) as (Hrun & _).
  split; [reflexivity|]. rewrite Hrun.
  split; [reflexivity | split; [reflexivity | reflexivity]].
Defined.

(** The z-score of the sample library gives [nan] on a column without
    variance. *)
Lemma population_zscore_without_variance : zscore_nan_without_variance.
Proof.
  intros xs Hne Hpresent Hfew. destruct xs as [|x0 r]; [contradiction|].
  simpl in Hpresent. apply andb_true_iff in Hpresent as [Hx0 _].
  assert (Hself : PrimFloat.eqb x0 x0 = true).
  { unfold is_nan in Hx0. now destruct (PrimFloat.eqb x0 x0). }
  exists (map (fun _ => nan) (x0 :: r)). split; [|split].
  - cbn [zscore sample_library population_zscore].
    cbn [forallb]. simpl in Hfew. rewrite Hself, Hfew. reflexivity.
  - apply length_map.
  - clear. induction (x0 :: r) as [|a l IH]; [reflexivity | exact IH].
Qed.

(** C7 on the column [amount], whose three values present are all 5. *)
Lemma flat_column_has_no_anomaly :
  zscore_nan_without_variance /\
  numeric_columns_without_variance flat_table /\
  InsightGeneration.anomaly_detection flat_table 3%float = Ok [("amount", [])].
Proof.
  assert (Hflat : numeric_columns_without_variance flat_table).
  { constructor; [|constructor].
    eexists. exists [5; 5; 5]%float. repeat split. }
  pose proof (InsightFacts.anomaly_detection_without_variance
                flat_table 3%float population_zscore_without_variance)
    as (_ & Hframe).
  destruct (Hframe Hflat) as (res & Hres & _).
  split; [exact population_zscore_without_variance | split; [exact Hflat|]].
  reflexivity.
Defined.

(** C8 on a reply that is one chart object. *)
Lemma one_chart_object_is_wrapped :
  generate_content (Visualization.suggest_chart_prompt "Total Spent" "Sum" "Grows")
                   (replies [one_chart])
  = (Ok one_chart, replies []) /\
  json_loads (strip one_chart) = Ok (JObj [("chart_type", JStr "line")]) /\
  fst (Visualization.suggest_chart_types "Total Spent" "Sum" "Grows"
                                         (start (replies [one_chart])))
  = Ok (Some [JObj [("chart_type", JStr "line")]]).
Proof.
  pose proof (ReplyFacts.single_object_becomes_one_element_list
                "Total Spent" "Sum" "Grows" one_chart (start (replies [one_chart]))
                (replies []) eq_refl) as (Hobject & _).
  split; [reflexivity | split; [reflexivity|]].
  now rewrite (Hobject [("chart_type", JStr "line")] eq_refl).
Defined.

(** C9 on the table of spendings: k-means on it would give three
    clusters, and the bundle holds [None] under [clusters]. *)
Lemma clusters_of_spendings_are_not_computed :
  empty spent_table = false /\
  InsightGeneration.detect_clusters spent_table 3
  = Ok (Some [(0%Z, [0%Z; 3%Z]); (1%Z, [1%Z; 4%Z]); (2%Z, [2%Z])]) /\
  exists bundle final,
    InsightGeneration.generate_insights_for_kpi
      insight_agent kpi_spent spent_table (start (replies [" Spending grows. "]))
    = (Ok bundle, final) /\
    dict_get bundle "clusters" = Some InsightGeneration.VNone /\
    dict_get bundle "summary" = Some (InsightGeneration.VStr "Spending grows.").
Proof.
  split; [reflexivity | split; [reflexivity|]].
  destruct (InsightGeneration.insights_try_block
              insight_agent kpi_spent spent_table (start (replies [" Spending grows. "])))
    as [[bundle | e] final] eqn:Hblock; [|vm_compute in Hblock; discriminate Hblock].
  destruct (InsightFacts.clusters_entry_is_none
              insight_agent kpi_spent spent_table (start (replies [" Spending grows. "]))
              final bundle eq_refl Hblock) as (Hrun & Hclusters & _).
  exists bundle, final. split; [exact Hrun | split; [exact Hclusters|]].
  vm_compute in Hblock. injection Hblock as <- _. reflexivity.
Defined.

End Scenarios.

(** * Further properties of the code *)

(** ** Strings *)

Module StringFacts.

Lemma append_nil_r (s : string) : s ++ EmptyString = s.
Proof. induction s as [|c s IH]; simpl; [reflexivity | now rewrite IH]. Qed.

Lemma append_assoc (a b c : string) : (a ++ b) ++ c = a ++ (b ++ c).
Proof. induction a as [|x a IH]; simpl; [reflexivity | now rewrite IH]. Qed.

Lemma length_append (a b : string) :
  String.length (a ++ b) = String.length a + String.length b.
Proof. induction a as [|c a IH]; simpl; [reflexivity | now rewrite IH]. Qed.

Lemma substring_whole (s : string) : String.substring 0 (String.length s) s = s.
Proof. induction s as [|c s IH]; simpl; [reflexivity | now rewrite IH]. Qed.

Lemma substring_head (a b : string) :
  String.substring 0 (String.length a) (a ++ b) = a.
Proof.
  induction a as [|c a IH]; simpl.
  - destruct b; reflexivity.
  - now rewrite IH.
Qed.

Lemma drop_head (a b : string) : drop (String.length a) (a ++ b) = b.
Proof. induction a as [|c a IH]; simpl; [reflexivity | exact IH]. Qed.

Lemma drop_end_tail (a b : string) : drop_end (String.length b) (a ++ b) = a.
Proof.
  unfold drop_end. rewrite length_append.
  replace (String.length a + String.length b - String.length b)
    with (String.length a) by lia.
  apply substring_head.
Qed.

Lemma endswith_tail (a suf : string) : endswith (a ++ suf) suf = true.
Proof.
  unfold endswith. rewrite length_append.
  apply andb_true_intro; split; [apply Nat.leb_le; lia|].
  replace (String.length a + String.length suf - String.length suf)
    with (String.length a) by lia.
  revert suf. induction a as [|c a IH]; intro suf; simpl.
  - rewrite substring_whole. apply String.eqb_refl.
  - apply IH.
Qed.

Lemma rev_onto_spec (s acc : string) :
  string_rev_onto s acc = string_rev s ++ acc.
Proof.
  unfold string_rev. revert acc.
  induction s as [|c s IH]; intro acc; simpl; [reflexivity|].
  rewrite (IH (String c EmptyString)), IH, append_assoc. reflexivity.
Qed.

Lemma rev_append (a b : string) : string_rev (a ++ b) = string_rev b ++ string_rev a.
Proof.
  induction a as [|c a IH]; simpl.
  - now rewrite append_nil_r.
  - unfold string_rev in *. simpl.
    rewrite !(rev_onto_spec _ (String c EmptyString)).
    unfold string_rev. rewrite IH, append_assoc. reflexivity.
Qed.

Lemma rev_involutive (s : string) : string_rev (string_rev s) = s.
Proof.
  induction s as [|c s IH]; [reflexivity|].
  change (String c s) with (String c EmptyString ++ s) at 1.
  rewrite rev_append, rev_append, IH. reflexivity.
Qed.

Lemma lstrip_length (s : string) : String.length (lstrip s) <= String.length s.
Proof.
  induction s as [|c s IH]; simpl; [lia|].
  destruct (is_space c); simpl; lia.
Qed.

(** A text that [lstrip] leaves alone is empty or starts with a character
    that is no space. *)
Lemma lstrip_fixed (s : string) :
  lstrip s = s ->
  s = EmptyString \/ exists c r, s = String c r /\ is_space c = false.
Proof.
  destruct s as [|c r]; [now left|]. simpl.
  destruct (is_space c) eqn:Hc.
  - intro Heq. pose proof (lstrip_length r) as Hlen.
    rewrite Heq in Hlen. simpl in Hlen. lia.
  - right. eauto.
Qed.

Lemma lstrip_keeps (c : ascii) (r t : string) :
  is_space c = false -> lstrip (String c r ++ t) = String c r ++ t.
Proof. intro Hc. simpl. now rewrite Hc. Qed.

Lemma rstrip_line_feed (q : string) : rstrip (q ++ nl) = rstrip q.
Proof. unfold rstrip. rewrite rev_append. reflexivity. Qed.

Lemma rstrip_keeps (a : string) (c : ascii) :
  is_space c = false -> rstrip (a ++ String c EmptyString) = a ++ String c EmptyString.
Proof.
  intro Hc. unfold rstrip. rewrite rev_append.
  change (string_rev (String c EmptyString)) with (String c EmptyString).
  simpl. rewrite Hc.
  change (String c (string_rev a)) with (String c EmptyString ++ string_rev a).
  rewrite rev_append, rev_involutive. reflexivity.
Qed.

End StringFacts.

(** ** The schema agent, from the file to the schema summary *)

Module LoadingFacts.
Import Schema Frame Loading StringFacts.

Lemma has_char_append (c : ascii) (a b : string) :
  has_char c (a ++ b) = has_char c a || has_char c b.
Proof.
  induction a as [|d a IH]; simpl; [reflexivity|].
  rewrite IH. now rewrite orb_assoc.
Qed.

Lemma basename_without_slash (x : string) :
  has_char "/" x = false -> basename x = x.
Proof.
  destruct x as [|c r]; [reflexivity|]. simpl.
  intro Hno. apply orb_false_iff in Hno as [Hc Hr]. now rewrite Hr, Hc.
Qed.

Lemma basename_after_slash (d x : string) :
  has_char "/" x = false -> basename (d ++ "/" ++ x) = x.
Proof.
  intro Hx. induction d as [|c d IH]; simpl.
  - now rewrite Hx.
  - rewrite has_char_append. simpl. rewrite orb_true_r. exact IH.
Qed.

Lemma skip_dots_append (b t : string) :
  skip_dots b <> EmptyString -> skip_dots (b ++ t) = skip_dots b ++ t.
Proof.
  induction b as [|c b IH]; simpl; [congruence|].
  destruct (Ascii.eqb c "."); [exact IH | reflexivity].
Qed.

Lemma from_last_dot_append (a e : string) :
  has_char "." e = false -> from_last_dot (a ++ "." ++ e) = "." ++ e.
Proof.
  intro He. induction a as [|c a IH]; simpl.
  - now rewrite He.
  - rewrite has_char_append. simpl. rewrite orb_true_r. exact IH.
Qed.

Lemma from_last_dot_none (s : string) :
  has_char "." s = false -> from_last_dot s = EmptyString.
Proof.
  induction s as [|c s IH]; simpl; [reflexivity|].
  intro Hno. apply orb_false_iff in Hno as [Hc Hs]. now rewrite Hs, Hc.
Qed.

Lemma skip_dots_without_dot (s : string) :
  has_char "." s = false -> skip_dots s = s.
Proof.
  destruct s as [|c s]; simpl; [reflexivity|].
  intro Hno. apply orb_false_iff in Hno as [Hc _]. now rewrite Hc.
Qed.

Lemma basename_has_no_slash (p : string) : has_char "/" (basename p) = false.
Proof.
  induction p as [|c r IH]; simpl; [reflexivity|].
  destruct (has_char "/" r) eqn:Hr; [exact IH|].
  destruct (Ascii.eqb c "/") eqn:Hc; [exact Hr|].
  simpl. now rewrite Hc, Hr.
Qed.

Lemma ext_of_dotted_name (stem e : string) :
  has_char "/" stem = false -> skip_dots stem <> EmptyString ->
  has_char "/" e = false -> has_char "." e = false ->
  splitext_ext (stem ++ "." ++ e) = "." ++ e.
Proof.
  intros Hs Hnd He Hd. unfold splitext_ext.
  rewrite basename_without_slash.
  - rewrite (skip_dots_append _ _ Hnd). now apply from_last_dot_append.
  - rewrite has_char_append. simpl. now rewrite Hs, He.
Qed.

Lemma lower_dotted (e : string) : lower ("." ++ e) = "." ++ lower e.
Proof. reflexivity. Qed.

Section WithReaders.
Context {W : Type}.
Variable read_csv read_excel : string -> W -> result DataFrame * W.

(** X1: for a file [stem.e] in any directory, whose stem has a character
    other than a dot, the extension is [.e] and the table name is the
    stem.  [_load_data] looks at the lower-cased extension only: [csv] in
    any letter case goes to [read_csv], [xls] and [xlsx] go to
    [read_excel], and anything else raises [ValueError] with the
    lower-cased extension, no file being read. *)
Theorem load_data_dispatches_on_the_lowered_extension
        (prefix stem e : string) (w : W) :
  (prefix = EmptyString \/ exists d, prefix = d ++ "/") ->
  has_char "/" stem = false ->
  skip_dots stem <> EmptyString ->
  has_char "/" e = false ->
  has_char "." e = false ->
  let path := prefix ++ stem ++ "." ++ e in
  splitext_ext path = "." ++ e /\
  splitext_root (basename path) = stem /\
  (lower e = "csv" -> _load_data read_csv read_excel path w = read_csv path w) /\
  (lower e = "xls" \/ lower e = "xlsx" ->
   _load_data read_csv read_excel path w = read_excel path w) /\
  (lower e <> "csv" -> lower e <> "xls" -> lower e <> "xlsx" ->
   _load_data read_csv read_excel path w
   = (Raise (ValueError ("Unsupported file extension: ." ++ lower e)), w) /\
   init read_csv read_excel path w
   = (Raise (ValueError ("Unsupported file extension: ." ++ lower e)), w)).
Proof.
  intros Hprefix Hs Hnd He Hd path.
  assert (Hname : has_char "/" (stem ++ "." ++ e) = false).
  { rewrite has_char_append. simpl. now rewrite Hs, He. }
  assert (Hbase : basename path = stem ++ "." ++ e).
  { unfold path. destruct Hprefix as [-> | [d ->]].
    - now apply basename_without_slash.
    - rewrite append_assoc. now apply basename_after_slash. }
  assert (Hext : splitext_ext path = "." ++ e).
  { unfold splitext_ext. rewrite Hbase, (skip_dots_append _ _ Hnd).
    now apply from_last_dot_append. }
  assert (Hload : _load_data read_csv read_excel path w
                  = if String.eqb (lower e) "csv" then read_csv path w
                    else if String.eqb (lower e) "xls" || String.eqb (lower e) "xlsx"
                         then read_excel path w
                         else (Raise (ValueError ("Unsupported file extension: ."
                                                  ++ lower e)), w)).
  { unfold _load_data. rewrite Hext, lower_dotted. reflexivity. }
  split; [exact Hext | split; [|split; [|split]]].
  - rewrite Hbase. unfold splitext_root.
    rewrite (ext_of_dotted_name stem e Hs Hnd He Hd).
    apply (drop_end_tail stem ("." ++ e)).
  - intro Hcsv. now rewrite Hload, Hcsv.
  - intros [Hx | Hx]; rewrite Hload, Hx; reflexivity.
  - intros H1 H2 H3.
    apply String.eqb_neq in H1, H2, H3.
    assert (Hraise : _load_data read_csv read_excel path w
                     = (Raise (ValueError ("Unsupported file extension: ."
                                           ++ lower e)), w)).
    { rewrite Hload, H1, H2, H3. reflexivity. }
    split; [exact Hraise|]. unfold init. now rewrite Hraise.
Qed.

(** X2: a path whose last component has no dot has the empty extension:
    [_load_data] raises [ValueError] with nothing after the colon, reads
    no file, and no agent is made. *)
Theorem load_data_without_extension_raises (path : string) (w : W) :
  has_char "." (basename path) = false ->
  splitext_ext path = EmptyString /\
  _load_data read_csv read_excel path w
  = (Raise (ValueError "Unsupported file extension: "), w) /\
  init read_csv read_excel path w
  = (Raise (ValueError "Unsupported file extension: "), w).
Proof.
  intro Hno.
  assert (Hext : splitext_ext path = EmptyString).
  { unfold splitext_ext. rewrite (skip_dots_without_dot _ Hno).
    now apply from_last_dot_none. }
  assert (Hraise : _load_data read_csv read_excel path w
                   = (Raise (ValueError "Unsupported file extension: "), w)).
  { unfold _load_data. rewrite Hext. reflexivity. }
  split; [exact Hext | split; [exact Hraise|]].
  unfold init. now rewrite Hraise.
Qed.

End WithReaders.

Lemma roles_of_columns (table : string) (cols : list (string * dtype)) :
  let is_id := fun name : string =>
                 String.eqb (lower name) "id" || endswith (lower name) "_id" in
  let fields := Schema.annotate_schema (Schema.parse_schema table cols) in
  map field_name fields = map fst cols /\
  get_fields_by_role fields identifier
  = map fst (filter (fun c => is_id (fst c)) cols) /\
  get_fields_by_role fields metric
  = map fst (filter (fun c => negb (is_id (fst c)) && is_numeric_dtype (snd c)) cols) /\
  get_fields_by_role fields dimension
  = map fst (filter (fun c => negb (is_id (fst c)) && negb (is_numeric_dtype (snd c))) cols).
Proof.
  cbv zeta. unfold get_fields_by_role.
  induction cols as [|[name d] cols (IHn & IHi & IHm & IHd)]; simpl.
  - repeat split.
  - unfold assign_role, infer_field_type in *.
    destruct (String.eqb (lower name) "id" || endswith (lower name) "_id"); simpl.
    + rewrite IHn, IHi, IHm, IHd. repeat split.
    + destruct d; simpl; rewrite IHn, IHi, IHm, IHd; repeat split.
Qed.

Lemma three_way_split {A} (p q : A -> bool) (l : list A) :
  List.length (filter p l)
  + List.length (filter (fun a => negb (p a) && q a) l)
  + List.length (filter (fun a => negb (p a) && negb (q a)) l)
  = List.length l.
Proof.
  induction l as [|a l IH]; simpl; [reflexivity|].
  destruct (p a), (q a); simpl; lia.
Qed.

(** X3: after [parse_schema] and [annotate_schema], [schema_api] lists
    the columns in their order under [all_fields] and splits them three
    ways, each list in column order: the identifiers by the lower-cased
    name, the metrics among the others by a numeric dtype, the dimensions
    being the rest; no column is lost or listed twice.  Before
    [annotate_schema] the three role lists are empty, and before
    [parse_schema] both [annotate_schema] and [schema_api] raise
    [TypeError]. *)
Theorem schema_api_splits_the_columns (self : agent) :
  let cols := columns (dataframe self) in
  let is_id := fun name : string =>
                 String.eqb (lower name) "id" || endswith (lower name) "_id" in
  (schema self = None ->
   annotate_schema self = Raise (TypeError "'NoneType' object is not iterable") /\
   schema_api self = Raise (TypeError "'NoneType' object is not iterable")) /\
  schema_api (parse_schema self) = Ok (mk_summary (map fst cols) [] [] []) /\
  exists annotated summary,
    annotate_schema (parse_schema self) = Ok annotated /\
    schema_api annotated = Ok summary /\
    all_fields summary = map fst cols /\
    identifiers summary = map fst (filter (fun c => is_id (fst c)) cols) /\
    metrics summary
    = map fst (filter (fun c => negb (is_id (fst c)) && is_numeric_dtype (snd c)) cols) /\
    dimensions summary
    = map fst (filter (fun c => negb (is_id (fst c)) && negb (is_numeric_dtype (snd c)))
                      cols) /\
    List.length (identifiers summary) + List.length (metrics summary)
    + List.length (dimensions summary) = List.length cols /\
    (forall fields, get_schema annotated = Some fields ->
                    map Schema.table_name fields = map (fun _ => table_name self) cols).
Proof.
  cbv zeta. split; [|split].
  - intro Hnone. unfold annotate_schema, schema_api. now rewrite Hnone.
  - unfold schema_api, parse_schema. simpl. f_equal.
    unfold Schema.schema_api, get_fields_by_role, Schema.parse_schema.
    induction (columns (dataframe self)) as [|[name d] cols IH]; simpl; [reflexivity|].
    injection IH as IHn IHm IHd IHi. now rewrite IHn, IHm, IHd, IHi.
  - destruct (roles_of_columns (table_name self) (columns (dataframe self)))
      as (Hn & Hi & Hm & Hd).
    eexists. eexists. split; [reflexivity | split; [reflexivity|]].
    simpl. rewrite Hn, Hi, Hm, Hd, !length_map.
    repeat split.
    + apply three_way_split.
    + intros fields [= <-]. unfold Schema.annotate_schema, Schema.parse_schema.
      rewrite !map_map. reflexivity.
Qed.

End LoadingFacts.

(** ** Cleaning the SQL reply and running it *)

Module CleaningFacts.
Import Frame DataRetrieval StringFacts Setup.

Lemma length_lower (s : string) : String.length (lower s) = String.length s.
Proof. induction s as [|c s IH]; simpl; [reflexivity | now rewrite IH]. Qed.

Lemma lstrip_blank (s : string) : blank s = true -> lstrip s = EmptyString.
Proof.
  induction s as [|c s IH]; simpl; [reflexivity|].
  intro Hb. apply andb_true_iff in Hb as [Hc Hs]. rewrite Hc. now apply IH.
Qed.

Lemma lstrip_blank_prefix (pre t : string) :
  blank pre = true -> lstrip (pre ++ t) = lstrip t.
Proof.
  induction pre as [|c pre IH]; simpl; [reflexivity|].
  intro Hb. apply andb_true_iff in Hb as [Hc Hs]. rewrite Hc. now apply IH.
Qed.

Lemma lstrip_not_blank (q t : string) :
  blank q = false -> lstrip (q ++ t) = lstrip q ++ t.
Proof.
  induction q as [|c q IH]; simpl; [discriminate|].
  destruct (is_space c); simpl; [exact IH | reflexivity].
Qed.

Lemma lstrip_head (q : string) :
  blank q = false -> exists c r, lstrip q = String c r /\ is_space c = false.
Proof.
  induction q as [|c q IH]; simpl; [discriminate|].
  destruct (is_space c) eqn:Hc; simpl; [exact IH | eauto].
Qed.

Lemma blank_append (a b : string) : blank (a ++ b) = blank a && blank b.
Proof.
  induction a as [|c a IH]; simpl; [reflexivity|].
  rewrite IH. now rewrite andb_assoc.
Qed.

Lemma blank_rev (s : string) : blank (string_rev s) = blank s.
Proof.
  induction s as [|c s IH]; [reflexivity|].
  change (String c s) with (String c EmptyString ++ s) at 1.
  rewrite rev_append, blank_append, IH. simpl.
  rewrite andb_true_r. apply andb_comm.
Qed.

Lemma rstrip_blank_suffix (a post : string) :
  blank post = true -> rstrip (a ++ post) = rstrip a.
Proof.
  intro Hb. unfold rstrip. rewrite rev_append, lstrip_blank_prefix; [reflexivity|].
  now rewrite blank_rev.
Qed.

Lemma rstrip_blank (s : string) : blank s = true -> rstrip s = EmptyString.
Proof.
  intro Hb. unfold rstrip. rewrite lstrip_blank; [reflexivity | now rewrite blank_rev].
Qed.

(** White space around a text does not count for [strip]. *)
Lemma strip_padding (pre q post : string) :
  blank pre = true -> blank post = true -> strip (pre ++ q ++ post) = strip q.
Proof.
  intros Hpre Hpost. unfold strip. rewrite (lstrip_blank_prefix _ _ Hpre).
  destruct (blank q) eqn:Hq.
  - rewrite lstrip_blank by (rewrite blank_append; now rewrite Hq, Hpost).
    now rewrite (lstrip_blank q Hq).
  - rewrite (lstrip_not_blank _ _ Hq). now apply rstrip_blank_suffix.
Qed.

Lemma strip_fenced (body : string) :
  strip ("```" ++ body ++ "```") = "```" ++ body ++ "```".
Proof.
  assert (Hform : "```" ++ body ++ "```" = ("```" ++ body ++ "``") ++ "`").
  { rewrite !append_assoc. reflexivity. }
  assert (Hl : lstrip ("```" ++ body ++ "```") = "```" ++ body ++ "```")
    by reflexivity.
  unfold strip. rewrite Hl, Hform. now apply rstrip_keeps.
Qed.

(** The heart of [clean_sql_code] on a fenced block: the text between
    the fences, stripped. *)
Lemma clean_fenced_block (tag q : string) :
  lower tag = "sql" ->
  strip (strip_closing_fence (strip_sql_fence ("```" ++ tag ++ nl ++ q ++ nl ++ "```")))
  = strip q.
Proof.
  intro Htag.
  assert (Hlen : String.length tag = 3).
  { rewrite <- length_lower, Htag. reflexivity. }
  destruct tag as [|t1 [|t2 [|t3 [|]]]]; try discriminate Hlen.
  unfold strip_sql_fence.
  change (String.substring 0 6 ("```" ++ String t1 (String t2 (String t3 EmptyString))
                                 ++ nl ++ q ++ nl ++ "```"))
    with ("```" ++ String t1 (String t2 (String t3 EmptyString))).
  change (lower ("```" ++ String t1 (String t2 (String t3 EmptyString))))
    with ("```" ++ lower (String t1 (String t2 (String t3 EmptyString)))).
  rewrite Htag. simpl String.eqb.
  change (drop 6 ("```" ++ String t1 (String t2 (String t3 EmptyString))
                  ++ nl ++ q ++ nl ++ "```"))
    with (nl ++ q ++ nl ++ "```").
  change (lstrip (nl ++ q ++ nl ++ "```")) with (lstrip (q ++ nl ++ "```")).
  destruct (blank q) eqn:Hq.
  - rewrite (lstrip_blank_prefix q _ Hq).
    unfold strip. rewrite (lstrip_blank q Hq). reflexivity.
  - rewrite (lstrip_not_blank _ _ Hq).
    unfold strip_closing_fence.
    replace (lstrip q ++ nl ++ "```") with ((lstrip q ++ nl) ++ "```")
      by apply append_assoc.
    rewrite endswith_tail.
    pose proof (drop_end_tail (lstrip q ++ nl) "```") as Hdrop.
    change (String.length "```") with 3 in Hdrop. rewrite Hdrop.
    unfold strip.
    destruct (lstrip_head q Hq) as (c & r & Hhead & Hc).
    rewrite Hhead, (lstrip_keeps c r nl Hc), <- Hhead.
    apply rstrip_line_feed.
Qed.

Lemma sql_queries_app (a b : list event) :
  sql_queries (a ++ b)%list = (sql_queries a ++ sql_queries b)%list.
Proof. unfold sql_queries. apply flat_map_app. Qed.

Section WithCollaborators.
Context {W : Type} `{Collaborators W}.

(** X4: a reply holding the query between a [```sql] fence, in any letter
    case, and a closing fence, with any white space around the block
    (white space being what [str.isspace] says, the no-break space and the
    next-line control included), is cleaned to the query itself, stripped
    of such white space.  With an engine configured,
    that bare query is the one text [get_data_for_kpi] sends to the
    engine, whose answer it returns. *)
Theorem fenced_sql_reaches_the_engine_bare
        (self : agent) (k : kpi) (s : state W) (w1 : W)
        (pre post tag q url : string) :
  blank pre = true ->
  blank post = true ->
  lower tag = "sql" ->
  sql_engine self = Some url ->
  let reply := pre ++ ("```" ++ tag ++ nl ++ q ++ nl ++ "```") ++ post in
  generate_content (generate_code_prompt self k) (world s) = (Ok reply, w1) ->
  clean_sql_code reply = strip q /\
  fst (get_data_for_kpi self k s) = fst (read_sql_query (strip q) w1) /\
  sql_queries (trace (snd (get_data_for_kpi self k s)))
  = (sql_queries (trace s) ++ [strip q])%list.
Proof.
  intros Hpre Hpost Htag Hengine reply Hreply.
  assert (Hblock : strip ("```" ++ tag ++ nl ++ q ++ nl ++ "```")
                   = "```" ++ tag ++ nl ++ q ++ nl ++ "```").
  { assert (Hform : "```" ++ tag ++ nl ++ q ++ nl ++ "```"
                    = "```" ++ (tag ++ nl ++ q ++ nl) ++ "```")
      by (rewrite !append_assoc; reflexivity).
    rewrite Hform. apply strip_fenced. }
  assert (Hstrip : strip reply = "```" ++ tag ++ nl ++ q ++ nl ++ "```").
  { unfold reply. now rewrite (strip_padding _ _ _ Hpre Hpost). }
  assert (Hclean : forall t, strip t = "```" ++ tag ++ nl ++ q ++ nl ++ "```" ->
                             clean_sql_code t = strip q).
  { intros t Ht. unfold clean_sql_code. rewrite Ht. now apply clean_fenced_block. }
  split; [now apply Hclean|].
  unfold get_data_for_kpi, generate_code_for_kpi, run_sql, bind, ret, print, log,
    call_model, call_sql.
  rewrite Hreply, Hengine. simpl.
  rewrite (Hclean (strip reply)) by (now rewrite Hstrip).
  destruct (read_sql_query (strip q) w1) as [r w2]. simpl.
  split; [reflexivity|].
  rewrite !sql_queries_app. simpl. rewrite !app_nil_r. reflexivity.
Qed.

End WithCollaborators.
End CleaningFacts.

(** ** Retrieval and the main loop when nothing can be retrieved *)

Module LoopFacts.
Import Frame DataRetrieval Main Setup.

Lemma model_prompts_app (a b : list event) :
  model_prompts (a ++ b)%list = (model_prompts a ++ model_prompts b)%list.
Proof. unfold model_prompts. apply flat_map_app. Qed.

Lemma exec_codes_app (a b : list event) :
  exec_codes (a ++ b)%list = (exec_codes a ++ exec_codes b)%list.
Proof. unfold exec_codes. apply flat_map_app. Qed.

Lemma queries_app (a b : list event) :
  sql_queries (a ++ b)%list = (sql_queries a ++ sql_queries b)%list.
Proof. unfold sql_queries. apply flat_map_app. Qed.

Ltac trace_facts :=
  simpl; rewrite ?model_prompts_app, ?exec_codes_app, ?queries_app; simpl;
  rewrite ?app_nil_r, <- ?app_assoc; simpl.

Section WithCollaborators.
Context {W : Type} `{Collaborators W} `{Library}.

(** What one turn of the generator leaves in the trace: one prompt to the
    model, no code run; and without an engine, no query and no table. *)
Lemma step_trace (self : agent) (k : kpi) (s : state W) :
  exists r s',
    get_data_for_all_kpis_step self k s
    = (Ok (get_default (KPI k) "Unnamed_KPI", r), s') /\
    model_prompts (trace s')
    = (model_prompts (trace s) ++ [generate_code_prompt self k])%list /\
    exec_codes (trace s') = exec_codes (trace s) /\
    (sql_engine self = None ->
     r = None /\ sql_queries (trace s') = sql_queries (trace s)).
Proof.
  unfold get_data_for_all_kpis_step, get_data_for_kpi, generate_code_for_kpi, run_sql,
    try_except, bind, ret, raise, print, log, call_model, call_sql.
  destruct (generate_content (generate_code_prompt self k) (world s)) as [[reply|e] w1];
    simpl.
  - destruct (sql_engine self) as [url|]; simpl.
    + destruct (read_sql_query (clean_sql_code (strip reply)) w1) as [[df|e] w2]; simpl;
        eexists; eexists; (split; [reflexivity|]); trace_facts;
        repeat split; discriminate.
    + eexists; eexists; (split; [reflexivity|]); trace_facts; repeat split.
  - eexists; eexists; (split; [reflexivity|]); trace_facts; repeat split.
Qed.

(** X5: without an SQL engine every KPI is still put to the model, once
    and in order, but no query is sent and nothing is run: the generator
    yields [None] under each name and raises nothing. *)
Theorem no_engine_yields_none_for_every_kpi
        (self : agent) (kpis : list kpi) (s : state W) :
  sql_engine self = None ->
  exists s',
    iterate self (get_data_for_all_kpis kpis) s
    = (Ok (map (fun k => (get_default (KPI k) "Unnamed_KPI", None)) kpis), s') /\
    sql_queries (trace s') = sql_queries (trace s) /\
    model_prompts (trace s')
    = (model_prompts (trace s) ++ map (generate_code_prompt self) kpis)%list.
Proof.
  intro Hengine. unfold get_data_for_all_kpis. revert s.
  induction kpis as [|k rest IH]; intro s; simpl.
  - exists s. unfold ret. now rewrite app_nil_r.
  - destruct (step_trace self k s) as (r & s1 & Hstep & Hprompts & _ & Hnone).
    destruct (Hnone Hengine) as [-> Hq].
    destruct (IH s1) as (s2 & Hrest & Hq2 & Hp2).
    exists s2. unfold bind, ret. rewrite Hstep, Hrest. simpl.
    split; [reflexivity | split].
    + now rewrite Hq2.
    + rewrite Hp2, Hprompts, <- app_assoc. reflexivity.
Qed.





(** X7: a KPI record without the key [KPI] is retrieved under the name
    [Unnamed_KPI].  [main] then looks among the records for one whose
    [KPI] is that name, and the record itself is never the one found.
    When no record is called [Unnamed_KPI], the turn ends there: whatever
    the retrieval gave, the mapping is unchanged and the only prompt sent
    is the one asking for SQL.  When a record is called so, the table
    retrieved for the record without name is processed as that other
    record's. *)
Theorem record_without_name_is_not_found
        (data_agent : agent) (insight_agent : InsightGeneration.agent)
        (kpis : list kpi) (k : kpi) (acc : dict (string * option pyobj)) (s : state W) :
  KPI k = None ->
  let named := find (fun item => option_string_eqb (KPI item) "Unnamed_KPI") kpis in
  exists r s1,
    get_data_for_all_kpis_step data_agent k s = (Ok ("Unnamed_KPI", r), s1) /\
    model_prompts (trace s1)
    = (model_prompts (trace s) ++ [generate_code_prompt data_agent k])%list /\
    exec_codes (trace s1) = exec_codes (trace s) /\
    named <> Some k /\
    (named = None ->
     exists s',
       process_kpi insight_agent kpis acc ("Unnamed_KPI", r) s1 = (Ok acc, s') /\
       model_prompts (trace s') = model_prompts (trace s1) /\
       exec_codes (trace s') = exec_codes (trace s1)) /\
    (forall other,
        named = Some other ->
        KPI other = Some "Unnamed_KPI" /\
        process_kpi insight_agent kpis acc ("Unnamed_KPI", r) s1
        = process_kpi insight_agent [other] acc ("Unnamed_KPI", r) s1).
Proof.
  intros Hname named.
  destruct (step_trace data_agent k s) as (r & s1 & Hstep & Hp & He & _).
  rewrite Hname in Hstep. cbn [get_default] in Hstep.
  exists r, s1.
  assert (Hfound : forall other, named = Some other -> KPI other = Some "Unnamed_KPI").
  { intros other Hother. apply find_some in Hother as [_ Heq].
    unfold option_string_eqb in Heq. destruct (KPI other) as [n|]; [|discriminate].
    apply String.eqb_eq in Heq. now subst n. }
  split; [exact Hstep | split; [exact Hp | split; [exact He | split; [|split]]]].
  - intro Hk. apply Hfound in Hk. congruence.
  - intro Hnone. unfold process_kpi, bind, print, log, ret. cbn [fst snd].
    fold named. rewrite Hnone.
    destruct r as [df|]; [destruct (empty df)|];
      eexists; (split; [reflexivity|]); trace_facts; split; reflexivity.
  - intros other Hother. split; [now apply Hfound|].
    assert (Hone : find (fun item => option_string_eqb (KPI item) "Unnamed_KPI") [other]
                   = Some other).
    { cbn [find]. unfold option_string_eqb.
      now rewrite (Hfound other Hother), String.eqb_refl. }
    unfold process_kpi. cbn [fst snd]. rewrite Hone.
    unfold named in Hother. now rewrite Hother.
Qed.

End WithCollaborators.
End LoopFacts.

(** ** More on insight generation *)

Module AnalysisFacts.
Import Frame InsightGeneration Setup.

Lemma mask_filter_none {A} (keep : A -> bool) (l : list A) :
  forallb (fun a => negb (keep a)) l = true ->
  mask_filter (map keep l) l = [].
Proof.
  induction l as [|a l IH]; simpl; [reflexivity|].
  intro Hall. apply andb_true_iff in Hall as [Ha Hl].
  destruct (keep a); [discriminate | now apply IH].
Qed.

Lemma mask_filter_incl {A} (mask : list bool) (l : list A) (x : A) :
  In x (mask_filter mask l) -> In x l.
Proof.
  revert l. induction mask as [|b mask IH]; intros [|a l]; simpl; try tauto.
  destruct b; simpl; intros Hin.
  - destruct Hin as [-> | Hin]; [now left | right; now apply IH].
  - right. now apply IH.
Qed.

Lemma dict_get_set {V} (d : dict V) (k k' : string) (v : V) :
  dict_get (dict_set d k v) k'
  = if String.eqb k k' then Some v else dict_get d k'.
Proof.
  induction d as [|[k0 v0] d IH]; simpl.
  - reflexivity.
  - destruct (String.eqb k0 k) eqn:H0k; simpl.
    + apply String.eqb_eq in H0k. subst k0.
      destruct (String.eqb k k'); reflexivity.
    + destruct (String.eqb k0 k') eqn:H0k'.
      * apply String.eqb_eq in H0k'. subst k0.
        rewrite String.eqb_sym in H0k. now rewrite H0k.
      * exact IH.
Qed.

Lemma no_numeric_column (data : DataFrame) :
  forallb (fun c => negb (is_np_number (snd c))) (columns data) = true ->
  columns (select_dtypes is_np_number data) = [].
Proof.
  intro Hall. unfold select_dtypes. simpl.
  now apply (mask_filter_none (fun c => is_np_number (snd c)) (columns data)).
Qed.

Lemma empty_without_columns (df : DataFrame) : columns df = [] -> empty df = true.
Proof. unfold empty. intros ->. now destruct (rows df). Qed.

Section WithLibrary.
Context `{Library}.

(** X8: on a table without an integer or float column, the numeric
    analyses give empty results whatever the libraries would do, so none
    of them can raise: the descriptive statistics and the correlation
    matrix are the empty frame, the anomalies the empty dict, and the
    trends the empty list. *)
Theorem no_numeric_column_no_numeric_analysis
        (self : agent) (data : DataFrame) (z_thresh : float) :
  forallb (fun c => negb (is_np_number (snd c))) (columns data) = true ->
  descriptive_stats data = Ok empty_frame /\
  correlation_matrix data = Ok empty_frame /\
  anomaly_detection data z_thresh = Ok [] /\
  (if negb (no_datetime_col self data)
   then trends_loop self data (map fst (columns (select_dtypes is_np_number data)))
   else Ok []) = Ok [].
Proof.
  intro Hall. pose proof (no_numeric_column data Hall) as Hcols.
  pose proof (empty_without_columns _ Hcols) as Hempty.
  unfold descriptive_stats, correlation_matrix, anomaly_detection.
  rewrite Hempty, Hcols. simpl.
  repeat split. now destruct (negb (no_datetime_col self data)).
Qed.

Lemma column_anomalies_incl (col_data : Series) (z_thresh : float) (labels : list Z) :
  column_anomalies col_data z_thresh = Ok labels ->
  forall l, In l labels -> In l (s_index col_data).
Proof.
  unfold column_anomalies.
  destruct (s_empty col_data); [intros [= <-] l []|].
  destruct (ensure_float64 (s_values col_data)) as [xs|e]; [|discriminate].
  simpl. destruct (zscore xs) as [zs|e]; [|discriminate]. simpl.
  destruct (_ =? _)%nat; [|discriminate].
  intros [= <-] l Hin. now apply mask_filter_incl in Hin.
Qed.

Lemma dropna_index_present (s : Series) (l : Z) :
  In l (s_index (s_dropna s)) -> exists c, In (l, c) (s_items s) /\ isna c = false.
Proof.
  unfold s_index, s_dropna. simpl. intro Hin.
  apply in_map_iff in Hin as ([l' c] & Hl & Hin). simpl in Hl. subst l'.
  apply filter_In in Hin as [Hin Hc]. simpl in Hc.
  exists c. split; [exact Hin | now destruct (isna c)].
Qed.

Lemma anomaly_loop_entries (numeric : DataFrame) (z_thresh : float)
      (good : string -> list Z -> Prop) :
  (forall col s labels,
      get_column numeric col = Ok s ->
      column_anomalies (s_dropna s) z_thresh = Ok labels -> good col labels) ->
  forall cols acc res,
    anomaly_loop numeric cols z_thresh acc = Ok res ->
    (forall col labels, dict_get acc col = Some labels -> good col labels) ->
    (forall col labels, dict_get res col = Some labels -> good col labels) /\
    (forall col, In col cols \/ dict_get acc col <> None -> dict_get res col <> None).
Proof.
  intros Hgood. induction cols as [|c cols IH]; intros acc res Hrun Hacc; simpl in Hrun.
  - injection Hrun as <-. split; [exact Hacc|]. intros col [[] | Hin]; exact Hin.
  - destruct (get_column numeric c) as [s|e] eqn:Hs; [|discriminate]. simpl in Hrun.
    destruct (column_anomalies (s_dropna s) z_thresh) as [labels|e] eqn:Hl;
      [|discriminate].
    simpl in Hrun.
    destruct (IH (dict_set acc c labels) res Hrun) as [Hall Hkeys].
    + intros col ls. rewrite dict_get_set.
      destruct (String.eqb c col) eqn:Hc.
      * apply String.eqb_eq in Hc. subst col. intros [= <-]. now apply Hgood with s.
      * apply Hacc.
    + split; [exact Hall|].
      intros col Hcol. apply Hkeys. rewrite dict_get_set.
      destruct (String.eqb c col) eqn:Hc; [right; discriminate|].
      destruct Hcol as [[-> | Hin] | Hin].
      * rewrite String.eqb_refl in Hc. discriminate.
      * now left.
      * now right.
Qed.

(** X9: when [anomaly_detection] returns, its dict has an entry for every
    integer or float column of the table, and the labels listed under a
    column are index labels of rows where that column holds a value: a
    row whose value is missing is never reported. *)
Theorem anomalies_are_rows_holding_a_value
        (data : DataFrame) (z_thresh : float) (res : dict (list Z)) :
  anomaly_detection data z_thresh = Ok res ->
  let numeric := select_dtypes is_np_number data in
  (forall col, has_column numeric col = true -> dict_get res col <> None) /\
  (forall col labels,
      dict_get res col = Some labels ->
      exists s,
        get_column numeric col = Ok s /\
        forall l, In l labels -> exists c, In (l, c) (s_items s) /\ isna c = false).
Proof.
  intros Hrun numeric. unfold anomaly_detection in Hrun. fold numeric in Hrun.
  destruct (anomaly_loop_entries numeric z_thresh
              (fun col labels =>
                 exists s,
                   get_column numeric col = Ok s /\
                   forall l, In l labels ->
                             exists c, In (l, c) (s_items s) /\ isna c = false))
    with (cols := map fst (columns numeric)) (acc := @nil (string * list Z)) (res := res)
    as [Hall Hkeys].
  - intros col s labels Hs Hl. exists s. split; [exact Hs|].
    intros l Hin. apply dropna_index_present.
    now apply (column_anomalies_incl _ _ _ Hl).
  - exact Hrun.
  - intros col labels Hget. discriminate Hget.
  - split; [|exact Hall].
    intros col Hcol. apply Hkeys. left.
    unfold has_column in Hcol. apply existsb_exists in Hcol as (c & Hin & Heq).
    apply String.eqb_eq in Heq. subst col. now apply in_map.
Qed.

End WithLibrary.
End AnalysisFacts.

(** ** Clusters, and the bundle in every case *)

Module BundleFacts.
Import Frame InsightGeneration Setup.

Lemma cluster_add_rows (m : list (Z * list Z)) (label row : Z) :
  Permutation (clustered_rows (cluster_add m label row)) (clustered_rows m ++ [row]).
Proof.
  unfold clustered_rows.
  induction m as [|[l members] m IH]; simpl; [reflexivity|].
  destruct (Z.eqb l label); simpl.
  - rewrite <- !app_assoc. apply Permutation_app_head.
    apply Permutation_app_comm.
  - rewrite <- app_assoc. now apply Permutation_app_head.
Qed.

Lemma cluster_add_member (m : list (Z * list Z)) (label row : Z) :
  exists members, In (label, members) (cluster_add m label row) /\ In row members.
Proof.
  induction m as [|[l members] m (ms & Hin & Hrow)]; simpl.
  - exists [row]. split; left; reflexivity.
  - destruct (Z.eqb l label) eqn:Hl.
    + apply Z.eqb_eq in Hl. subst l. exists (members ++ [row])%list.
      split; [now left | apply in_or_app; right; now left].
    + exists ms. split; [now right | exact Hrow].
Qed.

Lemma cluster_add_keeps (m : list (Z * list Z)) (label row c i : Z) (members : list Z) :
  In (c, members) m -> In i members ->
  exists members', In (c, members') (cluster_add m label row) /\ In i members'.
Proof.
  induction m as [|[l ms] m IH]; simpl; [tauto|].
  intros [[= -> ->] | Hin] Hi.
  - destruct (Z.eqb c label).
    + exists (members ++ [row])%list. split; [now left | apply in_or_app; now left].
    + exists members. split; [now left | exact Hi].
  - destruct (IH Hin Hi) as (ms' & Hin' & Hi').
    destruct (Z.eqb l label).
    + exists members. split; [now right | exact Hi].
    + exists ms'. split; [now right | exact Hi'].
Qed.

Lemma cluster_add_keys (m : list (Z * list Z)) (label row : Z) :
  NoDup (map fst m) -> NoDup (map fst (cluster_add m label row)) /\
  forall c, In c (map fst (cluster_add m label row)) -> c = label \/ In c (map fst m).
Proof.
  induction m as [|[l ms] m IH]; simpl; intro Hnd.
  - split.
    + apply NoDup_cons; [simpl; tauto | apply NoDup_nil].
    + intros c [<- | []]. now left.
  - inversion Hnd as [|? ? Hnotin Hnd']; subst.
    destruct (Z.eqb l label) eqn:Hl; simpl.
    + split; [exact Hnd|]. intros c Hc. now right.
    + destruct (IH Hnd') as [Hnd'' Hkeys].
      split.
      * constructor; [|exact Hnd''].
        intro Hin. destruct (Hkeys l Hin) as [-> | Hin'].
        -- rewrite Z.eqb_refl in Hl. discriminate.
        -- contradiction.
      * intros c [<- | Hin]; [right; now left|].
        destruct (Hkeys c Hin) as [-> | Hin']; [now left | right; now right].
Qed.

Lemma cluster_loop_spec (labels : list Z) :
  forall (index : list Z) (m0 : list (Z * list Z)),
    List.length labels = List.length index ->
    NoDup (map fst m0) ->
    exists m,
      cluster_loop labels index m0 = Ok m /\
      Permutation (clustered_rows m) (clustered_rows m0 ++ index) /\
      NoDup (map fst m) /\
      forall c i,
        (In (c, i) (combine labels index) \/
         exists members, In (c, members) m0 /\ In i members) ->
        exists members, In (c, members) m /\ In i members.
Proof.
  induction labels as [|c labels IH]; intros [|i index] m0 Hlen Hnd;
    simpl in Hlen; try discriminate.
  - exists m0. simpl. rewrite app_nil_r. repeat split; try assumption; try reflexivity.
    intros c i [[] | Hin]. exact Hin.
  - injection Hlen as Hlen.
    destruct (cluster_add_keys m0 c i Hnd) as [Hnd' _].
    destruct (IH index (cluster_add m0 c i) Hlen Hnd') as (m & Hrun & Hperm & Hnd'' & Hmem).
    exists m. simpl. split; [exact Hrun | split; [|split; [exact Hnd''|]]].
    + rewrite Hperm. rewrite (cluster_add_rows m0 c i), <- app_assoc. reflexivity.
    + intros c' i' [[[= <- <-] | Hin] | (members & Hin & Hi)]; apply Hmem.
      * right. apply cluster_add_member.
      * now left.
      * right. now apply cluster_add_keeps with members.
Qed.

Lemma cluster_loop_too_many (labels index : list Z) (m0 : list (Z * list Z)) :
  List.length index < List.length labels ->
  cluster_loop labels index m0 = Raise (OtherException "IndexError" "index out of bounds").
Proof.
  revert index m0. induction labels as [|c labels IH]; intros [|i index] m0 Hlen;
    simpl in *; try lia; [reflexivity|].
  apply IH. lia.
Qed.

Section WithLibrary.
Context `{Library}.

(** X10: [detect_clusters] keeps the rows whose integer and float values
    are all present.  With fewer such rows than clusters asked for, or
    with none, it returns [None] without running k-means.  Otherwise,
    when k-means gives one label per row, the cluster map holds every
    kept row exactly once, each label once as a key, and each row under
    the label k-means gave it; when k-means gives more labels than rows,
    [IndexError] is raised. *)
Theorem detect_clusters_splits_the_complete_rows (data : DataFrame) (n_clusters : Z) :
  let numeric := dropna (select_dtypes is_np_number data) in
  let index := map fst (rows numeric) in
  ((len numeric < n_clusters)%Z \/ empty numeric = true ->
   detect_clusters data n_clusters = Ok None) /\
  ((n_clusters <= len numeric)%Z -> empty numeric = false ->
   forall labels,
     kmeans_fit_predict n_clusters numeric = Ok labels ->
     (List.length labels = List.length index ->
      exists m,
        detect_clusters data n_clusters = Ok (Some m) /\
        Permutation (clustered_rows m) index /\
        NoDup (map fst m) /\
        forall c i, In (c, i) (combine labels index) ->
                    exists members, In (c, members) m /\ In i members) /\
     (List.length index < List.length labels ->
      detect_clusters data n_clusters
      = Raise (OtherException "IndexError" "index out of bounds"))).
Proof.
  cbv zeta. unfold detect_clusters. split.
  - intros [Hlt | Hempty].
    + apply Z.ltb_lt in Hlt. now rewrite Hlt.
    + rewrite Hempty. now rewrite orb_true_r.
  - intros Hge Hne labels Hk. apply Z.ltb_ge in Hge. rewrite Hge, Hne, Hk. simpl.
    split.
    + intro Hlen.
      destruct (cluster_loop_spec labels _ [] Hlen (NoDup_nil _))
        as (m & Hrun & Hperm & Hnd & Hmem).
      exists m. rewrite Hrun. simpl. repeat split; try assumption.
      intros c i Hin. apply Hmem. now left.
    + intro Hlen. now rewrite (cluster_loop_too_many _ _ [] Hlen).
Qed.

Section WithCollaborators.
Context {W : Type} `{Collaborators W}.

(** X11: [generate_insights_for_kpi] never raises, and the bundle it
    returns always has a text under [summary].  When the [try] block
    raises (a library routine or the model failed), the bundle is that
    summary alone, naming the KPI and the exception's message, and what
    the block did before failing stays done. *)
Theorem insight_generation_never_raises
        (self : agent) (k : kpi) (data : DataFrame) (s : state W) :
  (exists bundle s' text,
      generate_insights_for_kpi self k data s = (Ok bundle, s') /\
      dict_get bundle "summary" = Some (VStr text)) /\
  (forall e s1,
      empty data = false ->
      insights_try_block self k data s = (Raise e, s1) ->
      generate_insights_for_kpi self k data s
      = (Ok [("summary",
              VStr ("Failed to generate insights for KPI '"
                    ++ get_default (KPI k) "Unknown" ++ "': " ++ exn_str e))], s1)).
Proof.
  split.
  - unfold generate_insights_for_kpi.
    destruct (empty data); [unfold ret; do 3 eexists; split; reflexivity|].
    unfold try_except.
    destruct (insights_try_block self k data s) as [[bundle|e] s1] eqn:Hblock;
      [|unfold ret; do 3 eexists; split; reflexivity].
    exists bundle, s1.
    revert Hblock. unfold insights_try_block, bind, lift, ret.
    destruct (descriptive_stats data); [|discriminate].
    destruct (categorical_summary data); [|discriminate].
    destruct (if negb (no_datetime_col self data) then _ else _); [|discriminate].
    destruct (correlation_matrix data); [|discriminate].
    destruct (anomaly_detection data 3); [|discriminate].
    destruct (generate_textual_insight _ _ _ _ _ _ s) as [[summary|e] s2];
      [|discriminate].
    intros [= <- _]. exists summary. split; reflexivity.
  - intros e s1 Hne Hblock.
    unfold generate_insights_for_kpi, try_except. now rewrite Hne, Hblock.
Qed.

End WithCollaborators.
End WithLibrary.
End BundleFacts.

(** ** Cleaning generated code, and running it *)

Module CodeFacts.
Import Frame Visualization Setup StringFacts.

Lemma split_lines_not_nil (s : string) : split_lines s <> [].
Proof.
  induction s as [|c s IH]; simpl; [discriminate|].
  destruct (Ascii.eqb c (ascii_of_nat 10)); [discriminate|].
  destruct (split_lines s); [contradiction | discriminate].
Qed.

(** Joining the lines of a text gives the text back. *)
Lemma join_split_lines (s : string) : join nl (split_lines s) = s.
Proof.
  unfold join. induction s as [|c s IH]; simpl; [reflexivity|].
  destruct (Ascii.eqb c (ascii_of_nat 10)) eqn:Hc.
  - apply Ascii.eqb_eq in Hc. subst c.
    pose proof (split_lines_not_nil s) as Hne.
    destruct (split_lines s) as [|l ls]; [contradiction|].
    simpl in *. now rewrite IH.
  - pose proof (split_lines_not_nil s) as Hne.
    destruct (split_lines s) as [|l ls]; [contradiction|].
    destruct ls as [|l2 ls]; simpl in *; now rewrite <- IH.
Qed.

Lemma split_one_line (l : string) : one_line l = true -> split_lines l = [l].
Proof.
  unfold one_line. induction l as [|c l IH]; simpl; [reflexivity|].
  intro Hno. apply negb_true_iff, orb_false_iff in Hno as [Hc Hl].
  rewrite Hc, IH; [reflexivity|]. now rewrite Hl.
Qed.

Lemma split_first_line (l rest : string) :
  one_line l = true -> split_lines (l ++ nl ++ rest) = l :: split_lines rest.
Proof.
  unfold one_line. induction l as [|c l IH]; simpl; [reflexivity|].
  intro Hno. apply negb_true_iff, orb_false_iff in Hno as [Hc Hl].
  rewrite Hc. change (String (ascii_of_nat 10) rest) with (nl ++ rest).
  rewrite IH; [reflexivity|]. now rewrite Hl.
Qed.

(** Splitting the join of lines gives the lines back. *)
Lemma split_join_lines (ls : list string) :
  ls <> [] -> forallb one_line ls = true -> split_lines (join nl ls) = ls.
Proof.
  unfold join. induction ls as [|l ls IH]; [congruence|].
  intros _ Hall. simpl in Hall. apply andb_true_iff in Hall as [Hl Hls].
  destruct ls as [|l2 ls].
  - simpl. now apply split_one_line.
  - change (String.concat nl (l :: l2 :: ls))
      with (l ++ nl ++ String.concat nl (l2 :: ls)).
    rewrite (split_first_line _ _ Hl), IH; [reflexivity | discriminate | exact Hls].
Qed.

Lemma opening_pass_keeps (ls : list string) (last : list string) :
  forallb fence_free ls = true ->
  strip_opening_fences (ls ++ last) = (ls ++ strip_opening_fences last)%list.
Proof.
  induction ls as [|l ls IH]; simpl; [reflexivity|].
  intro Hall. apply andb_true_iff in Hall as [Hl Hls].
  unfold fence_free in Hl. apply andb_true_iff in Hl as [Hstart _].
  apply negb_true_iff in Hstart. rewrite Hstart. now rewrite IH.
Qed.

Lemma closing_pass_keeps (ls : list string) (first : bool) :
  forallb fence_free ls = true -> strip_closing_fences first ls = ls.
Proof.
  revert first. induction ls as [|l ls IH]; intro first; simpl; [reflexivity|].
  intro Hall. apply andb_true_iff in Hall as [Hl Hls].
  unfold fence_free in Hl. apply andb_true_iff in Hl as [_ Hend].
  apply negb_true_iff in Hend. rewrite Hend. now rewrite IH.
Qed.

Lemma forallb_snoc {A} (p : A -> bool) (l : list A) (a : A) :
  forallb p (l ++ [a]) = forallb p l && p a.
Proof. rewrite forallb_app. simpl. now rewrite andb_true_r. Qed.

(** X12: code in which no line starts or ends with a fence comes out of
    [_clean_generated_code] as it went in. *)
Theorem code_without_fences_is_unchanged (code : string) :
  forallb fence_free (split_lines code) = true ->
  _clean_generated_code code = code.
Proof.
  intro Hfree. unfold _clean_generated_code.
  pose proof (opening_pass_keeps (split_lines code) [] Hfree) as Hopen.
  rewrite !app_nil_r in Hopen. rewrite Hopen, join_split_lines.
  rewrite (closing_pass_keeps _ true Hfree). apply join_split_lines.
Qed.

(** X13: a reply made of an opening fence, with or without the word
    [python], the lines of the body and a closing fence, the body's lines
    being free of fences, is cleaned to the body's lines followed by an
    empty line: both fences go, and the line feed before the closing
    fence stays. *)
Theorem fenced_code_keeps_a_trailing_line_feed (opener : string) (body : list string) :
  opener = "```python" \/ opener = "```" ->
  forallb one_line body = true ->
  forallb fence_free body = true ->
  _clean_generated_code (join nl (opener :: body ++ ["```"])%list)
  = join nl (body ++ [EmptyString])%list /\
  (body <> [] ->
   _clean_generated_code (join nl (opener :: body ++ ["```"])%list) = join nl body ++ nl).
Proof.
  intros Hopener Hlines Hfree.
  assert (Hall : forallb one_line (opener :: body ++ ["```"])%list = true).
  { simpl. rewrite forallb_snoc, Hlines.
    destruct Hopener as [-> | ->]; reflexivity. }
  assert (Hclean : _clean_generated_code (join nl (opener :: body ++ ["```"])%list)
                   = join nl (body ++ [EmptyString])%list).
  { unfold _clean_generated_code.
    assert (Hne : (opener :: body ++ ["```"])%list <> []) by discriminate.
    rewrite (split_join_lines _ Hne Hall).
    assert (Hopen : strip_opening_fences (opener :: body ++ ["```"])%list
                    = (body ++ [EmptyString])%list).
    { assert (Htail : strip_opening_fences (body ++ ["```"])%list
                      = (body ++ [EmptyString])%list)
        by (rewrite (opening_pass_keeps _ _ Hfree); reflexivity).
      destruct Hopener as [-> | ->]; cbn [strip_opening_fences];
        change (startswith "```python" "```") with true;
        change (startswith "```" "```") with true; cbv iota;
        rewrite Htail; destruct body; reflexivity. }
    rewrite Hopen.
    rewrite split_join_lines.
    - rewrite closing_pass_keeps; [reflexivity|].
      rewrite forallb_snoc, Hfree. reflexivity.
    - destruct body; discriminate.
    - rewrite forallb_snoc, Hlines. reflexivity. }
  split; [exact Hclean|].
  intro Hne. rewrite Hclean. unfold join. clear - Hne.
  induction body as [|l body IH]; [contradiction|].
  destruct body as [|l2 body].
  - simpl. reflexivity.
  - change (String.concat nl ((l :: l2 :: body) ++ [EmptyString]))
      with (l ++ nl ++ String.concat nl ((l2 :: body) ++ [EmptyString])).
    change (String.concat nl (l :: l2 :: body))
      with (l ++ nl ++ String.concat nl (l2 :: body)).
    rewrite IH by discriminate. now rewrite !append_assoc.
Qed.

Lemma exec_codes_snoc (a b : list event) :
  exec_codes (a ++ b)%list = (exec_codes a ++ exec_codes b)%list.
Proof. unfold exec_codes. apply flat_map_app. Qed.

Lemma model_prompts_snoc (a b : list event) :
  model_prompts (a ++ b)%list = (model_prompts a ++ model_prompts b)%list.
Proof. unfold model_prompts. apply flat_map_app. Qed.

Ltac trace_steps :=
  simpl; rewrite ?model_prompts_snoc, ?exec_codes_snoc; simpl;
  rewrite ?app_nil_r, <- ?app_assoc; simpl.

Section WithCollaborators.
Context {W : Type} `{Collaborators W} `{Library}.

(** X14: once the model has replied, [generate_plotly_code] runs the
    cleaned code once.  The figure is returned only when the run left,
    under [fig], an object that is truthy and has a [show] attribute; a
    run that leaves nothing, or raises an exception derived from
    [Exception], gives [None] and raises nothing.  A run that ends with
    an exception that does not derive from [Exception] ([SystemExit] when
    the code calls [sys.exit]) is not caught: the exception leaves
    [generate_plotly_code].  A failure of the model is not caught either,
    and then no code is run. *)
Theorem only_exceptions_of_generated_code_are_caught
        (kpi_name kpi_desc insight : string) (data : DataFrame) (n : nat) (s : state W) :
  let prompt := plotly_code_prompt kpi_name kpi_desc insight data n in
  (forall reply w1,
      generate_content prompt (world s) = (Ok reply, w1) ->
      let code := _clean_generated_code (strip reply) in
      exists s',
        generate_plotly_code kpi_name kpi_desc insight data n s
        = (match fst (exec_code code data w1) with
           | Returned (Some f) =>
               Ok (if obj_truthy f && obj_has_show f then Some f else None)
           | Returned None => Ok None
           | Raised _ => Ok None
           | Exited e => Raise e
           end, s') /\
        world s' = snd (exec_code code data w1) /\
        exec_codes (trace s') = (exec_codes (trace s) ++ [code])%list /\
        model_prompts (trace s') = (model_prompts (trace s) ++ [prompt])%list) /\
  (forall e w1,
      generate_content prompt (world s) = (Raise e, w1) ->
      generate_plotly_code kpi_name kpi_desc insight data n s
      = (Raise e, mk_state w1 (trace s ++ [ModelCall prompt])%list)).
Proof.
  cbv zeta. split.
  - intros reply w1 Hreply.
    unfold generate_plotly_code, bind, raise, call_model, call_exec, ret, print, log.
    rewrite Hreply. simpl.
    destruct (exec_code (_clean_generated_code (strip reply)) data w1)
      as [[[f|]|e|e] w2]; simpl.
    + destruct (obj_truthy f && obj_has_show f); simpl;
        eexists; (split; [reflexivity|]); trace_steps; repeat split.
    + eexists; (split; [reflexivity|]); trace_steps; repeat split.
    + eexists; (split; [reflexivity|]); trace_steps; repeat split.
    + eexists; (split; [reflexivity|]); trace_steps; repeat split.
  - intros e w1 Hreply.
    unfold generate_plotly_code, bind, call_model. now rewrite Hreply.
Qed.


End WithCollaborators.
End CodeFacts.

(** ** The page, and the time column *)

Module PageFacts.
Import Frame Dashboard Setup.

(** X16: [run_dashboard] raises [RuntimeError] on an agent whose layout
    was never built and starts once [build_dashboard_layout] has run.  The
    page built has one card per entry of the mapping, in the mapping's
    order, titled by the key and holding the insight text; the chart
    section is the figure when there is one and it is truthy, and the
    placeholder text otherwise.  Building again replaces the page. *)
Theorem dashboard_runs_only_once_built
        (self : agent) (mapping other : dict (string * option pyobj))
        (title title' : string) (p : Z) (open_browser : bool) :
  let built := build_dashboard_layout self mapping title in
  run_dashboard (init p) open_browser
  = Raise (RuntimeError "Dashboard layout is not set. Call build_dashboard_layout first.") /\
  run_dashboard built open_browser = Ok tt /\
  port built = port self /\
  map card_title (cards built) = dict_keys mapping /\
  map card_insight (cards built) = map (fun e => fst (snd e)) mapping /\
  map card_chart (cards built)
  = map (fun e => match snd (snd e) with
                  | Some f => if obj_truthy f then Graph f
                              else Placeholder "No visualization available"
                  | None => Placeholder "No visualization available"
                  end) mapping /\
  cards (build_dashboard_layout built other title')
  = cards (build_dashboard_layout self other title').
Proof.
  cbv zeta. unfold build_dashboard_layout, cards, dict_keys. simpl.
  repeat split; rewrite map_map; apply map_ext; intros [k [text fig]]; reflexivity.
Qed.

Section WithLibrary.
Context `{Library}.

(** X17: the time column [main] hands to the insight agent is the first
    of [date], [timestamp] and [datetime] that is a column of the full
    table, the names compared as they are written.  When none is, or when
    the one found is not a column of a KPI's result table,
    [detect_trends] returns [None] for every field and window. *)
Theorem datetime_col_is_the_first_candidate (full_df : DataFrame) :
  (has_column full_df "date" = true -> detect_datetime_col full_df = Some "date") /\
  (has_column full_df "date" = false -> has_column full_df "timestamp" = true ->
   detect_datetime_col full_df = Some "timestamp") /\
  (has_column full_df "date" = false -> has_column full_df "timestamp" = false ->
   has_column full_df "datetime" = true ->
   detect_datetime_col full_df = Some "datetime") /\
  (has_column full_df "date" = false -> has_column full_df "timestamp" = false ->
   has_column full_df "datetime" = false ->
   detect_datetime_col full_df = None /\
   forall data field window,
     InsightGeneration.detect_trends (make_insight_agent full_df) data field window
     = Ok None) /\
  (forall c data field window,
      detect_datetime_col full_df = Some c ->
      has_column data c = false ->
      InsightGeneration.detect_trends (make_insight_agent full_df) data field window
      = Ok None).
Proof.
  unfold detect_datetime_col, datetime_col_candidates. simpl.
  split; [|split; [|split; [|split]]].
  - now intros ->.
  - now intros -> ->.
  - now intros -> -> ->.
  - intros Hd Ht Hdt. rewrite Hd, Ht, Hdt. split; [reflexivity|].
    intros data field window.
    unfold InsightGeneration.detect_trends, InsightGeneration.no_datetime_col,
      make_insight_agent, detect_datetime_col, datetime_col_candidates.
    simpl. now rewrite Hd, Ht, Hdt.
  - intros c data field window Hfound Hmissing.
    unfold InsightGeneration.detect_trends, InsightGeneration.no_datetime_col,
      make_insight_agent, detect_datetime_col, datetime_col_candidates.
    simpl. rewrite Hfound. simpl. rewrite Hmissing. simpl.
    now rewrite orb_true_r.
Qed.

End WithLibrary.
End PageFacts.

(** ** The prompt, a numeric time column, and a failed insight *)

Module InsightLoopFacts.
Import Frame InsightGeneration Main Setup.

Lemma position_of_member (name : string) (d : Schema.dtype)
      (cols : list (string * Schema.dtype)) :
  In (name, d) cols -> exists i d', position name cols = Some (i, d').
Proof.
  induction cols as [|[n d0] cols IH]; simpl; [tauto|].
  intros [[= -> ->] | Hin].
  - rewrite String.eqb_refl. eauto.
  - destruct (String.eqb n name); [eauto|].
    destruct (IH Hin) as (i & d' & ->). eauto.
Qed.

Lemma has_column_of_member (df : DataFrame) (name : string) (d : Schema.dtype) :
  In (name, d) (columns df) -> has_column df name = true.
Proof.
  intro Hin. unfold has_column. apply existsb_exists.
  exists (name, d). split; [exact Hin | apply String.eqb_refl].
Qed.

Lemma mask_filter_member {A} (keep : A -> bool) (l : list A) (a : A) :
  In a l -> keep a = true -> In a (mask_filter (map keep l) l).
Proof.
  induction l as [|x l IH]; simpl; [tauto|].
  intros [-> | Hin] Hkeep.
  - rewrite Hkeep. now left.
  - destruct (keep x); [right|]; now apply IH.
Qed.

Section WithLibrary.
Context `{Library}.

(** The prompt of [generate_textual_insight] reads the five first values
    of each categorical column only. *)
Lemma categorical_text_reads_five (cat_summary : dict (list (cell * Z))) :
  categorical_text (first_five cat_summary) = categorical_text cat_summary.
Proof.
  assert (Hfold : forall (step : string -> string * list (cell * Z) -> string) l acc,
             (forall text entry,
                 step text (fst entry, counts_head 5 (snd entry)) = step text entry) ->
             fold_left step (first_five l) acc = fold_left step l acc).
  { intros step l. induction l as [|e l IH]; intros acc Hstep; [reflexivity|].
    unfold first_five in *. cbn [map fold_left]. rewrite Hstep. now apply IH. }
  unfold categorical_text.
  destruct cat_summary as [|e0 rest]; [reflexivity|].
  change (first_five (e0 :: rest))
    with ((fst e0, counts_head 5 (snd e0)) :: first_five rest) at 1.
  cbv iota.
  change ((fst e0, counts_head 5 (snd e0)) :: first_five rest)
    with (first_five (e0 :: rest)).
  apply Hfold. intros text entry. cbn [fst snd].
  unfold counts_head. rewrite firstn_firstn. reflexivity.
Qed.

(** X18: the prompt asking for the textual insight is the same when every
    table of value counts is cut down to its five first entries: however
    many distinct values a column has, five of them at most reach the
    model. *)
Theorem prompt_reads_five_values_per_column
        (kpi_name kpi_desc : string) (desc_stats corr_matrix : DataFrame)
        (trends : list trend_info) (cat_summary : dict (list (cell * Z))) :
  textual_insight_prompt kpi_name kpi_desc desc_stats trends corr_matrix
                         (first_five cat_summary)
  = textual_insight_prompt kpi_name kpi_desc desc_stats trends corr_matrix cat_summary /\
  forall col counts,
    dict_get (first_five cat_summary) col = Some counts -> List.length counts <= 5.
Proof.
  split.
  - unfold textual_insight_prompt. now rewrite categorical_text_reads_five.
  - unfold first_five.
    induction cat_summary as [|[c cs] rest IH]; cbn [map dict_get fst snd];
      [discriminate|].
    intros col counts. destruct (String.eqb c col); [|apply IH].
    intro Heq. assert (Hc : counts = counts_head 5 cs) by congruence.
    rewrite Hc. exact (firstn_le_length 5 cs).
Qed.

Lemma time_column_as_field_raises (self : agent) (data : DataFrame) (dt : string)
      (d : Schema.dtype) (window : Z) :
  datetime_col self = Some dt ->
  dt <> EmptyString ->
  In (dt, d) (columns data) ->
  detect_trends self data dt window
  = Raise (ValueError ("The column label '" ++ dt ++ "' is not unique.")).
Proof.
  intros Hdt Hne Hin.
  pose proof (has_column_of_member data dt d Hin) as Hhas.
  destruct (position_of_member dt d _ Hin) as (i & d' & Hpos).
  unfold detect_trends, no_datetime_col. rewrite Hdt, Hhas.
  destruct (String.eqb_spec dt EmptyString); [contradiction|]. simpl.
  unfold get_columns2. rewrite Hpos. simpl.
  unfold sort_values. simpl. rewrite String.eqb_refl. simpl.
  unfold label_count. simpl. rewrite String.eqb_refl. reflexivity.
Qed.

Lemma trends_loop_raises (self : agent) (data : DataFrame) (dt : string)
      (d : Schema.dtype) (cols : list string) :
  datetime_col self = Some dt ->
  dt <> EmptyString ->
  In (dt, d) (columns data) ->
  In dt cols ->
  exists e, trends_loop self data cols = Raise e.
Proof.
  intros Hdt Hne Hin. induction cols as [|c cols IH]; simpl; [tauto|].
  intros [-> | Hcols].
  - rewrite (time_column_as_field_raises self data dt d 3 Hdt Hne Hin). simpl. eauto.
  - destruct (detect_trends self data c 3) as [t|e]; simpl; [|eauto].
    destruct (IH Hcols) as (e & ->). simpl. eauto.
Qed.

Section WithCollaborators.
Context {W : Type} `{Collaborators W}.

(** X19: when the designated time column is itself an integer or float
    column of the KPI's table, the loop over the numeric columns asks
    [detect_trends] for the trend of the time column against itself,
    which raises (pandas refuses to sort by a label that two columns
    carry).  [generate_insights_for_kpi] then returns the failure summary
    alone: no statistics are kept and the model is not asked. *)
Theorem numeric_time_column_fails_the_insight
        (self : agent) (k : kpi) (data : DataFrame) (dt : string) (d : Schema.dtype)
        (s : state W) :
  datetime_col self = Some dt ->
  dt <> EmptyString ->
  In (dt, d) (columns data) ->
  is_np_number d = true ->
  empty data = false ->
  detect_trends self data dt 3
  = Raise (ValueError ("The column label '" ++ dt ++ "' is not unique.")) /\
  exists e,
    generate_insights_for_kpi self k data s
    = (Ok [("summary",
            VStr ("Failed to generate insights for KPI '"
                  ++ get_default (KPI k) "Unknown" ++ "': " ++ exn_str e))], s).
Proof.
  intros Hdt Hne Hin Hnum Hdata.
  split; [now apply time_column_as_field_raises with d|].
  assert (Hcols : In dt (map fst (columns (select_dtypes is_np_number data)))).
  { unfold select_dtypes. simpl.
    change dt with (fst (dt, d)). apply in_map.
    now apply (mask_filter_member (fun c => is_np_number (snd c))). }
  destruct (trends_loop_raises self data dt d _ Hdt Hne Hin Hcols) as (e & Hloop).
  pose proof (has_column_of_member data dt d Hin) as Hhas.
  assert (Hguard : negb (no_datetime_col self data) = true).
  { unfold no_datetime_col. rewrite Hdt, Hhas.
    destruct (String.eqb_spec dt EmptyString); [contradiction | reflexivity]. }
  unfold generate_insights_for_kpi, try_except, insights_try_block, bind, lift, ret.
  rewrite Hdata, Hguard, Hloop.
  destruct (descriptive_stats data) as [stats|e1]; [|eauto].
  destruct (categorical_summary data) as [cats|e2]; eauto.
Qed.

(** X20: in [main], a KPI whose table has rows and whose record is found
    gets an entry in the dashboard mapping even when its insight
    computation failed: the entry then holds the failure text, beside
    whatever [create_visualization] returned for that text, and the other
    entries keep their values. *)
Theorem failed_insight_still_gets_an_entry
        (insight_agent : agent) (kpis : list kpi) (meta : kpi)
        (acc : dict (string * option pyobj)) (name : string) (table : DataFrame)
        (s s1 s2 : state W) (e : exn) (fig : option pyobj) :
  let s0 := mk_state (world s)
                     (trace s ++ [Printed (nl ++ "=== Processing KPI: " ++ name ++ " ===")])%list in
  let failure := "Failed to generate insights for KPI '"
                 ++ get_default (KPI meta) "Unknown" ++ "': " ++ exn_str e in
  let s1' := mk_state (world s1)
                      (trace s1 ++ [Printed ("Insight summary:" ++ nl ++ " " ++ failure)])%list in
  empty table = false ->
  find (fun item => option_string_eqb (KPI item) name) kpis = Some meta ->
  insights_try_block insight_agent meta table s0 = (Raise e, s1) ->
  Visualization.create_visualization (get_default (KPI meta) name)
                                     (get_default (Description meta) EmptyString)
                                     failure table s1' = (Ok fig, s2) ->
  exists s',
    process_kpi insight_agent kpis acc (name, Some table) s
    = (Ok (dict_set acc name (failure, fig)), s') /\
    dict_get (dict_set acc name (failure, fig)) name = Some (failure, fig) /\
    forall other, other <> name ->
                  dict_get (dict_set acc name (failure, fig)) other = dict_get acc other.
Proof.
  cbv zeta. intros Hne Hfind Hblock Hviz.
  eexists. split; [|split].
  - assert (Hsum : forall text default,
               summary_text [("summary", VStr text)] default = text) by reflexivity.
    unfold process_kpi. cbn [fst snd]. rewrite Hne, Hfind.
    unfold generate_insights_for_kpi. rewrite Hne.
    cbv [bind print log try_except]. rewrite Hblock.
    cbv [ret]. rewrite !Hsum, Hviz. reflexivity.
  - rewrite AnalysisFacts.dict_get_set. now rewrite String.eqb_refl.
  - intros other Hother. rewrite AnalysisFacts.dict_get_set.
    destruct (String.eqb_spec name other); [congruence | reflexivity].
Qed.

End WithCollaborators.
End WithLibrary.
End InsightLoopFacts.

(** ** The further properties on sample inputs *)

Module MoreScenarios.
Import Schema Frame Instances Samples MoreSamples Setup.

#[local] Existing Instance sample_library.
#[local] Existing Instance scripted.

(** X1 on [data/Sales.CSV] and on [report.pdf]. *)
Lemma sales_file_is_read_as_csv :
  Loading.splitext_ext "data/Sales.CSV" = ".CSV" /\
  Loading.splitext_root (Loading.basename "data/Sales.CSV") = "Sales" /\
  Loading._load_data noting_csv noting_excel "data/Sales.CSV" []
  = (Ok spent_table, ["csv data/Sales.CSV"]) /\
  Loading._load_data noting_csv noting_excel "report.pdf" []
  = (Raise (ValueError "Unsupported file extension: .pdf"), []).
Proof.
  destruct (LoadingFacts.load_data_dispatches_on_the_lowered_extension
              noting_csv noting_excel "data/" "Sales" "CSV" []
              (or_intror (ex_intro _ "data" eq_refl)) eq_refl
              ltac:(discriminate) eq_refl eq_refl) as (Hext & Hroot & Hcsv & _ & _).
  destruct (LoadingFacts.load_data_dispatches_on_the_lowered_extension
              noting_csv noting_excel EmptyString "report" "pdf" []
              (or_introl eq_refl) eq_refl
              ltac:(discriminate) eq_refl eq_refl) as (_ & _ & _ & _ & Hother).
  split; [exact Hext | split; [exact Hroot | split]].
  - etransitivity; [exact (Hcsv eq_refl) | reflexivity].
  - assert (H1 : lower "pdf" <> "csv") by discriminate.
    assert (H2 : lower "pdf" <> "xls") by discriminate.
    assert (H3 : lower "pdf" <> "xlsx") by discriminate.
    exact (proj1 (Hother H1 H2 H3)).
Defined.

(** X2 on the empty path and on a hidden file. *)
Lemma path_without_extension_is_refused :
  Loading.has_char "." (Loading.basename "logs/readme") = false /\
  Loading.init noting_csv noting_excel "logs/readme" []
  = (Raise (ValueError "Unsupported file extension: "), []).
Proof.
  split; [reflexivity|].
  exact (proj2 (proj2 (LoadingFacts.load_data_without_extension_raises
                         noting_csv noting_excel "logs/readme" [] eq_refl))).
Defined.

(** X4 on a reply with white space around an upper-case fence. *)
Lemma padded_upper_case_fence_is_unwrapped :
  blank "  " = true /\ blank nl = true /\ lower "SQL" = "sql" /\
  DataRetrieval.clean_sql_code padded_fenced_sql = "SELECT total_spent FROM main_table" /\
  sql_queries
    (trace (snd (DataRetrieval.get_data_for_kpi
                   data_agent kpi_spent
                   (start (mk_script [Ok padded_fenced_sql] [Ok spent_table] [])))))
  = ["SELECT total_spent FROM main_table"].
Proof.
  destruct (CleaningFacts.fenced_sql_reaches_the_engine_bare
              (H := scripted) data_agent kpi_spent
              (start (mk_script [Ok padded_fenced_sql] [Ok spent_table] []))
              (mk_script [] [Ok spent_table] [])
              "  " nl "SQL" " SELECT total_spent FROM main_table " "sqlite:///:memory:"
              eq_refl eq_refl eq_refl eq_refl eq_refl) as (Hclean & _ & Hsent).
  split; [reflexivity | split; [reflexivity | split; [reflexivity|]]].
  split; [exact Hclean | exact Hsent].
Defined.

(** X5 on two KPIs and an agent without engine. *)
Lemma two_kpis_without_engine :
  DataRetrieval.sql_engine agent_without_engine = None /\
  fst (DataRetrieval.iterate agent_without_engine [kpi_spent; kpi_users]
                             (start (replies ["SELECT 1"; "SELECT 2"])))
  = Ok [("Total Spent", None); ("User Count", None)].
Proof.
  destruct (LoopFacts.no_engine_yields_none_for_every_kpi
              agent_without_engine [kpi_spent; kpi_users]
              (start (replies ["SELECT 1"; "SELECT 2"])) eq_refl) as (s' & Hrun & _).
  split; [reflexivity|]. unfold DataRetrieval.get_data_for_all_kpis in Hrun.
  now rewrite Hrun.
Defined.


(** X7 on a record without name whose table has rows: alone with a
    record of another name it is skipped, and beside a record called
    [Unnamed_KPI] its table is processed as that record's. *)
Lemma nameless_record_gets_no_insight :
  KPI kpi_without_name = None /\
  find (fun item => Main.option_string_eqb (KPI item) "Unnamed_KPI")
       [kpi_spent; kpi_without_name] = None /\
  fst (bind (DataRetrieval.get_data_for_all_kpis_step data_agent kpi_without_name)
            (Main.process_kpi insight_agent [kpi_spent; kpi_without_name] [])
            (start (mk_script [Ok fenced_sql; Ok "never asked"] [Ok spent_table] [])))
  = Ok [] /\
  model_replies
    (world (snd (bind (DataRetrieval.get_data_for_all_kpis_step data_agent kpi_without_name)
                      (Main.process_kpi insight_agent [kpi_spent; kpi_without_name] [])
                      (start (mk_script [Ok fenced_sql; Ok "never asked"]
                                        [Ok spent_table] [])))))
  = [Ok "never asked"] /\
  find (fun item => Main.option_string_eqb (KPI item) "Unnamed_KPI")
       [kpi_without_name; kpi_called_unnamed] = Some kpi_called_unnamed /\
  bind (DataRetrieval.get_data_for_all_kpis_step data_agent kpi_without_name)
       (Main.process_kpi insight_agent [kpi_without_name; kpi_called_unnamed] [])
       (start (mk_script [Ok fenced_sql; Ok "Grows."; Ok "[]"] [Ok spent_table] []))
  = bind (DataRetrieval.get_data_for_all_kpis_step data_agent kpi_without_name)
         (Main.process_kpi insight_agent [kpi_called_unnamed] [])
         (start (mk_script [Ok fenced_sql; Ok "Grows."; Ok "[]"] [Ok spent_table] [])).
Proof.
  destruct (LoopFacts.record_without_name_is_not_found
              (H := scripted) (H0 := sample_library)
              data_agent insight_agent [kpi_spent; kpi_without_name] kpi_without_name []
              (start (mk_script [Ok fenced_sql; Ok "never asked"] [Ok spent_table] []))
              eq_refl) as (r & s1 & Hstep & _ & _ & _ & Hnone & _).
  destruct (Hnone eq_refl) as (s' & Hrun & _).
  destruct (LoopFacts.record_without_name_is_not_found
              (H := scripted) (H0 := sample_library)
              data_agent insight_agent [kpi_without_name; kpi_called_unnamed]
              kpi_without_name []
              (start (mk_script [Ok fenced_sql; Ok "Grows."; Ok "[]"] [Ok spent_table] []))
              eq_refl) as (r2 & s2 & Hstep2 & _ & _ & _ & _ & Hsome).
  destruct (Hsome kpi_called_unnamed eq_refl) as (_ & Hsame).
  split; [reflexivity | split; [reflexivity | split; [|split; [reflexivity|]]]].
  - unfold bind. rewrite Hstep, Hrun. reflexivity.
  - split; [reflexivity|].
    unfold bind. rewrite Hstep2. exact Hsame.
Defined.

(** X8 on a table with a text column and a boolean column. *)
Lemma text_table_has_no_numeric_analysis :
  forallb (fun c => negb (is_np_number (snd c))) (columns text_table) = true /\
  InsightGeneration.descriptive_stats text_table = Ok empty_frame /\
  InsightGeneration.anomaly_detection text_table 3%float = Ok [].
Proof.
  destruct (AnalysisFacts.no_numeric_column_no_numeric_analysis
              insight_agent text_table 3%float eq_refl) as (Hstats & _ & Hanom & _).
  split; [reflexivity | split; [exact Hstats | exact Hanom]].
Defined.

(** X9 on a column of eleven values present, one of them far off, and one
    value missing: the row far off is reported, the row without value is
    not. *)
Lemma spike_is_reported_missing_row_is_not :
  InsightGeneration.anomaly_detection spiky_table 3%float = Ok [("value", [11%Z])] /\
  exists s,
    get_column (select_dtypes is_np_number spiky_table) "value" = Ok s /\
    forall l, In l [11%Z] -> exists c, In (l, c) (s_items s) /\ isna c = false.
Proof.
  destruct (AnalysisFacts.anomalies_are_rows_holding_a_value
              (H := sample_library) spiky_table 3%float [("value", [11%Z])] eq_refl) as (_ & Hrows).
  split; [reflexivity|]. exact (Hrows "value" [11%Z] eq_refl).
Defined.

(** X12 on two lines of code without fence. *)
Lemma plain_code_is_kept :
  forallb fence_free (split_lines ("import plotly.express as px" ++ nl
                                   ++ "fig = px.line(data_df)")) = true /\
  Visualization._clean_generated_code
    ("import plotly.express as px" ++ nl ++ "fig = px.line(data_df)")
  = "import plotly.express as px" ++ nl ++ "fig = px.line(data_df)".
Proof.
  split; [reflexivity|].
  exact (CodeFacts.code_without_fences_is_unchanged
           ("import plotly.express as px" ++ nl ++ "fig = px.line(data_df)") eq_refl).
Defined.

(** X13 on the same two lines between fences. *)
Lemma fenced_code_is_unwrapped :
  forallb one_line ["import plotly.express as px"; "fig = px.line(data_df)"] = true /\
  forallb fence_free ["import plotly.express as px"; "fig = px.line(data_df)"] = true /\
  Visualization._clean_generated_code
    ("```python" ++ nl ++ "import plotly.express as px" ++ nl
     ++ "fig = px.line(data_df)" ++ nl ++ "```")
  = "import plotly.express as px" ++ nl ++ "fig = px.line(data_df)" ++ nl.
Proof.
  destruct (CodeFacts.fenced_code_keeps_a_trailing_line_feed
              "```python" ["import plotly.express as px"; "fig = px.line(data_df)"]
              (or_introl eq_refl) eq_refl eq_refl) as (_ & Hbody).
  assert (Hne : ["import plotly.express as px"; "fig = px.line(data_df)"] <> [])
    by discriminate.
  split; [reflexivity | split; [reflexivity | exact (Hbody Hne)]].
Defined.


(** X19 on a table with a column of epoch numbers named [timestamp]. *)
Lemma epoch_column_fails_the_insight :
  InsightGeneration.datetime_col epoch_agent = Some "timestamp" /\
  In ("timestamp", int64) (columns epoch_table) /\
  InsightGeneration.detect_trends epoch_agent epoch_table "timestamp" 3
  = Raise label_not_unique /\
  exists e,
    InsightGeneration.generate_insights_for_kpi
      epoch_agent kpi_spent epoch_table (start (replies []))
    = (Ok [("summary",
            InsightGeneration.VStr
              ("Failed to generate insights for KPI 'Total Spent': " ++ exn_str e))],
       start (replies [])).
Proof.
  assert (Hne : "timestamp" <> EmptyString) by discriminate.
  destruct (InsightLoopFacts.numeric_time_column_fails_the_insight
              (H := sample_library) (H0 := scripted)
              epoch_agent kpi_spent epoch_table "timestamp" int64 (start (replies []))
              eq_refl Hne (or_introl eq_refl) eq_refl eq_refl) as (Htrend & e & Hrun).
  split; [reflexivity | split; [now left | split; [exact Htrend|]]].
  exists e. exact Hrun.
Defined.

(** X20 on the same table: the insight fails, no chart is suggested, and
    the KPI is in the mapping all the same. *)
Lemma epoch_kpi_is_kept_with_its_failure :
  Main.process_kpi epoch_agent [kpi_spent] [] ("Total Spent", Some epoch_table)
                   (start (replies ["[]"]))
  = (Ok [("Total Spent",
          ("Failed to generate insights for KPI 'Total Spent': "
           ++ "The column label 'timestamp' is not unique.", None))],
     snd (Main.process_kpi epoch_agent [kpi_spent] [] ("Total Spent", Some epoch_table)
                           (start (replies ["[]"])))).
Proof.
  pose proof (fun s1 s2 =>
                InsightLoopFacts.failed_insight_still_gets_an_entry
                  (H := sample_library) (H0 := scripted)
                  epoch_agent [kpi_spent] kpi_spent [] "Total Spent" epoch_table
                  (start (replies ["[]"])) s1 s2 label_not_unique None
                  eq_refl eq_refl) as Hkept.
  edestruct Hkept as (s' & Hrun & _); [reflexivity | reflexivity |].
  rewrite Hrun. reflexivity.
Defined.

(** X3 on the agent of [data/sales.csv], stage by stage. *)
Lemma sales_agent_schema_by_stage :
  Loading.schema fresh_sales_agent = None /\
  Loading.schema_api fresh_sales_agent
  = Raise (TypeError "'NoneType' object is not iterable") /\
  exists annotated summary,
    Loading.annotate_schema (Loading.parse_schema fresh_sales_agent) = Ok annotated /\
    Loading.schema_api annotated = Ok summary /\
    identifiers summary = ["user_id"] /\
    metrics summary = ["total_spent"] /\
    dimensions summary = ["date"].
Proof.
  pose proof (LoadingFacts.schema_api_splits_the_columns fresh_sales_agent) as Hsplit.
  cbv zeta in Hsplit.
  destruct Hsplit as (Hnone & _ & annotated & summary & Hann & Hapi & _ & Hid & Hm & Hd & _).
  split; [reflexivity | split; [exact (proj2 (Hnone eq_refl))|]].
  exists annotated, summary.
  split; [exact Hann | split; [exact Hapi | split; [exact Hid | split; [exact Hm | exact Hd]]]].
Defined.

(** X10 on the table of spendings: two clusters are found, six are not
    looked for. *)
Lemma spendings_fall_into_two_clusters :
  InsightGeneration.detect_clusters spent_table 6 = Ok None /\
  exists m,
    InsightGeneration.detect_clusters spent_table 2 = Ok (Some m) /\
    Permutation (clustered_rows m) [0; 1; 2; 3; 4]%Z.
Proof.
  pose proof (BundleFacts.detect_clusters_splits_the_complete_rows
                (H := sample_library) spent_table 6) as Hsix.
  pose proof (BundleFacts.detect_clusters_splits_the_complete_rows
                (H := sample_library) spent_table 2) as Htwo.
  cbv zeta in Hsix, Htwo.
  destruct Hsix as (Hnone & _). destruct Htwo as (_ & Hrun).
  assert (Hlt : (len (dropna (select_dtypes is_np_number spent_table)) < 6)%Z)
    by reflexivity.
  assert (Hle : (2 <= len (dropna (select_dtypes is_np_number spent_table)))%Z)
    by discriminate.
  split; [exact (Hnone (or_introl Hlt))|].
  destruct (Hrun Hle eq_refl _ eq_refl) as (Hsome & _).
  destruct (Hsome eq_refl) as (m & Hm & Hperm & _).
  exists m. split; [exact Hm | exact Hperm].
Defined.

(** X11 when the model is out of quota. *)
Lemma model_failure_becomes_the_summary :
  InsightGeneration.generate_insights_for_kpi insight_agent kpi_spent spent_table
                                              (start model_down)
  = (Ok [("summary",
          InsightGeneration.VStr
            "Failed to generate insights for KPI 'Total Spent': quota exceeded")],
     snd (InsightGeneration.insights_try_block insight_agent kpi_spent spent_table
                                               (start model_down))).
Proof.
  destruct (BundleFacts.insight_generation_never_raises
              (H := sample_library) (H0 := scripted)
              insight_agent kpi_spent spent_table (start model_down)) as (_ & Hfail).
  assert (Hblock : InsightGeneration.insights_try_block
                     insight_agent kpi_spent spent_table (start model_down)
                   = (Raise (RuntimeError "quota exceeded"),
                      snd (InsightGeneration.insights_try_block
                             insight_agent kpi_spent spent_table (start model_down))))
    by (vm_compute; reflexivity).
  exact (Hfail _ _ eq_refl Hblock).
Defined.

(** X14 when running the generated code raises [NameError], and when it
    calls [sys.exit]. *)
Lemma failing_code_gives_no_figure_exiting_code_leaves :
  fst (Visualization.generate_plotly_code "Total Spent" "Sum" "Grows" spent_table 5
                                          (start code_that_fails))
  = Ok None /\
  exec_codes (trace (snd (Visualization.generate_plotly_code
                            "Total Spent" "Sum" "Grows" spent_table 5
                            (start code_that_fails))))
  = ["fig = px.line(data_df)"] /\
  fst (Visualization.generate_plotly_code "Total Spent" "Sum" "Grows" spent_table 5
                                          (start code_that_exits))
  = Raise (OtherException "SystemExit" "1").
Proof.
  pose proof (CodeFacts.only_exceptions_of_generated_code_are_caught
                (H := scripted) (H0 := sample_library)
                "Total Spent" "Sum" "Grows" spent_table 5 (start code_that_fails)) as Hrun.
  pose proof (CodeFacts.only_exceptions_of_generated_code_are_caught
                (H := scripted) (H0 := sample_library)
                "Total Spent" "Sum" "Grows" spent_table 5 (start code_that_exits)) as Hexit.
  cbv zeta in Hrun, Hexit.
  destruct Hrun as (Hreply & _). destruct Hexit as (Hreply' & _).
  destruct (Hreply "fig = px.line(data_df)"
                   (mk_script [] [] [Raised (OtherException "NameError"
                                                            "name 'px' is not defined")])
                   eq_refl) as (s' & Hgen & _ & Hcodes & _).
  destruct (Hreply' "import sys; sys.exit(1)"
                    (mk_script [] [] [Exited (OtherException "SystemExit" "1")])
                    eq_refl) as (s'' & Hgen' & _).
  rewrite Hgen, Hgen'. split; [reflexivity | split; [exact Hcodes | reflexivity]].
Defined.

(** X17 on the table of epoch numbers, and on a result table that lacks
    the time column. *)
Lemma epoch_table_is_timed_by_timestamp :
  has_column epoch_table "date" = false /\
  detect_datetime_col epoch_table = Some "timestamp" /\
  has_column spent_table "timestamp" = false /\
  InsightGeneration.detect_trends (make_insight_agent epoch_table) spent_table
                                  "total_spent" 3
  = Ok None.
Proof.
  destruct (PageFacts.datetime_col_is_the_first_candidate
              (H := sample_library) epoch_table) as (_ & Hsecond & _ & _ & Hlack).
  split; [reflexivity | split; [exact (Hsecond eq_refl eq_refl) | split; [reflexivity|]]].
  exact (Hlack "timestamp" spent_table "total_spent" 3%Z (Hsecond eq_refl eq_refl) eq_refl).
Defined.

(** X18 on a column with six distinct values. *)
Lemma sixth_value_is_not_in_the_prompt :
  dict_get (first_five six_values) "label"
  = Some [(Str "a", 6%Z); (Str "b", 5%Z); (Str "c", 4%Z); (Str "d", 3%Z); (Str "e", 2%Z)] /\
  List.length [(Str "a", 6%Z); (Str "b", 5%Z); (Str "c", 4%Z); (Str "d", 3%Z); (Str "e", 2%Z)]
  <= 5 /\
  InsightGeneration.textual_insight_prompt
    "Total Spent" "Sum" (mk_frame [] []) [] (mk_frame [] []) (first_five six_values)
  = InsightGeneration.textual_insight_prompt
      "Total Spent" "Sum" (mk_frame [] []) [] (mk_frame [] []) six_values.
Proof.
  destruct (InsightLoopFacts.prompt_reads_five_values_per_column
              (H := sample_library)
              "Total Spent" "Sum" (mk_frame [] []) (mk_frame [] []) [] six_values)
    as (Hprompt & Hlen).
  split; [reflexivity | split; [exact (Hlen "label" _ eq_refl) | exact Hprompt]].
Defined.

End MoreScenarios.
